(** * Minecraft server backend: lifecycle manager and backup retention

    A shallow embedding of the Python backend's core:
    - [domain/exceptions.py]                              (module [Exn])
    - the calendar arithmetic of [datetime.date] used by the
      retention code                                      (module [Date])
    - the part of the filesystem that [pathlib] and [shutil] expose to
      the storage service                                 (module [Fs])
    - [infrastructure/filesystem/daily_backup_storage_service.py]
                                                          (module [Storage])
    - [application/use_cases/ensure_daily_backup.py] and
      [application/use_cases/start_server_workflow.py]    (module [UseCases])
    - [infrastructure/process/subprocess_server_manager.py]
                                                          (module [Manager])

    The definitions come first; the properties, each with the number of
    the specification claim it settles, follow.

    Python exceptions are modelled by a sum type; every operation that
    touches the outside world threads that world explicitly and returns
    the world it leaves behind together with either the raised exception
    or the returned value. *)

From Stdlib Require Import ZArith QArith String Ascii List Lia Bool.
From stdpp Require Import gmap strings list fin_maps.

Local Open Scope Z_scope.

(** ** Exceptions and the exception/state monad *)

Module Exn.

(** The subclasses of the builtin [OSError] that the modelled
    filesystem calls raise ([ShutilError] is [shutil.Error]). *)
Inductive oserror : Type :=
| FileExistsError
| FileNotFoundError
| NotADirectoryError
| ProcessLookupError
| ShutilError.

(** [domain/exceptions.py], plus the builtin exceptions that the
    modelled code lets escape. *)
Inductive exn : Type :=
| ServerAlreadyRunningError
| ServerNotRunningError
| ResourceNotFoundError
| ArchiveCreationError
| BackupStorageError
| OverflowError          (* builtin, raised by [datetime] arithmetic *)
| OSError (e : oserror)  (* builtin, raised by [pathlib] and [shutil] *)
| SpawnError             (* whatever [subprocess.Popen] raised *)
| ValueError.            (* builtin, raised by [zipfile] *)

(** A computation over a world [W] that returns an [A] or raises.
    The world is returned in both cases: a Python exception does not
    roll back side effects. *)
Definition M (W A : Type) : Type := W -> W * (exn + A).

Definition ret {W A} (a : A) : M W A := fun w => (w, inr a).
Definition raise {W A} (e : exn) : M W A := fun w => (w, inl e).
Definition bind {W A B} (m : M W A) (k : A -> M W B) : M W B :=
  fun w => match m w with
           | (w', inr a) => k a w'
           | (w', inl e) => (w', inl e)
           end.

End Exn.
Export Exn.

Declare Scope py_scope.
Delimit Scope py_scope with py.
Notation "'let!' x ':=' m 'in' k" := (bind m (fun x => k))
  (at level 10, x name, m at level 200, k at level 200, only parsing)
  : py_scope.
Notation "'do!' m 'in' k" := (bind m (fun _ => k))
  (at level 10, m at level 200, k at level 200, only parsing) : py_scope.

(** ** Calendar dates, as [datetime.date] computes with them *)

Module Date.

Record date : Type := mkdate { year : Z; month : Z; day : Z }.

Definition _MAXORDINAL : Z := 3652059.   (* date(9999, 12, 31).toordinal() *)

Definition _is_leap (y : Z) : bool :=
  (y mod 4 =? 0) && (negb (y mod 100 =? 0) || (y mod 400 =? 0)).

Definition _DAYS_IN_MONTH (m : Z) : Z :=
  match m with
  | 1 => 31 | 2 => 28 | 3 => 31 | 4 => 30 | 5 => 31 | 6 => 30
  | 7 => 31 | 8 => 31 | 9 => 30 | 10 => 31 | 11 => 30 | 12 => 31
  | _ => -1
  end.

Definition _DAYS_BEFORE_MONTH (m : Z) : Z :=
  match m with
  | 1 => 0 | 2 => 31 | 3 => 59 | 4 => 90 | 5 => 120 | 6 => 151
  | 7 => 181 | 8 => 212 | 9 => 243 | 10 => 273 | 11 => 304 | 12 => 334
  | _ => -1
  end.

Definition b2z (b : bool) : Z := if b then 1 else 0.

Definition _days_in_month (y m : Z) : Z :=
  if (m =? 2) && _is_leap y then 29 else _DAYS_IN_MONTH m.

Definition _days_before_year (y : Z) : Z :=
  let y := y - 1 in y * 365 + y / 4 - y / 100 + y / 400.

Definition _days_before_month (y m : Z) : Z :=
  _DAYS_BEFORE_MONTH m + b2z ((2 <? m) && _is_leap y).

Definition _ymd2ord (y m d : Z) : Z :=
  _days_before_year y + _days_before_month y m + d.

Definition _DI400Y : Z := 146097.
Definition _DI100Y : Z := 36524.
Definition _DI4Y : Z := 1461.

(** [_ord2ymd], the inverse of [_ymd2ord], as [datetime] writes it. *)
Definition _ord2ymd (n : Z) : date :=
  let n := n - 1 in
  let n400 := n / _DI400Y in let n := n mod _DI400Y in
  let y := n400 * 400 + 1 in
  let n100 := n / _DI100Y in let n := n mod _DI100Y in
  let n4 := n / _DI4Y in let n := n mod _DI4Y in
  let n1 := n / 365 in let n := n mod 365 in
  let y := y + n100 * 100 + n4 * 4 + n1 in
  if (n1 =? 4) || (n100 =? 4) then mkdate (y - 1) 12 31
  else
    let leapyear := (n1 =? 3) && (negb (n4 =? 24) || (n100 =? 3)) in
    let m := Z.shiftr (n + 50) 5 in
    let preceding := _DAYS_BEFORE_MONTH m + b2z ((2 <? m) && leapyear) in
    let '(m, preceding) :=
      if n <? preceding
      then (m - 1, preceding - (_DAYS_IN_MONTH (m - 1)
                                + b2z ((m - 1 =? 2) && leapyear)))
      else (m, preceding) in
    mkdate y m (n - preceding + 1).

(** What the [date(y, m, d)] constructor accepts. *)
Definition valid (d : date) : bool :=
  (1 <=? year d) && (year d <=? 9999) &&
  (1 <=? month d) && (month d <=? 12) &&
  (1 <=? day d) && (day d <=? _days_in_month (year d) (month d)).

Definition toordinal (d : date) : Z := _ymd2ord (year d) (month d) (day d).

(** [date.__lt__]: lexicographic comparison of (year, month, day). *)
Definition lt (a b : date) : bool :=
  (year a <? year b)
  || ((year a =? year b)
      && ((month a <? month b)
          || ((month a =? month b) && (day a <? day b)))).

(** [d - timedelta(days=n)].  [timedelta] refuses more than 999999999
    days in either direction, and the result must be a date between
    0001-01-01 and 9999-12-31; both failures are [OverflowError]. *)
Definition sub_days (d : date) (n : Z) : exn + date :=
  if (n <? -999999999) || (999999999 <? n) then inl OverflowError
  else
    let o := toordinal d - n in
    if (0 <? o) && (o <=? _MAXORDINAL) then inr (_ord2ymd o)
    else inl OverflowError.

(** *** Text form

    Names are ASCII strings.  [strftime "%Y-%m-%d"] is modelled with a
    four-digit, zero-padded year. *)

Definition digit_of (c : ascii) : option Z :=
  let n := Z.of_nat (nat_of_ascii c) in
  if (48 <=? n) && (n <=? 57) then Some (n - 48) else None.

Definition char_of_digit (d : Z) : ascii :=
  ascii_of_nat (Z.to_nat (48 + d mod 10)).

Definition pad2 (n : Z) : string :=
  String (char_of_digit (n / 10)) (String (char_of_digit n) EmptyString).

Definition pad4 (n : Z) : string :=
  String (char_of_digit (n / 1000))
    (String (char_of_digit (n / 100)) (pad2 n)).

Definition strftime_Ymd (d : date) : string :=
  (pad4 (year d) ++ "-" ++ pad2 (month d) ++ "-" ++ pad2 (day d))%string.

Definition in_range (lo hi : Z) (c : ascii) : option Z :=
  match digit_of c with
  | Some v => if (lo <=? v) && (v <=? hi) then Some v else None
  | None => None
  end.

(** [%m] is the regular expression [1[0-2]|0[1-9]|[1-9]]; the first
    alternative that matches is the one taken. *)
Definition parse_m (s : list ascii) : option (Z * list ascii) :=
  match s with
  | c1 :: c2 :: rest =>
      match in_range 1 1 c1, in_range 0 2 c2 with
      | Some _, Some v => Some (10 + v, rest)
      | _, _ =>
          match in_range 0 0 c1, in_range 1 9 c2 with
          | Some _, Some v => Some (v, rest)
          | _, _ =>
              match in_range 1 9 c1 with
              | Some v => Some (v, c2 :: rest)
              | None => None
              end
          end
      end
  | [c1] => match in_range 1 9 c1 with Some v => Some (v, []) | None => None end
  | [] => None
  end.

(** [%d] is [3[01]|[12]\d|0[1-9]|[1-9]| [1-9]]. *)
Definition parse_d (s : list ascii) : option (Z * list ascii) :=
  match s with
  | c1 :: c2 :: rest =>
      match in_range 3 3 c1, in_range 0 1 c2 with
      | Some _, Some v => Some (30 + v, rest)
      | _, _ =>
          match in_range 1 2 c1, in_range 0 9 c2 with
          | Some t, Some v => Some (10 * t + v, rest)
          | _, _ =>
              match in_range 0 0 c1, in_range 1 9 c2 with
              | Some _, Some v => Some (v, rest)
              | _, _ =>
                  match in_range 1 9 c1 with
                  | Some v => Some (v, c2 :: rest)
                  | None =>
                      if Ascii.eqb c1 " "%char then
                        match in_range 1 9 c2 with
                        | Some v => Some (v, rest)
                        | None => None
                        end
                      else None
                  end
              end
          end
      end
  | [c1] => match in_range 1 9 c1 with Some v => Some (v, []) | None => None end
  | [] => None
  end.

Definition is_dash (c : ascii) : bool := Ascii.eqb c "-"%char.

(** [datetime.strptime(s, "%Y-%m-%d").date()]; [None] is [ValueError]. *)
Definition strptime_Ymd (s : string) : option date :=
  match list_ascii_of_string s with
  | y1 :: y2 :: y3 :: y4 :: dash1 :: rest =>
      match digit_of y1, digit_of y2, digit_of y3, digit_of y4 with
      | Some a, Some b, Some c, Some d =>
          if is_dash dash1 then
            match parse_m rest with
            | Some (m, dash2 :: rest') =>
                if is_dash dash2 then
                  match parse_d rest' with
                  | Some (dd, []) =>
                      let r := mkdate (1000 * a + 100 * b + 10 * c + d) m dd in
                      if valid r then Some r else None
                  | _ => None
                  end
                else None
            | _ => None
            end
          else None
      | _, _, _, _ => None
      end
  | _ => None
  end.

End Date.


(** ** The filesystem seen through [pathlib] and [shutil] *)

Module Fs.

(** A directory entry: a regular file with its content, or a directory. *)
Inductive node : Type :=
| File (content : string)
| Dir.

(** An absolute path is the list of its components, innermost first:
    [/srv/backups/2024-01-10] is ["2024-01-10"; "backups"; "srv"].  The
    ancestors of a path are then its suffixes and [Path.parent] is the
    tail.  The root [[]] always exists and is a directory. *)
Abbreviation path := (list string).

Abbreviation FS := (gmap (list string) node).

Definition joinpath (p : path) (name : string) : path := name :: p.

(** Whether a string is one path component on POSIX: not empty, not
    [.] or [..], without [/] and without NUL, and of at most 255 bytes.
    For such a [name], and for no other, [p / name] is the entry [name]
    of the directory [p], which is what [joinpath] gives. *)
Definition is_component (name : string) : bool :=
  negb (String.eqb name "") && negb (String.eqb name ".")
  && negb (String.eqb name "..")
  && forallb (fun c => negb (Ascii.eqb c "/") && negb (Ascii.eqb c "000"))
       (list_ascii_of_string name)
  && (Z.of_nat (String.length name) <=? 255).
Definition parent (p : path) : path := tail p.
Definition name (p : path) : string :=
  match p with n :: _ => n | [] => EmptyString end.

Definition stat (fs : FS) (p : path) : option node :=
  match p with
  | [] => Some Dir
  | _ => fs !! p
  end.

Definition exists_ (fs : FS) (p : path) : bool :=
  match stat fs p with Some _ => true | None => false end.

Definition is_dir (fs : FS) (p : path) : bool :=
  match stat fs p with Some Dir => true | _ => false end.

(** [os.mkdir]. *)
Definition os_mkdir (p : path) (fs : FS) : oserror + FS :=
  match stat fs p with
  | Some _ => inl FileExistsError
  | None =>
      match stat fs (parent p) with
      | Some Dir => inr (<[p := Dir]> fs)
      | Some (File _) => inl NotADirectoryError
      | None => inl FileNotFoundError
      end
  end.

(** [Path.mkdir(parents=False, exist_ok=...)]. *)
Definition Path_mkdir (exist_ok : bool) (p : path) (fs : FS) : oserror + FS :=
  match os_mkdir p fs with
  | inr fs' => inr fs'
  | inl FileNotFoundError => inl FileNotFoundError
  | inl e => if exist_ok && is_dir fs p then inr fs else inl e
  end.

(** [Path.mkdir(parents=True, exist_ok=...)]: when the parent is
    missing, create it (with [parents=True, exist_ok=True]) and retry
    without [parents]. *)
Fixpoint Path_mkdir_parents (exist_ok : bool) (p : path) (fs : FS)
  : oserror + FS :=
  match os_mkdir p fs with
  | inr fs' => inr fs'
  | inl FileNotFoundError =>
      match p with
      | [] => inl FileNotFoundError
      | _ :: par =>
          match Path_mkdir_parents true par fs with
          | inl e => inl e
          | inr fs1 => Path_mkdir exist_ok p fs1
          end
      end
  | inl e => if exist_ok && is_dir fs p then inr fs else inl e
  end.

(** The entries directly inside [p]. *)
Definition is_child (p q : path) : Prop := q <> [] /\ tail q = p.

#[export] Instance is_child_dec p q : Decision (is_child p q).
Proof. unfold is_child. apply _. Defined.

(** [Path.iterdir]: the children of a directory, in the order the
    operating system lists them (here: the order of the map). *)
Definition iterdir (p : path) (fs : FS) : oserror + list path :=
  match stat fs p with
  | Some Dir => inr (filter (is_child p) (map_to_list fs).*1)
  | Some (File _) => inl NotADirectoryError
  | None => inl FileNotFoundError
  end.

(** [shutil.rmtree(p, ignore_errors=False)]: [p] and everything below. *)
Definition rmtree (p : path) (fs : FS) : oserror + FS :=
  match stat fs p with
  | Some Dir => inr (filter (fun kv => ~ (p `suffix_of` kv.1)) fs)
  | Some (File _) => inl NotADirectoryError
  | None => inl FileNotFoundError
  end.

(** Re-root a path that lies at or below [src] to the same place at or
    below [dst]. *)
Definition rebase (src dst q : path) : path :=
  take (length q - length src)%nat q ++ dst.

(** The effect of a successful [os.rename] of a directory. *)
Definition rename_tree (src dst : path) (fs : FS) : FS :=
  list_to_map
    (prod_map (rebase src dst) id
       <$> map_to_list (filter (fun kv => src `suffix_of` kv.1) fs))
  ∪ filter (fun kv => ~ (src `suffix_of` kv.1)) fs.

(** [shutil.move(src, dst)] for a destination that does not exist,
    which is what the guards of [store_archive] establish before the
    call.  The modelled filesystem is one filesystem, so [os.rename]
    does the move whenever the parent of [dst] is a directory and [dst]
    does not lie below [src].  When [os.rename] fails, [shutil.move]
    falls back: for a regular file to a copy, which fails as well when
    the parent of [dst] is missing or not a directory; for a directory
    to [shutil.Error] when [dst] lies below [src], and else to
    [copytree], whose [os.makedirs] creates the missing ancestors of
    [dst] first. *)
Definition shutil_move (src dst : path) (fs : FS) : oserror + (FS * path) :=
  match stat fs src with
  | None => inl FileNotFoundError
  | Some (File c) =>
      match stat fs (parent dst) with
      | Some Dir => inr (<[dst := File c]> (delete src fs), dst)
      | Some (File _) => inl NotADirectoryError
      | None => inl FileNotFoundError
      end
  | Some Dir =>
      if bool_decide (src `suffix_of` dst) then inl ShutilError
      else
        match stat fs (parent dst) with
        | Some (File _) => inl NotADirectoryError
        | _ =>
            match Path_mkdir_parents true (parent dst) fs with
            | inl e => inl e
            | inr fs => inr (rename_tree src dst fs, dst)
            end
        end
  end.

(** The nearest existing ancestor of [p] ([p] itself included) is a
    directory: the condition under which [p] can be created with
    [mkdir(parents=True, exist_ok=True)]. *)
Fixpoint creatable (fs : FS) (p : path) : bool :=
  match stat fs p with
  | Some Dir => true
  | Some (File _) => false
  | None => match p with [] => false | _ :: par => creatable fs par end
  end.

(** Every entry sits in a directory. *)
Definition wf (fs : FS) : Prop :=
  map_Forall (fun p _ => p <> [] /\ is_dir fs (parent p) = true) fs.

#[export] Instance wf_dec fs : Decision (wf fs).
Proof. unfold wf. apply _. Defined.

End Fs.
Export Fs.



(** ** [DailyBackupStorageService] *)

Module Storage.

Import Date.

Section DailyBackupStorageService.

(** [self._base_directory] *)
Variable _base_directory : path.

(** [date.today()] at the time of the call. *)
Variable today : date.

Definition prepare_daily_directory (backup_date : date) : M FS (option path) :=
  fun fs =>
    match Path_mkdir_parents true _base_directory fs with
    | inl _ => (fs, inl BackupStorageError)
    | inr fs =>
        let target_dir := joinpath _base_directory (strftime_Ymd backup_date) in
        if exists_ fs target_dir then
          if negb (is_dir fs target_dir) then (fs, inl BackupStorageError)
          else (fs, inr None)
        else
          match Path_mkdir false target_dir fs with
          | inl _ => (fs, inl BackupStorageError)
          | inr fs => (fs, inr (Some target_dir))
          end
    end.

(** [filename] is one path component ([is_component]), so that
    [destination_dir / filename] is [joinpath destination_dir filename]:
    the properties of [store_archive] are stated for such names.  Other
    strings are outside this model: [pathlib] joins them differently (an
    empty name or [.] gives the directory itself, a name with [/]
    several components or an absolute path), and a name with NUL or an
    over-long one makes the calls raise other exceptions. *)
Definition store_archive (archive_path destination_dir : path)
    (filename : string) : M FS path :=
  fun fs =>
    if negb (exists_ fs archive_path) then (fs, inl BackupStorageError)
    else if negb (exists_ fs destination_dir) || negb (is_dir fs destination_dir)
    then (fs, inl BackupStorageError)
    else
      let destination := joinpath destination_dir filename in
      if exists_ fs destination then (fs, inl BackupStorageError)
      else
        match shutil_move archive_path destination fs with
        | inl _ => (fs, inl BackupStorageError)
        | inr (fs, moved_path) => (fs, inr moved_path)
        end.

(** The body of the [for candidate in ...iterdir()] loop, iterated. *)
Fixpoint prune_loop (keep_from : date) (candidates removed : list path)
    (fs : FS) : FS * (exn + list path) :=
  match candidates with
  | [] => (fs, inr removed)
  | candidate :: rest =>
      if negb (is_dir fs candidate) then prune_loop keep_from rest removed fs
      else
        match strptime_Ymd (name candidate) with
        | None => prune_loop keep_from rest removed fs
        | Some candidate_date =>
            if Date.lt candidate_date keep_from then
              match rmtree candidate fs with
              | inl e => (fs, inl (OSError e))
              | inr fs => prune_loop keep_from rest (removed ++ [candidate]) fs
              end
            else prune_loop keep_from rest removed fs
        end
  end.

Definition prune_older_than (retention_days : Z) (reference_date : option date)
  : M FS (list path) :=
  fun fs =>
    let retention_days := if retention_days <=? 0 then 1 else retention_days in
    let reference :=
      match reference_date with Some d => d | None => today end in
    match sub_days reference (retention_days - 1) with
    | inl e => (fs, inl e)
    | inr keep_from =>
        if negb (exists_ fs _base_directory) then (fs, inr [])
        else
          match iterdir _base_directory fs with
          | inl e => (fs, inl (OSError e))
          | inr candidates => prune_loop keep_from candidates [] fs
          end
    end.

End DailyBackupStorageService.

End Storage.



(** ** The application use cases *)

Module UseCases.

Import Date.

(** [ArchiveService] and [BackupStorageService], the two ports of the
    backup use case, as computations over the filesystem. *)
Class ArchiveService : Type :=
  { create_zip : path -> M FS path }.

Class BackupStorageService : Type :=
  { prepare_daily_directory : date -> M FS (option path);
    store_archive : path -> path -> string -> M FS path;
    prune_older_than : Z -> option date -> M FS (list path) }.

(** [DailyBackupStorageService(base_directory)], on a day [today]. *)
Definition DailyBackupStorageService (base_directory : path) (today : date)
  : BackupStorageService :=
  {| prepare_daily_directory := Storage.prepare_daily_directory base_directory;
     store_archive := Storage.store_archive;
     prune_older_than := Storage.prune_older_than base_directory today |}.

(** [tempfile.mkstemp]: an empty file is created under [tmp_path], the
    name that [mkstemp] settles on (when it gives up: the last name it
    tried), given from outside.  It raises when the temporary directory
    is not there or the name is taken. *)
Definition mkstemp (tmp_path : path) (fs : FS) : oserror + FS :=
  match stat fs tmp_path with
  | Some _ => inl FileExistsError
  | None =>
      match stat fs (parent tmp_path) with
      | Some Dir => inr (<[tmp_path := File ""]> fs)
      | Some (File _) => inl NotADirectoryError
      | None => inl FileNotFoundError
      end
  end.

(** How the [with zipfile.ZipFile(...)] block of [create_zip] ends: it
    leaves the archive [zipped]; or it raises an [OSError]; or it raises
    another exception, which [zipfile] does with [ValueError] for a file
    stamped before 1980, and leaves what it has written so far. *)
Inductive zip_result : Type :=
| zip_written (zipped : string)
| zip_OSError (e : oserror)
| zip_ValueError (partial : string).

(** [ZipArchiveService.create_zip(source)] without extra files, for the
    name that [mkstemp] settles on and the way the writing ends. *)
Definition ZipArchiveService_with (tmp_path : path) (written : zip_result)
  : ArchiveService :=
  {| create_zip := fun source fs =>
       if negb (exists_ fs source) then (fs, inl ResourceNotFoundError)
       else if negb (is_dir fs source) then (fs, inl ArchiveCreationError)
       else
         match mkstemp tmp_path fs with
         | inl e => (fs, inl (OSError e))
         | inr fs =>
             let archive_path := tmp_path in
             match written with
             | zip_written zipped =>
                 (<[archive_path := File zipped]> fs, inr archive_path)
             | zip_OSError _ =>
                 (delete archive_path fs, inl ArchiveCreationError)
             | zip_ValueError partial =>
                 (<[archive_path := File partial]> fs, inl ValueError)
             end
         end |}.

(** The service in a run where the archive [zipped] gets written. *)
Definition ZipArchiveService (tmp_path : path) (zipped : string)
  : ArchiveService :=
  ZipArchiveService_with tmp_path (zip_written zipped).

(** A call made through one of the ports. *)
Inductive call : Type :=
| call_prepare_daily_directory (backup_date : date)
| call_create_zip (source : path)
| call_store_archive (archive_path destination_dir : path) (filename : string)
| call_prune_older_than (retention_days : Z) (reference_date : option date).

(** The world of the use case: the filesystem, and the journal of the
    port calls made so far. *)
Record world : Type := mkworld { fs : FS; journal : list call }.

(** Calling a port method: the call is entered in the journal and the
    method runs on the filesystem. *)
Definition invoke {A} (c : call) (m : M FS A) : M world A :=
  fun w =>
    let '(fs', r) := m (fs w) in
    ({| fs := fs'; journal := journal w ++ [c] |}, r).

Section EnsureDailyBackupUseCase.

Context (_archive_service : ArchiveService).
Context (_backup_storage : BackupStorageService).
Variable _server_root : path.
Variable _retention_days : Z.
Variable _archive_filename : string.

(** [date.today()] at the time of the call. *)
Variable date_today : date.

Definition execute : M world bool :=
  (let today := date_today in
   let! destination_dir := invoke (call_prepare_daily_directory today)
                             (prepare_daily_directory today) in
   match destination_dir with
   | None => ret false
   | Some destination_dir =>
       let! archive_path := invoke (call_create_zip _server_root)
                              (create_zip _server_root) in
       do! invoke (call_store_archive archive_path destination_dir
                     _archive_filename)
             (store_archive archive_path destination_dir _archive_filename) in
       do! invoke (call_prune_older_than _retention_days (Some today))
             (prune_older_than _retention_days (Some today)) in
       ret true
   end)%py.

End EnsureDailyBackupUseCase.

(** [StartServerWorkflowUseCase], over any world [W]: the two injected
    use cases are given by their [execute] methods. *)
Section StartServerWorkflowUseCase.

Context {W : Type}.
Variable _start_use_case : M W unit.
Variable _backup_use_case : option (M W bool).

Definition workflow_execute : M W bool :=
  (let! backup_performed := match _backup_use_case with
                             | Some backup_use_case => backup_use_case
                             | None => ret false
                             end in
   do! _start_use_case in
   ret backup_performed)%py.

End StartServerWorkflowUseCase.

End UseCases.

(** ** [SubprocessServerManager] *)

Module Manager.

(** [ServerState] *)
Inductive ServerState : Type := STOPPED | STARTING | RUNNING.

#[export] Instance ServerState_eq_dec : EqDecision ServerState.
Proof. solve_decision. Defined.

(** A [subprocess.Popen] object, known by the process id. *)
Record Popen : Type := mkPopen { pid : Z }.

(** The fields of the manager that the lock protects.  Clock readings
    ([time.monotonic()]) are rationals, in seconds. *)
Record SubprocessServerManager : Type := mkManager
  { _process : option Popen;
    _state : ServerState;
    _state_since : Q }.

Definition _startup_grace_period : Q := 10%Q.

Definition __init__ (now : Q) : SubprocessServerManager :=
  {| _process := None; _state := STOPPED; _state_since := now |}.

Definition set_process (p : option Popen) (self : SubprocessServerManager)
  : SubprocessServerManager :=
  {| _process := p; _state := _state self; _state_since := _state_since self |}.

(** What one critical section observes of the outside: whether the
    child is still alive ([self._process.poll() is None]; once a child
    has been seen dead it stays dead), the clock read to compute the
    elapsed time, and the clock read when a transition is stamped. *)
Record obs : Type := mkobs
  { poll_is_None : bool;
    t_elapsed : Q;
    t_stamp : Q }.

(** [now] is the reading of [monotonic()] taken if the state changes. *)
Definition _set_state_locked (state : ServerState) (now : Q)
    (self : SubprocessServerManager) : SubprocessServerManager :=
  if decide (_state self = state) then self
  else {| _process := _process self; _state := state; _state_since := now |}.

(** [self._process is not None and self._process.poll() is None] *)
Definition is_alive (poll_is_None : bool) (self : SubprocessServerManager)
  : bool :=
  match _process self with
  | Some _ => poll_is_None
  | None => false
  end.

Definition _refresh_state_locked (running : option bool) (o : obs)
    (self : SubprocessServerManager) : SubprocessServerManager :=
  let running :=
    match running with
    | Some r => r
    | None => is_alive (poll_is_None o) self
    end in
  if negb running then
    let self :=
      match _process self with
      | Some _ => if negb (poll_is_None o) then set_process None self else self
      | None => self
      end in
    _set_state_locked STOPPED (t_stamp o) self
  else if decide (_state self = STARTING) then
    let elapsed := (t_elapsed o - _state_since self)%Q in
    if Qle_bool _startup_grace_period elapsed
    then _set_state_locked RUNNING (t_stamp o) self
    else self
  else if decide (_state self = RUNNING) then self
  else _set_state_locked RUNNING (t_stamp o) self.

(** Calls into the operating system, in the order they are made. *)
Inductive signal : Type := SIGTERM | SIGKILL | CTRL_BREAK_EVENT.

Inductive os_call : Type :=
| spawn (shell_wrapped : bool) (script : path)
        (new_process_group new_session : bool) (cwd : path)
| signal_process (target : Z) (s : signal)   (* the child process only *)
| signal_group_of (target : Z) (s : signal)  (* [os.killpg(os.getpgid(pid), s)] *)
| taskkill_tree (target : Z)                 (* [taskkill /PID pid /T /F] *)
| wait (target : Z) (timeout : Z).

(** The manager and the journal of its calls to the operating system. *)
Record world : Type := mkworld
  { self : SubprocessServerManager;
    os_calls : list os_call }.

Definition is_running (o : obs) : M world bool :=
  fun w =>
    let running := is_alive (poll_is_None o) (self w) in
    ({| self := _refresh_state_locked (Some running) o (self w);
        os_calls := os_calls w |},
     inr running).

Definition get_state (o : obs) : M world ServerState :=
  fun w =>
    let self' := _refresh_state_locked None o (self w) in
    ({| self := self'; os_calls := os_calls w |}, inr (_state self')).

(** What [start] meets: whether the script is there, the platform
    ([os.name == "nt"]), the liveness of a child already held, the clock
    when the state is stamped [STARTING], what [subprocess.Popen] does
    ([None]: it raises), and the clock when a failed spawn is stamped
    [STOPPED]. *)
Record start_env : Type := mkstart_env
  { script_exists : bool;
    start_nt : bool;
    start_poll_is_None : bool;
    t_starting : Q;
    popen : option Popen;
    t_spawn_failed : Q }.

(** The part of [start] under the lock. *)
Definition start_locked (e : start_env) (script_path : path)
    (self : SubprocessServerManager)
  : SubprocessServerManager * list os_call * (exn + unit) :=
  if is_alive (start_poll_is_None e) self
  then (self, [], inl ServerAlreadyRunningError)
  else
    let self := _set_state_locked STARTING (t_starting e) self in
    let call :=
      spawn (start_nt e) script_path (start_nt e) (negb (start_nt e))
        (parent script_path) in
    match popen e with
    | Some process => (set_process (Some process) self, [call], inr tt)
    | None =>
        (_set_state_locked STOPPED (t_spawn_failed e) (set_process None self),
         [call], inl SpawnError)
    end.

Definition start (e : start_env) (script_path : path) : M world unit :=
  fun w =>
    if negb (script_exists e) then (w, inl ResourceNotFoundError)
    else
      let '(self', calls, r) := start_locked e script_path (self w) in
      ({| self := self'; os_calls := os_calls w ++ calls |}, r).

(** What [stop] meets: the liveness of the child on entry, the clock
    when a manager without live child is stamped [STOPPED], the
    platform, whether the first signalling call raises, whether the
    child exits within the 60 seconds, the return code of [taskkill],
    whether the child exits within the further 10 seconds, the clock when
    the stop is stamped, and what the closing refresh observes. *)
Record stop_env : Type := mkstop_env
  { stop_poll_is_None : bool;
    t_not_running : Q;
    stop_nt : bool;
    signal_raises : bool;
    exited_within_60 : bool;
    taskkill_returncode : Z;
    exited_within_10 : bool;
    t_stopped : Q;
    closing : obs }.

(** The first critical section of [stop]. *)
Definition stop_enter (e : stop_env) (self : SubprocessServerManager)
  : SubprocessServerManager * (exn + Popen) :=
  match _process self with
  | Some process =>
      if stop_poll_is_None e then (self, inr process)
      else (_set_state_locked STOPPED (t_not_running e) (set_process None self),
            inl ServerNotRunningError)
  | None =>
      (_set_state_locked STOPPED (t_not_running e) (set_process None self),
       inl ServerNotRunningError)
  end.

(** The [try] block of [stop], outside the lock: the calls made, and
    how the block ends. *)
Definition terminate (e : stop_env) (process : Popen)
  : list os_call * (exn + unit) :=
  if stop_nt e then
    if signal_raises e
    then ([signal_process (pid process) CTRL_BREAK_EVENT],
          inl (OSError ProcessLookupError))
    else if exited_within_60 e
    then ([signal_process (pid process) CTRL_BREAK_EVENT;
           wait (pid process) 60], inr tt)
    else if negb (taskkill_returncode e =? 0)
    then ([signal_process (pid process) CTRL_BREAK_EVENT;
           wait (pid process) 60; taskkill_tree (pid process)],
          inl ServerNotRunningError)
    else if exited_within_10 e
    then ([signal_process (pid process) CTRL_BREAK_EVENT;
           wait (pid process) 60; taskkill_tree (pid process);
           wait (pid process) 10], inr tt)
    else ([signal_process (pid process) CTRL_BREAK_EVENT;
           wait (pid process) 60; taskkill_tree (pid process);
           wait (pid process) 10], inl ServerNotRunningError)
  else
    if signal_raises e
    then ([signal_group_of (pid process) SIGTERM],
          inl (OSError ProcessLookupError))
    else if exited_within_60 e
    then ([signal_group_of (pid process) SIGTERM; wait (pid process) 60],
          inr tt)
    else ([signal_group_of (pid process) SIGTERM; wait (pid process) 60;
           signal_process (pid process) SIGKILL],   (* [process.kill()] *)
          inl ServerNotRunningError).

(** The [finally] block of [stop], under the lock again. *)
Definition stop_exit (e : stop_env) (success : bool)
    (self : SubprocessServerManager) : SubprocessServerManager :=
  if success
  then _set_state_locked STOPPED (t_stopped e) (set_process None self)
  else _refresh_state_locked None (closing e) self.

Definition stop (e : stop_env) : M world unit :=
  fun w =>
    match stop_enter e (self w) with
    | (self', inl err) => ({| self := self'; os_calls := os_calls w |}, inl err)
    | (self', inr process) =>
        let '(calls, outcome) := terminate e process in
        let success := match outcome with inr _ => true | inl _ => false end in
        ({| self := stop_exit e success self';
            os_calls := os_calls w ++ calls |}, outcome)
    end.

(** The public operations, and a run of them one after the other. *)
Inductive operation : Type :=
| op_is_running (o : obs)
| op_get_state (o : obs)
| op_start (e : start_env) (script_path : path)
| op_stop (e : stop_env).

Definition perform (op : operation) (w : world) : world :=
  match op with
  | op_is_running o => fst (is_running o w)
  | op_get_state o => fst (get_state o w)
  | op_start e script_path => fst (start e script_path w)
  | op_stop e => fst (stop e w)
  end.

(** The critical sections, for runs in which callers interleave. *)
Inductive critical_section : Type :=
| cs_is_running (o : obs)
| cs_get_state (o : obs)
| cs_start (e : start_env) (script_path : path)
| cs_stop_enter (e : stop_env)
| cs_stop_exit (e : stop_env) (success : bool).

Definition enter (c : critical_section) (self : SubprocessServerManager)
  : SubprocessServerManager :=
  match c with
  | cs_is_running o =>
      _refresh_state_locked (Some (is_alive (poll_is_None o) self)) o self
  | cs_get_state o => _refresh_state_locked None o self
  | cs_start e script_path => fst (fst (start_locked e script_path self))
  | cs_stop_enter e => fst (stop_enter e self)
  | cs_stop_exit e success => stop_exit e success self
  end.

End Manager.

(** ** Vocabulary of the statements *)

Section Vocabulary.

Import Date Manager.

(** Whether the loop of [prune_older_than] deletes the candidate. *)
Definition qualifies (keep_from : date) (fs : FS) (c : path) : bool :=
  is_dir fs c
  && match strptime_Ymd (name c) with
     | Some d => Date.lt d keep_from
     | None => false
     end.

(** What is left after deleting the trees rooted at [removed]. *)
Definition without (removed : list path) (fs : FS) (q : path) : option node :=
  if decide (Exists (fun r => r `suffix_of` q) removed) then None else fs !! q.

(** The calendar repeats every 400 years, that is every 146097 days:
    [shift_years k] moves a date by [k] such cycles. *)
Definition shift_years (k : Z) (d : date) : date :=
  mkdate (year d + 400 * k) (month d) (day d).

(** One step of a check of [f] on 0, 1, 2, ... *)
Definition cycle_step (f : Z -> bool) (st : Z * bool) : Z * bool :=
  (fst st + 1, snd st && f (fst st)).

(** In the first cycle [_ord2ymd] gives a date that the constructor
    accepts, in the years 1 to 400, whose ordinal is the one given. *)
Definition cycle_ok (r : Z) : bool :=
  let d := _ord2ymd (r + 1) in
  valid d && (year d <=? 400) && (toordinal d =? r + 1).

(** The invariant of the locked fields: [STOPPED] exactly when no
    process handle is held. *)
Definition stopped_iff_no_handle (m : SubprocessServerManager) : Prop :=
  _state m = STOPPED <-> _process m = None.

End Vocabulary.

(** ** Concrete data for the examples

    A server root [/srv/minecraft] with its start script, a backup root
    [/srv/backups] with two dated backups, a directory and a file that
    are not backups, and an archive waiting in [/tmp]. *)

Definition sample_fs : FS :=
  list_to_map
    [ (["srv"], Dir);
      (["minecraft"; "srv"], Dir);
      (["start.sh"; "minecraft"; "srv"], File "java -jar server.jar");
      (["world"; "minecraft"; "srv"], Dir);
      (["level.dat"; "world"; "minecraft"; "srv"], File "level");
      (["backups"; "srv"], Dir);
      (["2024-01-03"; "backups"; "srv"], Dir);
      (["minecraft-server-backup.zip"; "2024-01-03"; "backups"; "srv"],
        File "old");
      (["2024-01-04"; "backups"; "srv"], Dir);
      (["notes"; "backups"; "srv"], Dir);
      (["2023-12-31"; "backups"; "srv"], File "stray");
      (["tmp"], Dir);
      (["a.zip"; "tmp"], File "zip") ]%string.

Definition backups : path := ["backups"; "srv"]%string.
Definition d2024_01_10 : Date.date := Date.mkdate 2024 1 10.
Definition start_script : path := ["start.sh"; "minecraft"; "srv"]%string.

Definition server_root : path := ["minecraft"; "srv"]%string.

(** The wiring of the [/server/start] route: both use cases run on one
    world, made of the backup world and the manager world. *)
Definition on_backups {A} (m : M UseCases.world A)
  : M (UseCases.world * Manager.world) A :=
  fun w => let '(u, r) := m (fst w) in ((u, snd w), r).

Definition on_manager {A} (m : M Manager.world A)
  : M (UseCases.world * Manager.world) A :=
  fun w => let '(g, r) := m (snd w) in ((fst w, g), r).

(** [StartServerUseCase(manager, script_path).execute] *)
Definition StartServerUseCase_execute (e : Manager.start_env)
    (script_path : path) : M Manager.world unit :=
  Manager.start e script_path.

Definition sample_start : M (UseCases.world * Manager.world) unit :=
  on_manager
    (StartServerUseCase_execute
       {| Manager.script_exists := exists_ sample_fs start_script;
          Manager.start_nt := false;
          Manager.start_poll_is_None := false;
          Manager.t_starting := 5;
          Manager.popen := Some (Manager.mkPopen 4001);
          Manager.t_spawn_failed := 5 |}
       start_script).

Definition sample_backup : M (UseCases.world * Manager.world) bool :=
  on_backups
    (@UseCases.execute
       (UseCases.ZipArchiveService ["mc.zip"; "tmp"]%string "zipped")
       (UseCases.DailyBackupStorageService backups d2024_01_10)
       server_root 7 "minecraft-server-backup.zip" d2024_01_10).

Definition sample_world : UseCases.world * Manager.world :=
  ({| UseCases.fs := sample_fs; UseCases.journal := [] |},
   {| Manager.self := Manager.__init__ 0; Manager.os_calls := [] |}).

Definition sample_stop_env : Manager.stop_env :=
  {| Manager.stop_poll_is_None := false; Manager.t_not_running := 500;
     Manager.stop_nt := false; Manager.signal_raises := false;
     Manager.exited_within_60 := true; Manager.taskkill_returncode := 0;
     Manager.exited_within_10 := true; Manager.t_stopped := 500;
     Manager.closing := {| Manager.poll_is_None := false; Manager.t_elapsed := 500;
                   Manager.t_stamp := 500 |} |}.

(** ** Further vocabulary: the lifecycle manager *)

Section ManagerVocabulary.

Import Manager.

(** A run of [get_state] calls, one per observation: the answers. *)
Fixpoint poll_states (observations : list obs) (w : world)
  : list (exn + ServerState) :=
  match observations with
  | [] => []
  | o :: rest => snd (get_state o w) :: poll_states rest (fst (get_state o w))
  end.

(** The world after that run. *)
Definition after_polls (observations : list obs) (w : world) : world :=
  fold_left (fun w o => fst (get_state o w)) observations w.

(** The child goes away in time: the first signal is delivered, and the
    child exits within the 60 seconds or, on Windows, [taskkill]
    reports success and the child exits within the further 10. *)
Definition child_goes_away (e : stop_env) : bool :=
  negb (signal_raises e)
  && (exited_within_60 e
      || (stop_nt e && (taskkill_returncode e =? 0) && exited_within_10 e)).

(** A call that kills by force. *)
Definition is_forceful (c : os_call) : bool :=
  match c with
  | signal_process _ SIGKILL | signal_group_of _ SIGKILL | taskkill_tree _ =>
      true
  | _ => false
  end.

End ManagerVocabulary.

(** ** Configuration: [config/settings.py] *)

Module Config.

(** [ConfigurationError] *)
Variant ConfigurationError : Type := mkConfigurationError.

(** [candidate.relative_to(parent)] raises [ValueError] unless the
    components of [parent] are the leading components of [candidate]:
    paths are kept innermost first, so unless [parent] is a suffix. *)
Definition _is_subpath (candidate parent : path) : bool :=
  bool_decide (parent `suffix_of` candidate).

Definition _validate_retention_days (value : Z) : Z := Z.max 1 value.

(** An instance of [Settings], with the fields that the backup and the
    server routes read.  Paths are absolute and resolved. *)
Record Settings : Type := mkSettings
  { minecraft_start_script : path;
    minecraft_server_root : path;
    minecraft_backup_root : path;
    backup_retention_days : Z }.

(** [Settings.__init__], from the values of the fields as the
    validators return them: the backup root may be [None].  The
    filesystem of this development has no symbolic links, so [resolve]
    returns the absolute path it is given. *)
Definition Settings__init__ (minecraft_start_script minecraft_server_root : path)
    (minecraft_backup_root : option path) (backup_retention_days : Z)
  : ConfigurationError + Settings :=
  let backup_retention_days := _validate_retention_days backup_retention_days in
  let server_root := minecraft_server_root in
  let backup_root :=
    match minecraft_backup_root with
    | None => joinpath (parent server_root) "backups"
    | Some backup_root => backup_root
    end in
  if _is_subpath backup_root server_root then inl mkConfigurationError
  else inr {| minecraft_start_script := minecraft_start_script;
              minecraft_server_root := server_root;
              minecraft_backup_root := backup_root;
              backup_retention_days := backup_retention_days |}.

End Config.

(** ** The routes: [interfaces/http/api.py] *)

Module Api.

Import Config Manager.

(** [HTTPException(status_code=...)] *)
Record HTTPException : Type := mkHTTPException { status_code : Z }.

Definition _handle_domain_error (exc : exn) : HTTPException :=
  match exc with
  | ServerAlreadyRunningError => mkHTTPException 409
  | ServerNotRunningError => mkHTTPException 409
  | ResourceNotFoundError => mkHTTPException 404
  | ArchiveCreationError => mkHTTPException 500
  | BackupStorageError => mkHTTPException 500
  | _ => mkHTTPException 500
  end.



(** [_run_stop], the background task of the stop route: whatever [stop]
    raises is swallowed. *)
Definition _run_stop (e : Manager.stop_env) (w : Manager.world)
  : Manager.world :=
  fst (Manager.stop e w).

(** [stop_server]: the handler of [POST /api/server/stop], followed by
    the background task when one was added.  [o] is what [is_running]
    observes, [e] what the later [stop] meets. *)
Definition stop_server (o : Manager.obs) (e : Manager.stop_env)
    (w : Manager.world) : Manager.world * (HTTPException + string) :=
  match Manager.is_running o w with
  | (w', inr false) => (w', inl (_handle_domain_error ServerNotRunningError))
  | (w', inr true) => (_run_stop e w', inr "stopping"%string)
  | (w', inl exc) => (w', inl (mkHTTPException 500))
  end.

(** [server_status]: the handler of [GET /api/server/status]; the
    answer holds [running] and the state. *)
Definition server_status (o : Manager.obs) (w : Manager.world)
  : Manager.world * (HTTPException + (bool * Manager.ServerState)) :=
  match Manager.get_state o w with
  | (w', inl exc) => (w', inl (_handle_domain_error exc))
  | (w', inr state) =>
      (w', inr (negb (bool_decide (state = Manager.STOPPED)), state))
  end.

End Api.

(** ** Further concrete data for the examples

    A manager that holds a live child in state [RUNNING], observations
    and environments of a later query, stop and start, the name that
    [mkstemp] picks, and the settings of the sample server. *)

Definition running_world : Manager.world :=
  {| Manager.self := {| Manager._process := Some (Manager.mkPopen 4001);
                        Manager._state := Manager.RUNNING;
                        Manager._state_since := 0 |};
     Manager.os_calls := [] |}.

Definition alive_obs : Manager.obs :=
  {| Manager.poll_is_None := true; Manager.t_elapsed := 100;
     Manager.t_stamp := 100 |}.

Definition live_stop_env : Manager.stop_env :=
  {| Manager.stop_poll_is_None := true; Manager.t_not_running := 500;
     Manager.stop_nt := false; Manager.signal_raises := false;
     Manager.exited_within_60 := true; Manager.taskkill_returncode := 0;
     Manager.exited_within_10 := true; Manager.t_stopped := 500;
     Manager.closing := alive_obs |}.

Definition restart_env : Manager.start_env :=
  {| Manager.script_exists := true; Manager.start_nt := false;
     Manager.start_poll_is_None := false; Manager.t_starting := 50;
     Manager.popen := Some (Manager.mkPopen 4002);
     Manager.t_spawn_failed := 50 |}.


Definition mc_zip : path := ["mc.zip"; "tmp"]%string.

Definition sample_backup_world : UseCases.world :=
  {| UseCases.fs := sample_fs; UseCases.journal := [] |}.


(** * Properties *)

(** ** Sanity checks of the model *)

Example ord_2024_01_10 : Date.toordinal (Date.mkdate 2024 1 10) = 738895.
Proof. reflexivity. Qed.

Example ord2ymd_last : Date._ord2ymd Date._MAXORDINAL = Date.mkdate 9999 12 31.
Proof. reflexivity. Qed.

Example sub_days_window :
  Date.sub_days (Date.mkdate 2024 1 10) 6 = inr (Date.mkdate 2024 1 4).
Proof. reflexivity. Qed.

Example sub_days_leap :
  Date.sub_days (Date.mkdate 2024 3 1) 1 = inr (Date.mkdate 2024 2 29).
Proof. reflexivity. Qed.

Example strptime_strftime_sample :
  Date.strptime_Ymd (Date.strftime_Ymd (Date.mkdate 2024 1 10))
  = Some (Date.mkdate 2024 1 10).
Proof. reflexivity. Qed.

Example strftime_sample :
  Date.strftime_Ymd (Date.mkdate 2024 1 10) = "2024-01-10"%string.
Proof. reflexivity. Qed.

Example strptime_sample :
  Date.strptime_Ymd "2024-01-03" = Some (Date.mkdate 2024 1 3).
Proof. reflexivity. Qed.

Example strptime_unpadded :
  Date.strptime_Ymd "2024-1-3" = Some (Date.mkdate 2024 1 3).
Proof. reflexivity. Qed.

Example strptime_rejects :
  Date.strptime_Ymd "2023-02-29" = None /\ Date.strptime_Ymd "world" = None
  /\ Date.strptime_Ymd "0000-01-01" = None
  /\ Date.strptime_Ymd "2024-01-311" = None.
Proof. repeat split; reflexivity. Qed.

Example sample_fs_wf : wf sample_fs.
Proof. apply (bool_decide_unpack (wf sample_fs)). vm_compute. exact I. Qed.


(** ** Calendar lemmas *)

Section DateLemmas.

Import Date.

(** What the iterated check establishes. *)
Lemma cycle_iter (f : Z -> bool) (n : N) :
  fst (N.iter n (cycle_step f) (0, true)) = Z.of_N n
  /\ (snd (N.iter n (cycle_step f) (0, true)) = true ->
      forall k, 0 <= k < Z.of_N n -> f k = true).
Proof.
  induction n as [|n [IHo IHk]] using N.peano_ind.
  - cbn. split; [done|]. intros _ k Hk. lia.
  - rewrite N.iter_succ.
    destruct (N.iter n (cycle_step f) (0, true)) as [o ok].
    cbn [fst snd cycle_step] in *. subst o. split; [lia|].
    intros [Hs Hf]%andb_prop k Hk.
    destruct (decide (k = Z.of_N n)) as [->|]; [done|].
    apply IHk; [done|lia].
Qed.

(** The check of the first cycle, run. *)
Lemma cycle_checked :
  snd (N.iter 146097 (cycle_step cycle_ok) (0, true)) = true.
Proof. vm_compute. reflexivity. Qed.

Lemma cycle_ok_all (r : Z) : 0 <= r < 146097 -> cycle_ok r = true.
Proof.
  intros Hr. apply (proj2 (cycle_iter cycle_ok 146097) cycle_checked). lia.
Qed.

(** Later cycles repeat the first one, 400 years further on. *)
Lemma ord2ymd_shift (q r : Z) :
  0 <= r < 146097 ->
  _ord2ymd (146097 * q + r + 1) = shift_years q (_ord2ymd (r + 1)).
Proof.
  intros Hr. unfold _ord2ymd, _DI400Y.
  replace (146097 * q + r + 1 - 1) with (r + q * 146097) by lia.
  replace (r + 1 - 1) with r by lia.
  rewrite Z.div_add, Z.mod_add by lia.
  rewrite (Z.div_small r 146097), (Z.mod_small r 146097) by lia.
  cbv zeta.
  destruct (_ || _); [unfold shift_years; cbn; f_equal; lia|].
  destruct (_ <? _); unfold shift_years; cbn; f_equal; lia.
Qed.

Lemma is_leap_shift (y k : Z) : _is_leap (y + 400 * k) = _is_leap y.
Proof.
  unfold _is_leap.
  replace ((y + 400 * k) mod 4) with (y mod 4)
    by (replace (y + 400 * k) with (y + (100 * k) * 4) by lia;
        by rewrite Z.mod_add).
  replace ((y + 400 * k) mod 100) with (y mod 100)
    by (replace (y + 400 * k) with (y + (4 * k) * 100) by lia;
        by rewrite Z.mod_add).
  replace ((y + 400 * k) mod 400) with (y mod 400)
    by (replace (y + 400 * k) with (y + k * 400) by lia;
        by rewrite Z.mod_add).
  done.
Qed.

Lemma toordinal_shift (k : Z) (d : date) :
  toordinal (shift_years k d) = toordinal d + 146097 * k.
Proof.
  unfold toordinal, shift_years, _ymd2ord, _days_before_month. cbn [year month day].
  rewrite is_leap_shift. unfold _days_before_year. cbv zeta.
  replace (year d + 400 * k - 1) with (year d - 1 + (100 * k) * 4) at 2 by lia.
  replace (year d + 400 * k - 1) with (year d - 1 + (4 * k) * 100) at 2 by lia.
  replace (year d + 400 * k - 1) with (year d - 1 + k * 400) at 2 by lia.
  rewrite !Z.div_add by lia. lia.
Qed.

Lemma valid_ranges (d : date) :
  valid d = true ->
  1 <= year d <= 9999 /\ 1 <= month d <= 12
  /\ 1 <= day d <= _days_in_month (year d) (month d).
Proof.
  unfold valid. rewrite !andb_true_iff, !Z.leb_le. tauto.
Qed.

Lemma days_before_month_nonneg (y m : Z) :
  1 <= m <= 12 -> 0 <= _days_before_month y m.
Proof.
  intros Hm. unfold _days_before_month, b2z.
  assert (m = 1 \/ m = 2 \/ m = 3 \/ m = 4 \/ m = 5 \/ m = 6 \/ m = 7
          \/ m = 8 \/ m = 9 \/ m = 10 \/ m = 11 \/ m = 12) as H by lia.
  destruct (_ && _);
    repeat (destruct H as [->|H]; [cbn; lia|]); subst; cbn; lia.
Qed.

Lemma days_before_year_succ (y : Z) :
  _days_before_year (y + 1) = _days_before_year y + 365 + b2z (_is_leap y).
Proof.
  unfold _days_before_year, _is_leap, b2z. cbv zeta.
  replace (y + 1 - 1) with y by lia.
  destruct (Z.eqb_spec (y mod 4) 0); destruct (Z.eqb_spec (y mod 100) 0);
    destruct (Z.eqb_spec (y mod 400) 0); cbn [andb orb negb];
    Z.div_mod_to_equations; lia.
Qed.

Lemma days_before_year_mono (y1 y2 : Z) :
  y1 <= y2 -> _days_before_year y1 <= _days_before_year y2.
Proof. unfold _days_before_year. cbv zeta. Z.div_mod_to_equations. lia. Qed.

Lemma shift_years_valid (q : Z) (d : date) :
  valid d = true -> 0 <= q -> year d + 400 * q <= 9999 ->
  valid (shift_years q d) = true.
Proof.
  intros (Hy & Hm & Hd)%valid_ranges Hq Hmax.
  unfold valid, shift_years, _days_in_month in *. cbn [year month day].
  rewrite is_leap_shift.
  repeat (apply andb_true_intro; split); apply Z.leb_le; lia.
Qed.

Lemma toordinal_lower (d : date) :
  valid d = true -> _days_before_year (year d) + 1 <= toordinal d.
Proof.
  intros (Hy & Hm & Hd)%valid_ranges.
  pose proof (days_before_month_nonneg (year d) (month d) Hm).
  unfold toordinal, _ymd2ord. lia.
Qed.

Lemma ord2ymd_toordinal_cycle (q r : Z) :
  0 <= q -> 0 <= r < 146097 -> 146097 * q + r + 1 <= _MAXORDINAL ->
  valid (_ord2ymd (146097 * q + r + 1)) = true
  /\ toordinal (_ord2ymd (146097 * q + r + 1)) = 146097 * q + r + 1.
Proof.
  unfold _MAXORDINAL. intros Hq Hr Hmax. rewrite ord2ymd_shift by done.
  pose proof (cycle_ok_all r Hr) as Hc. unfold cycle_ok in Hc.
  apply andb_prop in Hc as [[Hv Hy]%andb_prop Ht].
  apply Z.leb_le in Hy. apply Z.eqb_eq in Ht.
  revert Hv Hy Ht. generalize (_ord2ymd (r + 1)). intros d Hv Hy Ht.
  rewrite toordinal_shift, Ht. split; [|lia].
  apply shift_years_valid; [done..|].
  pose proof (toordinal_lower d Hv) as Hlow.
  pose proof (valid_ranges d Hv) as (Hyr & _ & _).
  destruct (decide (year d + 400 * q <= 9999)); [done|exfalso].
  assert (400 <= year d) as H400 by lia.
  pose proof (days_before_year_mono 400 (year d) H400) as Hmono.
  change (_days_before_year 400) with 145731 in Hmono. lia.
Qed.

(** [_ord2ymd] inverts [toordinal] on the ordinals of [date]. *)
Lemma ord2ymd_toordinal (o : Z) :
  1 <= o <= _MAXORDINAL ->
  valid (_ord2ymd o) = true /\ toordinal (_ord2ymd o) = o.
Proof.
  intros Ho.
  pose proof (Z.div_mod (o - 1) 146097 ltac:(lia)) as Hdm.
  pose proof (Z.mod_pos_bound (o - 1) 146097 ltac:(lia)) as Hr.
  assert (Hq : 0 <= (o - 1) / 146097) by (apply Z.div_pos; lia).
  replace o with (146097 * ((o - 1) / 146097) + (o - 1) mod 146097 + 1)
    at 1 2 3 by lia.
  apply ord2ymd_toordinal_cycle; [done..|lia].
Qed.

(** [d - timedelta(days=n)], when it is a date, is the valid date [n]
    days before [d]. *)
Lemma sub_days_inr (d k : date) (n : Z) :
  sub_days d n = inr k -> valid k = true /\ toordinal k = toordinal d - n.
Proof.
  unfold sub_days. destruct (_ || _); [done|].
  destruct (_ && _) eqn:E; [|done]. intros [= <-].
  apply andb_prop in E as [E1%Z.ltb_lt E2%Z.leb_le].
  apply ord2ymd_toordinal. lia.
Qed.

Lemma day_of_year_bounds (d : date) :
  valid d = true ->
  1 <= _days_before_month (year d) (month d) + day d
    <= 365 + b2z (_is_leap (year d)).
Proof.
  intros (_ & Hm & Hd)%valid_ranges.
  unfold _days_before_month, _days_in_month, b2z in *.
  assert (month d = 1 \/ month d = 2 \/ month d = 3 \/ month d = 4
          \/ month d = 5 \/ month d = 6 \/ month d = 7 \/ month d = 8
          \/ month d = 9 \/ month d = 10 \/ month d = 11 \/ month d = 12)
    as H by lia.
  destruct (_is_leap (year d));
    repeat (destruct H as [H|H]; [rewrite H in *; cbn in *; lia|]);
    rewrite H in *; cbn in *; lia.
Qed.

Lemma day_of_year_mono (y m1 d1 m2 d2 : Z) :
  valid (mkdate y m1 d1) = true -> valid (mkdate y m2 d2) = true ->
  m1 < m2 ->
  _days_before_month y m1 + d1 < _days_before_month y m2 + d2.
Proof.
  intros (_ & Hm1 & Hd1)%valid_ranges (_ & Hm2 & Hd2)%valid_ranges Hlt.
  cbn [year month day] in *.
  unfold _days_before_month, _days_in_month, b2z in *.
  assert (m1 = 1 \/ m1 = 2 \/ m1 = 3 \/ m1 = 4 \/ m1 = 5 \/ m1 = 6
          \/ m1 = 7 \/ m1 = 8 \/ m1 = 9 \/ m1 = 10 \/ m1 = 11 \/ m1 = 12)
    as H1 by lia.
  assert (m2 = 1 \/ m2 = 2 \/ m2 = 3 \/ m2 = 4 \/ m2 = 5 \/ m2 = 6
          \/ m2 = 7 \/ m2 = 8 \/ m2 = 9 \/ m2 = 10 \/ m2 = 11 \/ m2 = 12)
    as H2 by lia.
  destruct (_is_leap y);
    repeat (destruct H1 as [H1|H1]);
    repeat (destruct H2 as [H2|H2]);
    subst m1 m2; cbn in *; lia.
Qed.

(** On dates, [<] is the order of the ordinals. *)
Lemma lt_toordinal (a b : date) :
  valid a = true -> valid b = true ->
  (Date.lt a b = true <-> toordinal a < toordinal b).
Proof.
  intros Ha Hb.
  pose proof (day_of_year_bounds a Ha) as Ba.
  pose proof (day_of_year_bounds b Hb) as Bb.
  destruct a as [ya ma da], b as [yb mb db].
  unfold Date.lt, toordinal, _ymd2ord. cbn [year month day] in *.
  rewrite !orb_true_iff, !andb_true_iff, !orb_true_iff, !andb_true_iff.
  rewrite !Z.ltb_lt, !Z.eqb_eq.
  destruct (Z.lt_trichotomy ya yb) as [Hy|[->|Hy]].
  - pose proof (days_before_year_succ ya).
    pose proof (days_before_year_mono (ya + 1) yb ltac:(lia)). split; [lia|].
    intros _. by left.
  - destruct (Z.lt_trichotomy ma mb) as [Hm|[->|Hm]].
    + pose proof (day_of_year_mono yb ma da mb db Ha Hb Hm). split; [lia|].
      intros _. right. split; [done|]. by left.
    + split; [lia|]. intros. right. split; [done|]. right. lia.
    + pose proof (day_of_year_mono yb mb db ma da Hb Ha Hm). lia.
  - pose proof (days_before_year_succ yb).
    pose proof (days_before_year_mono (yb + 1) ya ltac:(lia)). lia.
Qed.

Lemma strptime_Ymd_valid (s : string) (d : date) :
  strptime_Ymd s = Some d -> valid d = true.
Proof.
  unfold strptime_Ymd. intros H.
  repeat match type of H with
         | match ?x with _ => _ end = _ => destruct x eqn:?; try discriminate H
         | (if ?x then _ else _) = _ => destruct x eqn:?; try discriminate H
         | (let '(_, _) := ?x in _) = _ => destruct x eqn:?
         end.
  by injection H as <-.
Qed.

End DateLemmas.

(** ** Filesystem lemmas *)

Section FsLemmas.

Implicit Types (fs : FS) (p q : path).

Lemma stat_cons fs n p : stat fs (n :: p) = fs !! (n :: p).
Proof. reflexivity. Qed.

Lemma is_dir_exists fs p : is_dir fs p = true -> exists_ fs p = true.
Proof. unfold is_dir, exists_. destruct (stat fs p) as [[]|]; congruence. Qed.

Lemma is_dir_stat fs p : is_dir fs p = true -> stat fs p = Some Dir.
Proof. unfold is_dir. by destruct (stat fs p) as [[]|]. Qed.

Lemma stat_None_cons fs p : stat fs p = None -> exists n par, p = n :: par.
Proof. destruct p; [discriminate | eauto]. Qed.

Lemma not_suffix_cons n p : ~ (n :: p) `suffix_of` p.
Proof.
  intros H. apply suffix_length in H. simpl in H. lia.
Qed.

Lemma os_mkdir_inr p fs fs' :
  os_mkdir p fs = inr fs' ->
  stat fs p = None /\ is_dir fs (parent p) = true /\ fs' = <[p := Dir]> fs.
Proof.
  unfold os_mkdir, is_dir. destruct (stat fs p); [discriminate|].
  destruct (stat fs (parent p)) as [[]|]; try discriminate.
  intros [= <-]. auto.
Qed.

Lemma is_dir_insert_Dir fs p : p <> [] -> is_dir (<[p := Dir]> fs) p = true.
Proof.
  intros Hp. unfold is_dir. destruct p; [done|].
  by rewrite stat_cons, lookup_insert_eq.
Qed.

Lemma Path_mkdir_inr b p fs fs' :
  Path_mkdir b p fs = inr fs' ->
  (b = true -> is_dir fs' p = true)
  /\ forall q, q <> p -> fs' !! q = fs !! q.
Proof.
  unfold Path_mkdir. destruct (os_mkdir p fs) as [e|fs1] eqn:E.
  - destruct e; try discriminate;
      (destruct (b && is_dir fs p) eqn:B; [|discriminate]);
      intros [= <-]; apply andb_prop in B as [_ B]; auto.
  - intros [= <-]. apply os_mkdir_inr in E as (Hn & _ & ->).
    apply stat_None_cons in Hn as (n & par & ->). split.
    + intros _. by apply is_dir_insert_Dir.
    + intros q Hq. by rewrite lookup_insert_ne.
Qed.

(** A successful recursive [mkdir] leaves a directory at [p] and changes
    nothing outside the ancestors of [p]. *)
Lemma Path_mkdir_parents_inr p : forall fs fs',
  Path_mkdir_parents true p fs = inr fs' ->
  is_dir fs' p = true /\ forall q, ~ q `suffix_of` p -> fs' !! q = fs !! q.
Proof.
  induction p as [|n par IH]; intros fs fs'.
  - simpl. unfold os_mkdir. simpl. intros [= <-]. auto.
  - simpl. destruct (os_mkdir (n :: par) fs) as [e|fs1] eqn:E.
    + assert (Hkeep : (if true && is_dir fs (n :: par) then inr fs else inl e)
                      = (inr fs' : oserror + FS) ->
                      is_dir fs' (n :: par) = true
                      /\ forall q, ~ q `suffix_of` (n :: par) -> fs' !! q = fs !! q).
      { simpl. destruct (is_dir fs (n :: par)) eqn:D; [|discriminate].
        intros [= <-]. auto. }
      destruct e; try exact Hkeep. clear Hkeep.
      destruct (Path_mkdir_parents true par fs) as [|fs1] eqn:R; [discriminate|].
      intros H. apply IH in R as [_ Hout].
      apply Path_mkdir_inr in H as [Hd Hother]. split; [auto|].
      intros q Hq. rewrite Hother.
      * apply Hout. intros Hs. apply Hq. by apply suffix_cons_r.
      * intros ->. by apply Hq.
    + intros [= <-]. apply os_mkdir_inr in E as (_ & _ & ->). split.
      * by apply is_dir_insert_Dir.
      * intros q Hq. rewrite lookup_insert_ne; [done|]. intros <-. by apply Hq.
Qed.

(** On an existing directory it does nothing. *)
Lemma Path_mkdir_parents_is_dir p fs :
  is_dir fs p = true -> Path_mkdir_parents true p fs = inr fs.
Proof.
  intros H. assert (E : os_mkdir p fs = inl FileExistsError).
  { unfold os_mkdir. unfold is_dir in H. by destruct (stat fs p) as [[]|]. }
  destruct p; cbn [Path_mkdir_parents]; rewrite E; cbn [andb]; by rewrite H.
Qed.

Lemma Path_mkdir_parents_creatable p : forall fs,
  creatable fs p = true -> exists fs', Path_mkdir_parents true p fs = inr fs'.
Proof.
  induction p as [|n par IH]; intros fs Hc.
  - exists fs. by apply Path_mkdir_parents_is_dir.
  - revert Hc. cbn [creatable]. rewrite stat_cons.
    destruct (fs !! (n :: par)) as [[]|] eqn:L; intros Hc; [done| |].
    + exists fs. apply Path_mkdir_parents_is_dir. unfold is_dir.
      by rewrite stat_cons, L.
    + cbn [Path_mkdir_parents].
      assert (E : os_mkdir (n :: par) fs
                  = match stat fs par with
                    | Some Dir => inr (<[n :: par := Dir]> fs)
                    | Some (File _) => inl NotADirectoryError
                    | None => inl FileNotFoundError
                    end).
      { unfold os_mkdir. by rewrite stat_cons, L. }
      rewrite E. destruct (stat fs par) as [[]|] eqn:S.
      * exfalso. destruct par; [discriminate S|].
        cbn [creatable] in Hc. by rewrite S in Hc.
      * eauto.
      * destruct (IH fs Hc) as [fs1 R]. rewrite R.
        apply Path_mkdir_parents_inr in R as [Hd Hout].
        assert (N : stat fs1 (n :: par) = None).
        { rewrite stat_cons, Hout; [done | apply not_suffix_cons]. }
        unfold Path_mkdir, os_mkdir. rewrite N.
        cbn [parent tail]. unfold is_dir in Hd.
        destruct (stat fs1 par) as [[]|]; try done. eauto.
Qed.

Lemma rebase_app src dst k : rebase src dst (k ++ src) = k ++ dst.
Proof.
  unfold rebase. rewrite length_app.
  replace (length k + length src - length src)%nat with (length k) by lia.
  by rewrite take_app_length.
Qed.

Lemma rebase_self src dst : rebase src dst src = dst.
Proof. apply (rebase_app src dst []). Qed.

(** In a well-formed filesystem every proper ancestor of an entry is
    itself an entry. *)
Lemma wf_ancestor fs p : wf fs -> p <> [] ->
  forall k, is_Some (fs !! (k ++ p)) -> is_Some (fs !! p).
Proof.
  intros Hwf Hp. induction k as [|a k IH]; [done|].
  intros [v Hv]. apply IH.
  destruct (Hwf _ _ Hv) as [_ Hd]. cbn [parent tail app] in Hd.
  unfold is_dir in Hd. destruct (k ++ p) eqn:K.
  - by destruct k.
  - rewrite stat_cons in Hd. destruct (fs !! (s :: l)); [eauto | done].
Qed.

Lemma rename_tree_moved_keys src dst fs :
  NoDup ((prod_map (rebase src dst) id
            <$> map_to_list (filter (fun kv => src `suffix_of` kv.1) fs)).*1).
Proof.
  rewrite <- list_fmap_compose.
  replace (fst ∘ prod_map (rebase src dst) (@id node))
    with (rebase src dst ∘ (fst : path * node -> path)) by done.
  rewrite list_fmap_compose. apply NoDup_fmap_2_strong.
  - intros x y Hx Hy Heq.
    apply list_elem_of_fmap in Hx as ([x1 vx] & -> & Hx).
    apply list_elem_of_fmap in Hy as ([y1 vy] & -> & Hy).
    apply elem_of_map_to_list, map_lookup_filter_Some in Hx as [_ [kx Hx]].
    apply elem_of_map_to_list, map_lookup_filter_Some in Hy as [_ [ky Hy]].
    cbn [fst] in *. subst x1 y1. rewrite !rebase_app in Heq.
    by apply app_inv_tail in Heq as ->.
  - apply NoDup_fst_map_to_list.
Qed.

(** After a rename the entry that was at [src] is found at [dst]. *)
Lemma rename_tree_lookup_dst src dst fs v :
  fs !! src = Some v -> rename_tree src dst fs !! dst = Some v.
Proof.
  intros Hv. unfold rename_tree. apply lookup_union_Some_l.
  apply elem_of_list_to_map_1; [apply rename_tree_moved_keys|].
  apply list_elem_of_fmap. exists (src, v). split.
  - unfold prod_map. cbn [fst snd id]. by rewrite rebase_self.
  - apply elem_of_map_to_list, map_lookup_filter_Some. by split.
Qed.

(** ... and nothing is left at [src], unless [src] lay below [dst]. *)
Lemma rename_tree_lookup_src src dst fs :
  ~ dst `suffix_of` src -> rename_tree src dst fs !! src = None.
Proof.
  intros Hn. unfold rename_tree. apply lookup_union_None. split.
  - apply not_elem_of_list_to_map_1. intros Hin.
    apply list_elem_of_fmap in Hin as ([q v] & Hq & Hin). cbn in Hq.
    apply list_elem_of_fmap in Hin as ([q0 v0] & [= -> ->] & Hin).
    apply elem_of_map_to_list, map_lookup_filter_Some in Hin as [_ [k Hk]].
    cbn [fst] in Hk, Hq. subst q0. rewrite rebase_app in Hq. apply Hn.
    by exists k.
  - apply map_lookup_filter_None. right. intros x _ Hx. by apply Hx.
Qed.

End FsLemmas.

(** ** The storage service *)

Section StorageProperties.

Import Date Storage.

(** C1.  Calling [prepare_daily_directory] twice for the same date, on
    a filesystem where the dated directory is not there yet and the
    backup root can be created: the first call creates the dated
    directory under the backup root and returns its path; the second
    call returns [None] and leaves the filesystem, and so the directory,
    as it is. *)
Theorem prepare_daily_directory_twice (base : path) (D : date) (fs : FS) :
  creatable fs base = true ->
  exists_ fs (joinpath base (strftime_Ymd D)) = false ->
  exists fs1,
    prepare_daily_directory base D fs
      = (fs1, inr (Some (joinpath base (strftime_Ymd D))))
    /\ is_dir fs1 (joinpath base (strftime_Ymd D)) = true
    /\ prepare_daily_directory base D fs1 = (fs1, inr None).
Proof.
  intros Hc Hfresh. set (target := joinpath base (strftime_Ymd D)) in *.
  destruct (Path_mkdir_parents_creatable _ _ Hc) as [fs0 R].
  pose proof (Path_mkdir_parents_inr _ _ _ R) as [Hbase Hout].
  assert (N : stat fs0 target = None).
  { unfold target, joinpath. rewrite stat_cons, Hout by apply not_suffix_cons.
    unfold exists_, target, joinpath in Hfresh. rewrite stat_cons in Hfresh.
    by destruct (fs !! _). }
  assert (Hmk : Path_mkdir false target fs0 = inr (<[target := Dir]> fs0)).
  { unfold Path_mkdir, os_mkdir. rewrite N. unfold target at 1, joinpath.
    cbn [parent tail]. unfold is_dir in Hbase.
    by destruct (stat fs0 base) as [[]|]. }
  assert (Hdir : is_dir (<[target := Dir]> fs0) target = true)
    by by apply is_dir_insert_Dir.
  exists (<[target := Dir]> fs0). split; [|split; [done|]].
  - unfold prepare_daily_directory. fold target. rewrite R.
    unfold exists_. by rewrite N, Hmk.
  - unfold prepare_daily_directory. fold target.
    rewrite Path_mkdir_parents_is_dir.
    + rewrite (is_dir_exists _ _ Hdir), Hdir. reflexivity.
    + unfold is_dir in *. destruct base as [|b base']; [done|].
      rewrite stat_cons in *. rewrite lookup_insert_ne; [done|].
      unfold target, joinpath. intros H. apply (f_equal length) in H.
      simpl in H. lia.
Qed.

(** C4 (as amended).  For a [filename] that is one path component,
    [store_archive] raises [BackupStorageError] exactly when the source
    archive is missing, or the destination directory is missing or not a
    directory, or an entry already exists at [destination_dir / filename],
    or the move itself fails (here: the source is a directory that
    contains the destination); the first three are found before
    anything is touched.  Otherwise it returns
    [destination_dir / filename], where the entry that was at the source
    now is, and nothing is left at the source; for a regular file
    nothing else changes. *)
Theorem store_archive_outcome (src dir : path) (filename : string) (fs : FS) :
  is_component filename = true ->
  let dst := joinpath dir filename in
  let guarded :=
    negb (exists_ fs src) || negb (exists_ fs dir) || negb (is_dir fs dir)
    || exists_ fs dst in
  let refused :=
    guarded || (is_dir fs src && bool_decide (src `suffix_of` dst)) in
  (snd (store_archive src dir filename fs) = inl BackupStorageError
   <-> refused = true)
  /\ (guarded = true ->
      store_archive src dir filename fs = (fs, inl BackupStorageError))
  /\ (refused = false ->
      exists fs', store_archive src dir filename fs = (fs', inr dst)
                  /\ stat fs' dst = stat fs src
                  /\ (wf fs -> stat fs' src = None)
                  /\ (forall c, stat fs src = Some (File c) ->
                                fs' = <[dst := File c]> (delete src fs))).
Proof.
  intros _ dst guarded refused. subst refused guarded dst.
  unfold store_archive. set (dst := joinpath dir filename).
  assert (Sd : forall m : FS, stat m dst = m !! dst) by done.
  destruct (exists_ fs src) eqn:Es; cbn [negb orb fst snd];
    [|by repeat split].
  destruct (exists_ fs dir) eqn:Ed; cbn [negb orb fst snd];
    [|by repeat split].
  destruct (is_dir fs dir) eqn:Dd; cbn [negb orb fst snd];
    [|by repeat split].
  destruct (exists_ fs dst) eqn:Et; cbn [negb orb fst snd];
    [by repeat split|].
  assert (Nd : fs !! dst = None).
  { unfold exists_ in Et. rewrite Sd in Et. by destruct (fs !! dst). }
  unfold shutil_move, is_dir. unfold exists_ in Es.
  change (parent dst) with dir. rewrite (is_dir_stat _ _ Dd).
  rewrite (Path_mkdir_parents_is_dir _ _ Dd).
  destruct (stat fs src) as [[c|]|] eqn:Ss; [| |done]; cbn [andb fst snd].
  - split; [done|]. split; [done|]. intros _. eexists.
    split; [reflexivity|].
    assert (Hne : dst <> src).
    { intros E. rewrite <- E, Sd in Ss. congruence. }
    rewrite Sd, lookup_insert_eq. split; [done|].
    split; [|by intros ? [= ->]]. intros _.
    destruct src as [|a src']; [done|]. rewrite stat_cons.
    by rewrite lookup_insert_ne, lookup_delete_eq.
  - case_bool_decide as Hsuf; cbn [fst snd]; [by repeat split|].
    split; [done|]. split; [done|]. intros _.
    eexists. split; [reflexivity|].
    destruct src as [|a src']; [exfalso; apply Hsuf, suffix_nil|].
    rewrite stat_cons in Ss. rewrite Sd. split; [|split; [|done]].
    + by apply rename_tree_lookup_dst.
    + intros Hwf. rewrite stat_cons. apply rename_tree_lookup_src.
      intros [k Hk]. rewrite Hk in Ss.
      assert (is_Some (fs !! dst)) as [? ?]; [|congruence].
      apply (wf_ancestor fs dst Hwf) with (k := k); [done | eauto].
Qed.

(** The archive is a directory that contains the destination: the
    source exists, the destination directory is a directory, nothing
    exists at the destination path, and [store_archive] still raises
    [BackupStorageError]. *)
Lemma store_archive_fourth_failure :
  let src := ["srv"]%string in
  let dir := ["2024-01-04"; "backups"; "srv"]%string in
  exists_ sample_fs src = true
  /\ exists_ sample_fs dir = true /\ is_dir sample_fs dir = true
  /\ exists_ sample_fs (joinpath dir "b.zip") = false
  /\ snd (store_archive src dir "b.zip" sample_fs) = inl BackupStorageError.
Proof. vm_compute. repeat split. Qed.

(** *** Pruning *)


Lemma rmtree_lookup (c : path) (fs : FS) (q : path) :
  filter (fun kv : path * node => ~ c `suffix_of` kv.1) fs !! q
  = if decide (c `suffix_of` q) then None else fs !! q.
Proof.
  case_decide as H.
  - apply map_lookup_filter_None. right. intros x _ Hx. by apply Hx.
  - destruct (fs !! q) as [v|] eqn:L.
    + by apply map_lookup_filter_Some.
    + apply map_lookup_filter_None. by left.
Qed.

Lemma is_child_suffix_eq (base r c : path) :
  is_child base r -> is_child base c -> r `suffix_of` c -> r = c.
Proof.
  intros [Hr Hrt] [Hc Hct] Hs. apply suffix_length_eq; [done|].
  destruct r, c; try done. cbn in *. subst. lia.
Qed.

Lemma prune_loop_spec (keep_from : date) (base : path) (fs0 : FS) :
  forall (cands removed : list path) (fs : FS),
  NoDup cands ->
  (forall c, c ∈ cands -> is_child base c) ->
  (forall r, r ∈ removed -> is_child base r /\ r ∉ cands) ->
  (forall q, fs !! q = without removed fs0 q) ->
  exists fs',
    prune_loop keep_from cands removed fs
    = (fs', inr (removed
                 ++ filter (fun c => qualifies keep_from fs0 c = true) cands))
    /\ forall q,
        fs' !! q
        = without (removed
                   ++ filter (fun c => qualifies keep_from fs0 c = true) cands)
            fs0 q.
Proof.
  induction cands as [|c rest IH]; intros removed fs Hnd Hch Hrem Hfs.
  - cbn [prune_loop]. rewrite filter_nil, app_nil_r. eauto.
  - apply NoDup_cons in Hnd as [Hc Hnd].
    assert (Hchild : is_child base c) by (apply Hch; left).
    assert (Hsame : fs !! c = fs0 !! c).
    { rewrite Hfs. unfold without. case_decide as Hex; [|done].
      apply Exists_exists in Hex as (r & Hr & Hs).
      destruct (Hrem r Hr) as [Hrc Hnin].
      apply (is_child_suffix_eq base) in Hs as ->; [|done..].
      exfalso. apply Hnin. left. }
    assert (Hdir : is_dir fs c = is_dir fs0 c).
    { unfold is_dir. destruct c; [by destruct Hchild|].
      by rewrite !stat_cons, Hsame. }
    assert (Hskip : qualifies keep_from fs0 c = false ->
              exists fs',
                prune_loop keep_from rest removed fs
                = (fs', inr (removed
                     ++ filter (fun c => qualifies keep_from fs0 c = true)
                          (c :: rest)))
                /\ forall q, fs' !! q
                   = without (removed
                       ++ filter (fun c => qualifies keep_from fs0 c = true)
                            (c :: rest)) fs0 q).
    { intros Hq. rewrite filter_cons_False by congruence.
      apply IH; [done | | | done].
      - intros c' Hc'. apply Hch. by right.
      - intros r Hr. destruct (Hrem r Hr) as [? Hn]. split; [done|].
        intros ?. apply Hn. by right. }
    destruct (qualifies keep_from fs0 c) eqn:Q.
    + clear Hskip. rewrite filter_cons_True by done.
      unfold qualifies in Q. apply andb_prop in Q as [D Q].
      destruct (strptime_Ymd (name c)) as [d|] eqn:P; [|done].
      cbn [prune_loop]. rewrite Hdir, D, P, Q. cbn [negb].
      rewrite <- Hdir in D. unfold rmtree. rewrite (is_dir_stat _ _ D).
      destruct (IH (removed ++ [c])
                  (filter (fun kv : path * node => ~ c `suffix_of` kv.1) fs))
        as (fs' & Hrun & Hfs'); [done | | | |].
      * intros c' Hc'. apply Hch. by right.
      * intros r [Hr| ->%list_elem_of_singleton]%elem_of_app; [|done].
        destruct (Hrem r Hr) as [? Hn]. split; [done|].
        intros ?. apply Hn. by right.
      * intros q. rewrite rmtree_lookup, Hfs. unfold without.
        assert (Hsnoc : Exists (fun r => r `suffix_of` q) (removed ++ [c])
                        <-> Exists (fun r => r `suffix_of` q) removed
                            \/ c `suffix_of` q).
        { rewrite Exists_app, Exists_cons, Exists_nil. tauto. }
        destruct (decide (c `suffix_of` q));
          destruct (decide (Exists (fun r => r `suffix_of` q) removed));
          destruct (decide (Exists (fun r => r `suffix_of` q) (removed ++ [c])));
          tauto.
      * exists fs'. rewrite <- !app_assoc in *. cbn [app] in *. done.
    + cbn [prune_loop]. rewrite Hdir. unfold qualifies in Q.
      destruct (is_dir fs0 c); cbn [negb andb] in *; [|by apply Hskip].
      destruct (strptime_Ymd (name c)) as [d|]; [|by apply Hskip].
      rewrite Q. by apply Hskip.
Qed.

Lemma qualifies_iff (keep_from : date) (fs : FS) (p : path) :
  qualifies keep_from fs p = true
  <-> is_dir fs p = true
      /\ exists d, strptime_Ymd (name p) = Some d /\ Date.lt d keep_from = true.
Proof.
  unfold qualifies. rewrite andb_true_iff.
  destruct (strptime_Ymd (name p)) as [d|].
  - split; [intros []; eauto | by intros [? (? & [= ->] & ?)]].
  - split; [by intros [] | by intros [? (? & ? & ?)]].
Qed.

Lemma coerce_retention_days (n : Z) : (if n <=? 0 then 1 else n) = Z.max n 1.
Proof. destruct (Z.leb_spec n 0); lia. Qed.

(** [prune_older_than], when the start of the window is a date and the
    backup root is absent or a directory. *)
Lemma prune_older_than_general (base : path) (today : date)
    (retention_days : Z) (reference_date : option date) (fs : FS)
    (keep_from : date) :
  sub_days (default today reference_date) (Z.max retention_days 1 - 1)
    = inr keep_from ->
  exists_ fs base = false \/ is_dir fs base = true ->
  exists (fs' : FS) (removed : list path),
    prune_older_than base today retention_days reference_date fs
      = (fs', inr removed)
    /\ (exists_ fs base = false -> removed = [] /\ fs' = fs)
    /\ (is_dir fs base = true ->
        (forall p, p ∈ removed
                   <-> is_child base p /\ qualifies keep_from fs p = true)
        /\ NoDup removed
        /\ (forall q, fs' !! q = without removed fs q)).
Proof.
  intros Hsub Hbase. unfold prune_older_than.
  rewrite coerce_retention_days.
  replace (match reference_date with Some d => d | None => today end)
    with (default today reference_date) by by destruct reference_date.
  rewrite Hsub. destruct Hbase as [Hno|Hdir].
  - rewrite Hno. cbn [negb]. exists fs, []. split; [done|]. split; [done|].
    intros Hd%is_dir_exists. congruence.
  - rewrite (is_dir_exists _ _ Hdir). cbn [negb]. unfold iterdir.
    rewrite (is_dir_stat _ _ Hdir).
    set (cands := filter (is_child base) (map_to_list fs).*1).
    assert (Hnd : NoDup cands)
      by apply NoDup_filter, NoDup_fst_map_to_list.
    destruct (prune_loop_spec keep_from base fs cands [] fs)
      as (fs' & Hrun & Hfs'); [done | | | |].
    + intros c Hc. by apply list_elem_of_filter in Hc as [? _].
    + by intros r ?%elem_of_nil.
    + intros q. unfold without. case_decide as H; [|done].
      by apply Exists_nil in H.
    + cbn [app] in *. eexists fs', _. split; [exact Hrun|].
      split; [done|]. intros _.
      split; [|split; [by apply NoDup_filter | done]].
      intros p. rewrite list_elem_of_filter. unfold cands.
      rewrite list_elem_of_filter. split; [tauto|].
      intros [Hch Hq]. split; [done|]. split; [done|].
      apply qualifies_iff in Hq as [Hd _]. apply is_dir_stat in Hd.
      destruct p as [|n par]; [by destruct Hch|]. rewrite stat_cons in Hd.
      apply list_elem_of_fmap. exists (n :: par, Dir). split; [done|].
      by apply elem_of_map_to_list.
Qed.

Lemma lt_2024_01_04 (d : date) :
  Date.lt d (mkdate 2024 1 4) = true
  <-> d = mkdate 2024 1 3 \/ Date.lt d (mkdate 2024 1 3) = true.
Proof.
  destruct d as [y m dd]. unfold Date.lt. cbn [year month day].
  rewrite !orb_true_iff, !andb_true_iff, !orb_true_iff, !andb_true_iff.
  rewrite !Z.ltb_lt, !Z.eqb_eq. split.
  - intros H. destruct (decide (dd = 3)) as [->|]; [|right; lia].
    destruct (decide (y = 2024 /\ m = 1)) as [[-> ->]|]; [by left | right; lia].
  - intros [[= -> -> ->]|H]; lia.
Qed.

(** C3 (as amended).  Let [keep_from] be [reference_date] (today when
    none is given) minus ([max retention_days 1] - 1) days.  First part:
    whenever that is a date (it is not before 0001-01-01, and the number
    of days fits a [timedelta]) and the backup root is absent or a
    directory, [keep_from] is the date that many days before the
    reference, "strictly earlier than [keep_from]" is the order of the
    calendar days, and [prune_older_than] returns the list of the paths
    it deleted; the list is empty and nothing changes when the root is
    absent; otherwise the deleted paths are exactly the directories
    directly inside the root whose name parses (with [%Y-%m-%d]) as a
    date strictly before [keep_from], each listed once, they are removed
    with all they contain, and every other entry stays.  Second part:
    with a retention of 7 days and the reference 2024-01-10, the deleted
    directories are those dated 2024-01-03 or earlier; 2024-01-04 through
    2024-01-10 are kept. *)
Theorem prune_older_than_window :
  (forall (base : path) (today : date) (retention_days : Z)
          (reference_date : option date) (fs : FS) (keep_from : date),
      sub_days (default today reference_date) (Z.max retention_days 1 - 1)
        = inr keep_from ->
      exists_ fs base = false \/ is_dir fs base = true ->
      (valid keep_from = true
       /\ toordinal keep_from
          = toordinal (default today reference_date)
            - (Z.max retention_days 1 - 1)
       /\ forall d, valid d = true ->
                    (Date.lt d keep_from = true
                     <-> toordinal d < toordinal keep_from))
      /\ exists (fs' : FS) (removed : list path),
        prune_older_than base today retention_days reference_date fs
          = (fs', inr removed)
        /\ (exists_ fs base = false -> removed = [] /\ fs' = fs)
        /\ (is_dir fs base = true ->
            (forall p,
                p ∈ removed
                <-> is_child base p /\ is_dir fs p = true
                    /\ exists d, strptime_Ymd (name p) = Some d
                                 /\ Date.lt d keep_from = true)
            /\ NoDup removed
            /\ (forall q,
                   fs' !! q
                   = if decide (Exists (fun r => r `suffix_of` q) removed)
                     then None else fs !! q)))
  /\ (forall (base : path) (today : date) (fs : FS),
        is_dir fs base = true ->
        exists (fs' : FS) (removed : list path),
          prune_older_than base today 7 (Some (mkdate 2024 1 10)) fs
            = (fs', inr removed)
          /\ (forall p,
                 p ∈ removed
                 <-> is_child base p /\ is_dir fs p = true
                     /\ exists d, strptime_Ymd (name p) = Some d
                                  /\ (d = mkdate 2024 1 3
                                      \/ Date.lt d (mkdate 2024 1 3) = true))
          /\ (is_dir fs (joinpath base "2024-01-03") = true ->
              joinpath base "2024-01-03" ∈ removed)
          /\ (forall n,
                 n ∈ ["2024-01-04"; "2024-01-05"; "2024-01-06"; "2024-01-07";
                      "2024-01-08"; "2024-01-09"; "2024-01-10"]%string ->
                 (joinpath base n ∉ removed)
                 /\ fs' !! (joinpath base n) = fs !! (joinpath base n))).
Proof.
  split.
  - intros base today rd ref fs keep_from Hsub Hbase.
    destruct (prune_older_than_general _ _ _ _ _ _ Hsub Hbase)
      as (fs' & removed & Hrun & Habsent & Hpresent).
    destruct (sub_days_inr _ _ _ Hsub) as [Hvalid Hord].
    split; [split; [done|split; [done|]]|].
    { intros d Hd. by apply lt_toordinal. }
    exists fs', removed. split; [done|]. split; [done|]. intros Hdir.
    destruct (Hpresent Hdir) as (Hiff & Hnd & Hfs). split; [|done].
    intros p. rewrite Hiff, qualifies_iff. tauto.
  - intros base today fs Hdir.
    destruct (prune_older_than_general base today 7 (Some (mkdate 2024 1 10))
                fs (mkdate 2024 1 4) eq_refl (or_intror Hdir))
      as (fs' & removed & Hrun & _ & Hpresent).
    destruct (Hpresent Hdir) as (Hiff & _ & Hfs).
    assert (Hiff' : forall p,
               p ∈ removed
               <-> is_child base p /\ is_dir fs p = true
                   /\ exists d, strptime_Ymd (name p) = Some d
                                /\ (d = mkdate 2024 1 3
                                    \/ Date.lt d (mkdate 2024 1 3) = true)).
    { intros p. rewrite Hiff, qualifies_iff.
      by setoid_rewrite lt_2024_01_04. }
    exists fs', removed. split; [done|]. split; [done|]. split.
    + intros H3. apply Hiff'. split; [done|]. split; [done|].
      exists (mkdate 2024 1 3). split; [reflexivity | by left].
    + intros n Hn.
      assert (Hkeep : joinpath base n ∉ removed).
      { rewrite Hiff'. intros (_ & _ & d & Hp & Hd). cbn [name joinpath] in Hp.
        repeat (apply elem_of_cons in Hn as [->|Hn];
                [vm_compute in Hp; injection Hp as <-;
                 by destruct Hd as [Hd|Hd]; vm_compute in Hd|]).
        by apply elem_of_nil in Hn. }
      split; [done|]. rewrite Hfs. unfold without. case_decide as H; [|done].
      exfalso. apply Exists_exists in H as (r & Hr & Hs).
      apply (is_child_suffix_eq base) in Hs as ->; [done | by apply Hiff|done].
Qed.

(** A retention of 800000 days, counted back from 2024-01-10, starts
    before 0001-01-01: [prune_older_than] raises [OverflowError] instead
    of returning a list of deleted paths. *)
Lemma prune_older_than_overflow :
  is_dir sample_fs backups = true
  /\ snd (prune_older_than backups d2024_01_10 800000 (Some d2024_01_10)
            sample_fs) = inl OverflowError.
Proof. vm_compute. split; reflexivity. Qed.

End StorageProperties.

(** ** The use cases *)

Section UseCaseProperties.

Import Date UseCases.

Lemma prepare_daily_directory_returns (base : path) (D : date)
    (fs fs1 : FS) (dir : path) :
  Storage.prepare_daily_directory base D fs = (fs1, inr (Some dir)) ->
  dir = joinpath base (strftime_Ymd D).
Proof.
  unfold Storage.prepare_daily_directory.
  destruct (Path_mkdir_parents _ _ _); [done|].
  destruct (exists_ _ _); [by destruct (negb _)|].
  destruct (Path_mkdir _ _ _); [done|]. by intros [= _ <-].
Qed.

(** On a well-formed filesystem where the dated directory is there,
    [prepare_daily_directory] changes nothing and returns [None]. *)
Lemma prepare_daily_directory_present (base : path) (D : date) (fs : FS) :
  wf fs ->
  is_dir fs (joinpath base (strftime_Ymd D)) = true ->
  Storage.prepare_daily_directory base D fs = (fs, inr None).
Proof.
  intros Hwf Hd. unfold Storage.prepare_daily_directory.
  assert (Hb : is_dir fs base = true).
  { pose proof (is_dir_stat _ _ Hd) as Hs. unfold joinpath in Hs.
    rewrite stat_cons in Hs. by destruct (Hwf _ _ Hs) as [_ ?]. }
  rewrite (Path_mkdir_parents_is_dir _ _ Hb), (is_dir_exists _ _ Hd), Hd.
  reflexivity.
Qed.

(** C2.  With the filesystem-backed storage and any archive service:
    (1) when the directory dated today is already there, [execute]
    returns [False], the filesystem is unchanged, and the only port call
    made is [prepare_daily_directory] -- neither [create_zip] nor
    [store_archive] nor [prune_older_than] is invoked; (2) whenever
    [execute] returns [False], [prepare_daily_directory] returned [None]
    and was the only call; (3) whenever it returns [True],
    [prepare_daily_directory] returned the fresh path and the calls were,
    in this order, [prepare_daily_directory], [create_zip],
    [store_archive] into that path, [prune_older_than]; (4) when
    [prepare_daily_directory] returns a fresh path and the three further
    calls succeed, [execute] returns [True]. *)
Theorem ensure_daily_backup_skips_or_backs_up (A : ArchiveService)
    (base server_root : path) (retention_days : Z) (filename : string)
    (today : date) :
  let S := DailyBackupStorageService base today in
  let target := joinpath base (strftime_Ymd today) in
  let execute := @execute A S server_root retention_days filename today in
  (forall w,
      wf (fs w) -> is_dir (fs w) target = true ->
      execute w
      = ({| fs := fs w;
            journal := journal w ++ [call_prepare_daily_directory today] |},
         inr false))
  /\ (forall w w',
         execute w = (w', inr false) ->
         snd (Storage.prepare_daily_directory base today (fs w)) = inr None
         /\ journal w' = journal w ++ [call_prepare_daily_directory today])
  /\ (forall w w',
         execute w = (w', inr true) ->
         snd (Storage.prepare_daily_directory base today (fs w))
           = inr (Some target)
         /\ exists archive_path,
             journal w'
             = journal w
               ++ [call_prepare_daily_directory today;
                   call_create_zip server_root;
                   call_store_archive archive_path target filename;
                   call_prune_older_than retention_days (Some today)])
  /\ (forall w fs1 fs2 fs3 fs4 archive_path stored removed,
         Storage.prepare_daily_directory base today (fs w)
           = (fs1, inr (Some target)) ->
         create_zip server_root fs1 = (fs2, inr archive_path) ->
         Storage.store_archive archive_path target filename fs2
           = (fs3, inr stored) ->
         Storage.prune_older_than base today retention_days (Some today) fs3
           = (fs4, inr removed) ->
         execute w
         = ({| fs := fs4;
               journal :=
                 journal w
                 ++ [call_prepare_daily_directory today;
                     call_create_zip server_root;
                     call_store_archive archive_path target filename;
                     call_prune_older_than retention_days (Some today)] |},
            inr true)).
Proof.
  intros S target exec. subst exec S.
  unfold execute, bind, invoke, ret.
  cbn [prepare_daily_directory store_archive prune_older_than
       DailyBackupStorageService fs journal].
  split; [|split; [|split]].
  - intros w Hwf Hd.
    by rewrite (prepare_daily_directory_present _ _ _ Hwf Hd).
  - intros w w'.
    destruct (Storage.prepare_daily_directory base today (fs w))
      as [fs1 [err|[dir|]]]; cbn [fs journal snd]; [done| |by intros [= <-]].
    destruct (create_zip server_root fs1) as [fs2 [err|a]]; [done|].
    cbn [fs journal].
    destruct (Storage.store_archive a dir filename fs2) as [fs3 [err|p]];
      [done|]. cbn [fs journal].
    by destruct (Storage.prune_older_than _ _ _ _ fs3) as [fs4 [err|l]].
  - intros w w'.
    destruct (Storage.prepare_daily_directory base today (fs w))
      as [fs1 [err|[dir|]]] eqn:P; cbn [fs journal snd]; [done| |done].
    apply prepare_daily_directory_returns in P as ->. fold target.
    destruct (create_zip server_root fs1) as [fs2 [err|a]]; [done|].
    cbn [fs journal].
    destruct (Storage.store_archive a target filename fs2) as [fs3 [err|p]];
      [done|]. cbn [fs journal].
    destruct (Storage.prune_older_than _ _ _ _ fs3) as [fs4 [err|l]];
      [done|]. intros [= <-]. split; [done|]. exists a. cbn [journal].
    by rewrite <- !app_assoc.
  - intros w fs1 fs2 fs3 fs4 a p l Hp Hz Hs Hr.
    rewrite Hp. cbn [fs journal]. rewrite Hz. cbn [fs journal].
    rewrite Hs. cbn [fs journal]. rewrite Hr. by rewrite <- !app_assoc.
Qed.

(** C9.  For every pair of injected use cases: (1) when a backup use
    case is configured and returns a flag, whichever flag, [start] runs
    next, on the world the backup left, and the workflow returns that
    flag if [start] returns and raises what [start] raises otherwise;
    (2) when the backup use case raises, the workflow raises the same
    exception; (3) when no backup use case is configured, [start] runs
    and the workflow returns [False], or raises what [start] raises. *)
Theorem workflow_runs_backup_then_start {W : Type} (start : M W unit) :
  (forall (backup : M W bool) (w w1 : W) (flag : bool),
      backup w = (w1, inr flag) ->
      workflow_execute start (Some backup) w
      = (fst (start w1),
         match snd (start w1) with
         | inr _ => inr flag
         | inl err => inl err
         end))
  /\ (forall (backup : M W bool) (w w1 : W) (err : exn),
         backup w = (w1, inl err) ->
         workflow_execute start (Some backup) w = (w1, inl err))
  /\ (forall w : W,
         workflow_execute start None w
         = (fst (start w),
            match snd (start w) with
            | inr _ => inr false
            | inl err => inl err
            end)).
Proof.
  unfold workflow_execute, bind, ret. split; [|split].
  - intros backup w w1 flag ->. by destruct (start w1) as [w2 [err|[]]].
  - by intros backup w w1 err ->.
  - intros w. by destruct (start w) as [w2 [err|[]]].
Qed.

End UseCaseProperties.

(** ** The lifecycle manager *)

Section ManagerProperties.

Import Manager.


Lemma _set_state_locked_state (state : ServerState) (now : Q)
    (m : SubprocessServerManager) :
  _state (_set_state_locked state now m) = state.
Proof. unfold _set_state_locked. by case_decide. Qed.

Lemma _set_state_locked_process (state : ServerState) (now : Q)
    (m : SubprocessServerManager) :
  _process (_set_state_locked state now m) = _process m.
Proof. unfold _set_state_locked. by case_decide. Qed.

(** A refresh brings the invariant about, whatever the fields were. *)
Lemma _refresh_state_locked_invariant (o : obs) (m : SubprocessServerManager) :
  stopped_iff_no_handle (_refresh_state_locked None o m).
Proof.
  unfold stopped_iff_no_handle, _refresh_state_locked, is_alive.
  destruct m as [[p|] st since]; cbn [_process _state _state_since];
    [destruct (poll_is_None o)|]; cbn [negb];
    repeat case_decide; try destruct (Qle_bool _ _);
    rewrite ?_set_state_locked_state, ?_set_state_locked_process;
    cbn; split; congruence.
Qed.

Lemma is_running_refresh_invariant (o : obs) (m : SubprocessServerManager) :
  stopped_iff_no_handle
    (_refresh_state_locked (Some (is_alive (poll_is_None o) m)) o m).
Proof.
  unfold stopped_iff_no_handle, _refresh_state_locked, is_alive.
  destruct m as [[p|] st since]; cbn [_process _state _state_since];
    [destruct (poll_is_None o)|]; cbn [negb];
    repeat case_decide; try destruct (Qle_bool _ _);
    rewrite ?_set_state_locked_state, ?_set_state_locked_process;
    cbn; split; congruence.
Qed.

Lemma start_locked_invariant (e : start_env) (script_path : path)
    (m : SubprocessServerManager) :
  stopped_iff_no_handle m ->
  stopped_iff_no_handle (fst (fst (start_locked e script_path m))).
Proof.
  unfold start_locked. destruct (is_alive _ m); [done|]. intros _.
  unfold stopped_iff_no_handle.
  destruct (popen e); cbn [fst];
    rewrite ?_set_state_locked_state, ?_set_state_locked_process; cbn;
    rewrite ?_set_state_locked_state; split; congruence.
Qed.

Lemma stop_enter_invariant (e : stop_env) (m : SubprocessServerManager) :
  stopped_iff_no_handle m -> stopped_iff_no_handle (fst (stop_enter e m)).
Proof.
  unfold stop_enter, stopped_iff_no_handle.
  destruct (_process m) eqn:P; [destruct (stop_poll_is_None e)|]; cbn [fst];
    rewrite ?_set_state_locked_state, ?_set_state_locked_process; cbn;
    rewrite ?P; tauto.
Qed.

Lemma stop_exit_invariant (e : stop_env) (success : bool)
    (m : SubprocessServerManager) :
  stopped_iff_no_handle (stop_exit e success m).
Proof.
  unfold stop_exit. destruct success.
  - unfold stopped_iff_no_handle.
    by rewrite _set_state_locked_state, _set_state_locked_process.
  - apply _refresh_state_locked_invariant.
Qed.

(** Every critical section keeps the invariant, so it holds however the
    sections of concurrent callers interleave. *)
Lemma enter_invariant (c : critical_section) (m : SubprocessServerManager) :
  stopped_iff_no_handle m -> stopped_iff_no_handle (enter c m).
Proof.
  destruct c; cbn [enter]; intros H.
  - apply is_running_refresh_invariant.
  - apply _refresh_state_locked_invariant.
  - by apply start_locked_invariant.
  - by apply stop_enter_invariant.
  - apply stop_exit_invariant.
Qed.

Lemma perform_invariant (op : operation) (w : world) :
  stopped_iff_no_handle (self w) -> stopped_iff_no_handle (self (perform op w)).
Proof.
  destruct op; cbn [perform]; intros H.
  - apply is_running_refresh_invariant.
  - apply _refresh_state_locked_invariant.
  - unfold start. destruct (script_exists e); cbn [negb fst]; [|done].
    pose proof (start_locked_invariant e script_path (self w) H) as H'.
    by destruct (start_locked e script_path (self w)) as [[m calls] r].
  - unfold stop. pose proof (stop_enter_invariant e (self w) H) as H'.
    destruct (stop_enter e (self w)) as [m [err|process]]; cbn [fst] in *;
      [done|].
    destruct (terminate e process) as [calls outcome]. cbn [fst self].
    apply stop_exit_invariant.
Qed.

(** C10.  At the completion of every public operation, in every run of
    [is_running], [get_state], [start] and [stop] from a new manager and
    whatever the outside does, whether the operation returns or raises,
    the cached state is [STOPPED] if and only if no process handle is
    held -- so [STARTING] and [RUNNING] come with a handle; the same
    holds after every critical section when callers interleave; and when
    the spawn fails, or a refresh or [stop] finds the child dead, the
    handle is cleared in the same step that sets [STOPPED]. *)
Theorem stopped_exactly_without_handle :
  (forall (now : Q) (ops : list operation),
      let w := fold_left (fun w op => perform op w) ops
                 {| self := __init__ now; os_calls := [] |} in
      stopped_iff_no_handle (self w)
      /\ (_state (self w) = STARTING \/ _state (self w) = RUNNING ->
          exists process, _process (self w) = Some process))
  /\ (forall (now : Q) (sections : list critical_section),
        stopped_iff_no_handle
          (fold_left (fun m c => enter c m) sections (__init__ now)))
  /\ (forall (e : start_env) (script_path : path) (w : world),
        script_exists e = true ->
        is_alive (start_poll_is_None e) (self w) = false ->
        popen e = None ->
        let w' := fst (start e script_path w) in
        _process (self w') = None /\ _state (self w') = STOPPED)
  /\ (forall (o : obs) (w : world) (process : Popen),
        _process (self w) = Some process ->
        poll_is_None o = false ->
        let w1 := fst (get_state o w) in
        let w2 := fst (is_running o w) in
        (_process (self w1) = None /\ _state (self w1) = STOPPED)
        /\ (_process (self w2) = None /\ _state (self w2) = STOPPED))
  /\ (forall (e : stop_env) (w : world) (process : Popen),
        _process (self w) = Some process ->
        stop_poll_is_None e = false ->
        let w' := fst (stop e w) in
        _process (self w') = None /\ _state (self w') = STOPPED).
Proof.
  split; [|split; [|split; [|split]]].
  - intros now ops.
    assert (H : forall w0, stopped_iff_no_handle (self w0) ->
              stopped_iff_no_handle
                (self (fold_left (fun w op => perform op w) ops w0))).
    { induction ops as [|op ops IH]; intros w0 H0; [done|].
      cbn [fold_left]. by apply IH, perform_invariant. }
    cbn zeta. split; [by apply H|].
    specialize (H {| self := __init__ now; os_calls := [] |}
                  ltac:(done)).
    destruct H as [_ H]. intros Hst.
    destruct (_process _) as [process|]; [eauto|].
    specialize (H eq_refl). destruct Hst; congruence.
  - intros now sections.
    assert (H : forall m0, stopped_iff_no_handle m0 ->
              stopped_iff_no_handle
                (fold_left (fun m c => enter c m) sections m0)).
    { induction sections as [|c cs IH]; intros m0 H0; [done|].
      cbn [fold_left]. by apply IH, enter_invariant. }
    by apply H.
  - intros e script_path w He Ha Hp. unfold start, start_locked.
    rewrite He, Ha, Hp. cbn [negb fst self].
    by rewrite _set_state_locked_state, _set_state_locked_process.
  - intros o w process Hp Ho.
    unfold get_state, is_running, _refresh_state_locked, is_alive.
    rewrite Hp, Ho. cbn [negb fst self].
    by rewrite _set_state_locked_state, _set_state_locked_process.
  - intros e w process Hp Ho. unfold stop, stop_enter.
    rewrite Hp, Ho. cbn [fst self].
    by rewrite _set_state_locked_state, _set_state_locked_process.
Qed.

(** What a successful [start] leaves: the new handle, the state
    [STARTING], and a transition stamp that is renewed only if the
    cached state was not [STARTING] already. *)
Lemma start_success (e : start_env) (script_path : path) (w w' : world) :
  start e script_path w = (w', inr tt) ->
  _process (self w') = popen e
  /\ (exists process, popen e = Some process)
  /\ _state (self w') = STARTING
  /\ _state_since (self w')
     = if decide (_state (self w) = STARTING) then _state_since (self w)
       else t_starting e.
Proof.
  unfold start, start_locked.
  destruct (script_exists e); cbn [negb]; [|done].
  destruct (is_alive _ _); [done|].
  destruct (popen e) as [process|]; [|done]. intros [= <-]. cbn [self].
  unfold set_process, _set_state_locked.
  case_decide; cbn; eauto.
Qed.

(** A status query while the state is [STARTING] and a handle is held:
    [STOPPED] if the child is dead, else [STARTING] until the clock has
    advanced by the grace period past the transition stamp, and
    [RUNNING] from then on. *)
Lemma get_state_while_starting (o : obs) (w : world) (process : Popen) :
  _process (self w) = Some process ->
  _state (self w) = STARTING ->
  snd (get_state o w)
  = inr (if poll_is_None o
         then if Qle_bool 10 (t_elapsed o - _state_since (self w))
              then RUNNING else STARTING
         else STOPPED).
Proof.
  intros Hp Hs. unfold get_state, _refresh_state_locked, is_alive.
  rewrite Hp. cbn [snd]. destruct (poll_is_None o); cbn [negb].
  - rewrite decide_True by done. unfold _startup_grace_period.
    destruct (Qle_bool _ _); [|by rewrite Hs].
    by rewrite _set_state_locked_state.
  - by rewrite _set_state_locked_state.
Qed.


(** A query answered [STARTING] changes none of the fields, so the
    queries that follow it are answered by the same rule. *)
Lemma get_state_starting_unchanged (o : obs) (w : world) (process : Popen) :
  _process (self w) = Some process ->
  _state (self w) = STARTING ->
  poll_is_None o = true ->
  Qle_bool 10 (t_elapsed o - _state_since (self w)) = false ->
  fst (get_state o w) = w.
Proof.
  intros Hp Hs Ha Hq. unfold get_state, _refresh_state_locked, is_alive.
  rewrite Hp, Ha. cbn [negb fst]. rewrite decide_True by done.
  unfold _startup_grace_period. rewrite Hq. by destruct w.
Qed.

(** After a successful [start] that found the cached state [STOPPED] or
    [RUNNING], the grace period is counted from the clock of that
    [start]. *)
Lemma get_state_after_fresh_start (e : start_env) (script_path : path)
    (w w' : world) (o : obs) :
  start e script_path w = (w', inr tt) ->
  _state (self w) <> STARTING ->
  snd (get_state o w')
  = inr (if poll_is_None o
         then if Qle_bool 10 (t_elapsed o - t_starting e)
              then RUNNING else STARTING
         else STOPPED).
Proof.
  intros Hstart Hfresh.
  destruct (start_success _ _ _ _ Hstart) as (Hp & [process Hq] & Hs & Hsince).
  rewrite decide_False in Hsince by done.
  rewrite (get_state_while_starting o w' process) by congruence.
  by rewrite Hsince.
Qed.

(** C5, at the failing input.  A first [start] at clock 0 succeeds; its
    child exits and nobody asks for the status; a second [start] at
    clock 100 succeeds as well, with a new child.  The cached state was
    still [STARTING], so [_set_state_locked] returned early and the
    stamp stayed at 0: one second after the second successful start,
    with the new child alive, [get_state] answers [RUNNING]. *)
Theorem get_state_right_after_restart :
  let w0 := {| self := __init__ 0; os_calls := [] |} in
  let first :=
    {| script_exists := true; start_nt := false; start_poll_is_None := false;
       t_starting := 0; popen := Some (mkPopen 4001); t_spawn_failed := 0 |} in
  let second :=
    {| script_exists := true; start_nt := false; start_poll_is_None := false;
       t_starting := 100; popen := Some (mkPopen 4002);
       t_spawn_failed := 100 |} in
  let query := {| poll_is_None := true; t_elapsed := 101; t_stamp := 101 |} in
  let w1 := fst (start first start_script w0) in
  let w2 := fst (start second start_script w1) in
  snd (start first start_script w0) = inr tt
  /\ snd (start second start_script w1) = inr tt
  /\ _process (self w2) = Some (mkPopen 4002)
  /\ _state (self w2) = STARTING
  /\ _state_since (self w2) = 0%Q
  /\ snd (get_state query w2) = inr RUNNING.
Proof. vm_compute. repeat split. Qed.

(** C6 (as amended).  While a handle is held and its process is alive,
    [start] changes nothing -- not the state, not the handle, not the
    transition stamp, and nothing is spawned -- and raises
    [ServerAlreadyRunningError] if the script exists and
    [ResourceNotFoundError] if it does not. *)
Theorem start_while_running (e : start_env) (script_path : path) (w : world)
    (process : Popen) :
  _process (self w) = Some process ->
  start_poll_is_None e = true ->
  start e script_path w
  = (w, inl (if script_exists e then ServerAlreadyRunningError
             else ResourceNotFoundError)).
Proof.
  intros Hp Ha. unfold start, start_locked, is_alive. rewrite Hp, Ha.
  destruct (script_exists e); cbn [negb]; [|done].
  destruct w as [m calls]. cbn. by rewrite app_nil_r.
Qed.

(** The server is running and the script path does not exist: [start]
    raises [ResourceNotFoundError], not [ServerAlreadyRunningError]. *)
Lemma start_while_running_without_script :
  let w := {| self := {| _process := Some (mkPopen 4001); _state := RUNNING;
                         _state_since := 0 |};
              os_calls := [] |} in
  let e := {| script_exists := false; start_nt := false;
              start_poll_is_None := true; t_starting := 50;
              popen := Some (mkPopen 4002); t_spawn_failed := 50 |} in
  is_alive (start_poll_is_None e) (self w) = true
  /\ start e start_script w = (w, inl ResourceNotFoundError)
  /\ snd (start e start_script w) <> inl ServerAlreadyRunningError.
Proof. vm_compute. repeat split. discriminate. Qed.

(** C7.  When no handle is held, or the held process has exited,
    [stop] raises [ServerNotRunningError], having cleared the handle and
    set the cached state to [STOPPED]; no signal is sent. *)
Theorem stop_when_not_running (e : stop_env) (w : world) :
  is_alive (stop_poll_is_None e) (self w) = false ->
  exists w',
    stop e w = (w', inl ServerNotRunningError)
    /\ _process (self w') = None
    /\ _state (self w') = STOPPED
    /\ os_calls w' = os_calls w.
Proof.
  intros Ha. unfold stop, stop_enter. unfold is_alive in Ha.
  destruct (_process (self w)) as [process|];
    [rewrite Ha|]; (eexists; split; [reflexivity|]); cbn [self os_calls];
    by rewrite _set_state_locked_state, _set_state_locked_process.
Qed.

(** On POSIX, when the child does not exit within the 60 seconds that
    follow the [SIGTERM] to its group, [stop] kills the child process
    alone, raises [ServerNotRunningError], and leaves the fields as the
    closing refresh computes them. *)
Lemma stop_posix_timeout (e : stop_env) (w : world) (process : Popen) :
  _process (self w) = Some process ->
  stop_poll_is_None e = true ->
  stop_nt e = false ->
  signal_raises e = false ->
  exited_within_60 e = false ->
  stop e w
  = ({| self := _refresh_state_locked None (closing e) (self w);
        os_calls := os_calls w
                    ++ [signal_group_of (pid process) SIGTERM;
                        wait (pid process) 60;
                        signal_process (pid process) SIGKILL] |},
     inl ServerNotRunningError).
Proof.
  intros Hp Ha Hnt Hs Hw. unfold stop, stop_enter, terminate.
  by rewrite Hp, Ha, Hnt, Hs, Hw.
Qed.

(** C8, at the failing input.  POSIX, a running server with process id
    4001 whose group ignores [SIGTERM] for 60 seconds and is still alive
    when [stop] ends.  The calls [stop] makes are: [SIGTERM] to the
    group, the wait, and [SIGKILL] to the process 4001 alone -- no call
    kills the group.  It raises [ServerNotRunningError] and the cached
    state is the refreshed one, [RUNNING], not [STOPPED]. *)
Theorem stop_posix_timeout_kills_child_only :
  let w := {| self := {| _process := Some (mkPopen 4001); _state := RUNNING;
                         _state_since := 0 |};
              os_calls := [] |} in
  let e := {| stop_poll_is_None := true; t_not_running := 500;
              stop_nt := false; signal_raises := false;
              exited_within_60 := false; taskkill_returncode := 0;
              exited_within_10 := false; t_stopped := 560;
              closing := {| poll_is_None := true; t_elapsed := 560;
                            t_stamp := 560 |} |} in
  snd (stop e w) = inl ServerNotRunningError
  /\ os_calls (fst (stop e w))
     = [signal_group_of 4001 SIGTERM; wait 4001 60;
        signal_process 4001 SIGKILL]
  /\ (signal_group_of 4001 SIGKILL ∉ os_calls (fst (stop e w)))
  /\ _state (self (fst (stop e w))) = RUNNING
  /\ _process (self (fst (stop e w))) = Some (mkPopen 4001).
Proof.
  vm_compute. repeat split.
  intros H. repeat (apply elem_of_cons in H as [H|H]; [discriminate H|]).
  by apply elem_of_nil in H.
Qed.

End ManagerProperties.

(** ** The theorems at concrete inputs *)

Section Witnesses.

Import Date Manager UseCases.

Lemma prepare_daily_directory_twice_witness :
  exists fs1,
    Storage.prepare_daily_directory backups d2024_01_10 sample_fs
      = (fs1, inr (Some (joinpath backups (strftime_Ymd d2024_01_10))))
    /\ is_dir fs1 (joinpath backups (strftime_Ymd d2024_01_10)) = true
    /\ Storage.prepare_daily_directory backups d2024_01_10 fs1
       = (fs1, inr None).
Proof.
  apply (prepare_daily_directory_twice backups d2024_01_10 sample_fs);
    vm_compute; reflexivity.
Defined.

Lemma ensure_daily_backup_witness :
  let w := {| fs := sample_fs; journal := [] |} in
  let today := mkdate 2024 1 4 in
  @execute (ZipArchiveService ["mc.zip"; "tmp"]%string "zipped")
    (DailyBackupStorageService backups today)
    server_root 7 "minecraft-server-backup.zip" today w
  = ({| fs := sample_fs; journal := [call_prepare_daily_directory today] |},
     inr false).
Proof.
  refine (proj1 (ensure_daily_backup_skips_or_backs_up
                   (ZipArchiveService ["mc.zip"; "tmp"]%string "zipped")
                   backups server_root 7 "minecraft-server-backup.zip"
                   (mkdate 2024 1 4))
            {| fs := sample_fs; journal := [] |} _ _).
  - apply (bool_decide_unpack (wf sample_fs)). vm_compute. exact I.
  - vm_compute. reflexivity.
Defined.

Lemma prune_older_than_window_witness :
  exists (fs' : FS) (removed : list path),
    Storage.prune_older_than backups d2024_01_10 7 None sample_fs
      = (fs', inr removed)
    /\ (forall p,
           p ∈ removed
           <-> is_child backups p /\ is_dir sample_fs p = true
               /\ exists d, strptime_Ymd (name p) = Some d
                            /\ Date.lt d (mkdate 2024 1 4) = true).
Proof.
  destruct (proj1 prune_older_than_window backups d2024_01_10 7 None
              sample_fs (mkdate 2024 1 4))
    as (_ & fs' & removed & Hrun & _ & Hpresent).
  - vm_compute. reflexivity.
  - right. vm_compute. reflexivity.
  - exists fs', removed. split; [exact Hrun|].
    apply Hpresent. vm_compute. reflexivity.
Defined.

Lemma store_archive_outcome_witness :
  let src := ["a.zip"; "tmp"]%string in
  let dir := ["2024-01-04"; "backups"; "srv"]%string in
  let dst := joinpath dir "minecraft-server-backup.zip" in
  exists fs',
    Storage.store_archive src dir "minecraft-server-backup.zip" sample_fs
      = (fs', inr dst)
    /\ stat fs' dst = stat sample_fs src
    /\ (wf sample_fs -> stat fs' src = None)
    /\ (forall c, stat sample_fs src = Some (File c) ->
                  fs' = <[dst := File c]> (delete src sample_fs)).
Proof.
  refine (proj2 (proj2 (store_archive_outcome ["a.zip"; "tmp"]%string
                          ["2024-01-04"; "backups"; "srv"]%string
                          "minecraft-server-backup.zip" sample_fs _)) _).
  - vm_compute. reflexivity.
  - vm_compute. reflexivity.
Defined.

Lemma start_while_running_witness :
  let w := {| self := {| _process := Some (mkPopen 4001); _state := RUNNING;
                         _state_since := 0 |};
              os_calls := [] |} in
  let e := {| script_exists := true; start_nt := false;
              start_poll_is_None := true; t_starting := 50;
              popen := Some (mkPopen 4002); t_spawn_failed := 50 |} in
  start e start_script w = (w, inl ServerAlreadyRunningError).
Proof.
  apply (start_while_running
           {| script_exists := true; start_nt := false;
              start_poll_is_None := true; t_starting := 50;
              popen := Some (mkPopen 4002); t_spawn_failed := 50 |}
           start_script
           {| self := {| _process := Some (mkPopen 4001); _state := RUNNING;
                         _state_since := 0 |};
              os_calls := [] |}
           (mkPopen 4001)); reflexivity.
Defined.


Lemma stop_when_not_running_witness :
  exists w',
    stop sample_stop_env
      {| self := {| _process := Some (mkPopen 4001); _state := RUNNING;
                    _state_since := 0 |};
         os_calls := [] |}
    = (w', inl ServerNotRunningError)
    /\ _process (self w') = None
    /\ _state (self w') = STOPPED
    /\ os_calls w' = [].
Proof.
  apply (stop_when_not_running sample_stop_env
           {| self := {| _process := Some (mkPopen 4001); _state := RUNNING;
                         _state_since := 0 |};
              os_calls := [] |}).
  reflexivity.
Defined.

Lemma workflow_runs_backup_then_start_witness :
  let w1 := fst (sample_backup sample_world) in
  workflow_execute sample_start (Some sample_backup) sample_world
  = (fst (sample_start w1),
     match snd (sample_start w1) with
     | inr _ => inr true
     | inl err => inl err
     end).
Proof.
  refine (proj1 (workflow_runs_backup_then_start sample_start)
            sample_backup sample_world (fst (sample_backup sample_world))
            true _).
  vm_compute. reflexivity.
Defined.

Lemma stopped_exactly_without_handle_witness :
  let e := {| script_exists := true; start_nt := false;
              start_poll_is_None := false; t_starting := 5;
              popen := None; t_spawn_failed := 6 |} in
  let w' := fst (start e start_script
                   {| self := __init__ 0; os_calls := [] |}) in
  _process (self w') = None /\ _state (self w') = STOPPED.
Proof.
  refine (proj1 (proj2 (proj2 stopped_exactly_without_handle))
            {| script_exists := true; start_nt := false;
               start_poll_is_None := false; t_starting := 5;
               popen := None; t_spawn_failed := 6 |}
            start_script {| self := __init__ 0; os_calls := [] |} _ _ _);
    reflexivity.
Defined.

End Witnesses.

(** ** End to end *)

(** The workflow on the sample world, on 2024-01-10 with a retention of
    7 days: the backup is made, the directory of 2024-01-03 goes, that
    of 2024-01-04 and the entries that are not backups stay, and the
    server is started. *)
Example sample_workflow :
  let w := fst (UseCases.workflow_execute sample_start (Some sample_backup)
                  sample_world) in
  snd (UseCases.workflow_execute sample_start (Some sample_backup) sample_world)
    = inr true
  /\ UseCases.fs (fst w)
       !! ["minecraft-server-backup.zip"; "2024-01-10"; "backups"; "srv"]%string
     = Some (File "zipped")
  /\ UseCases.fs (fst w) !! ["mc.zip"; "tmp"]%string = None
  /\ UseCases.fs (fst w) !! ["2024-01-03"; "backups"; "srv"]%string = None
  /\ UseCases.fs (fst w)
       !! ["minecraft-server-backup.zip"; "2024-01-03"; "backups"; "srv"]%string
     = None
  /\ UseCases.fs (fst w) !! ["2024-01-04"; "backups"; "srv"]%string = Some Dir
  /\ UseCases.fs (fst w) !! ["notes"; "backups"; "srv"]%string = Some Dir
  /\ UseCases.fs (fst w) !! ["2023-12-31"; "backups"; "srv"]%string
     = Some (File "stray")
  /\ Manager._state (Manager.self (snd w)) = Manager.STARTING.
Proof. vm_compute. repeat split. Qed.

(** * Further properties *)

(** ** More on the lifecycle manager *)

Section ManagerExtras.

Import Manager.

(** What a refresh leaves as cached state: [STOPPED] without a live
    child; with one, [STARTING] only if it was [STARTING] and the grace
    period is not over, else [RUNNING]. *)
Lemma _refresh_state_locked_state (o : obs) (m : SubprocessServerManager) :
  _state (_refresh_state_locked None o m)
  = if is_alive (poll_is_None o) m
    then if decide (_state m = STARTING)
         then if Qle_bool 10 (t_elapsed o - _state_since m)
              then RUNNING else STARTING
         else RUNNING
    else STOPPED.
Proof.
  unfold _refresh_state_locked. destruct (is_alive _ m); cbn [negb].
  - case_decide as Hs.
    + unfold _startup_grace_period. destruct (Qle_bool _ _); [|done].
      by rewrite _set_state_locked_state.
    + case_decide; [done|]. by rewrite _set_state_locked_state.
  - by rewrite _set_state_locked_state.
Qed.

(** X1.  [is_running] and [get_state] agree: on the same observation
    they leave the same fields, and [is_running] answers [False]
    exactly when [get_state] answers [STOPPED] -- whatever the fields
    were before. *)
Theorem is_running_iff_not_stopped (o : obs) (w : world) :
  fst (is_running o w) = fst (get_state o w)
  /\ (snd (is_running o w) = inr false
      <-> snd (get_state o w) = inr STOPPED)
  /\ (snd (is_running o w) = inr true
      <-> snd (get_state o w) = inr STARTING
          \/ snd (get_state o w) = inr RUNNING).
Proof.
  unfold is_running, get_state. cbn [fst snd]. split; [done|].
  rewrite _refresh_state_locked_state.
  destruct (is_alive _ _); [|intuition congruence].
  case_decide; [destruct (Qle_bool _ _)|]; intuition congruence.
Qed.

(** The handle after a refresh: kept with a live child, dropped
    otherwise. *)
Lemma _refresh_state_locked_process (o : obs) (m : SubprocessServerManager) :
  _process (_refresh_state_locked None o m)
  = if is_alive (poll_is_None o) m then _process m else None.
Proof.
  unfold _refresh_state_locked, is_alive.
  destruct (_process m) as [p|] eqn:Hp; [destruct (poll_is_None o)|];
    cbn [negb]; repeat case_decide; try destruct (Qle_bool _ _);
    rewrite ?_set_state_locked_process; try done.
Qed.

(** A refresh that finds the fields as it would leave them changes
    nothing. *)
Lemma _refresh_state_locked_fixed (o : obs) (m : SubprocessServerManager) :
  (if is_alive (poll_is_None o) m then _state m = RUNNING
   else _state m = STOPPED /\ _process m = None) ->
  _refresh_state_locked None o m = m.
Proof.
  unfold _refresh_state_locked, is_alive, _set_state_locked.
  destruct m as [[p|] st since]; cbn [_process _state _state_since];
    [destruct (poll_is_None o)|]; cbn [negb].
  - intros ->. rewrite decide_False by done. by rewrite decide_True.
  - by intros [_ ?].
  - intros [-> _]. by rewrite decide_True.
Qed.

(** X2.  A status query settles the fields: asked again on the same
    observation, [get_state] gives the same answer and changes
    nothing. *)
Theorem get_state_settles (o : obs) (w : world) :
  get_state o (fst (get_state o w)) = get_state o w.
Proof.
  unfold get_state. cbn [fst self os_calls].
  assert (H : _refresh_state_locked None o (_refresh_state_locked None o (self w))
              = _refresh_state_locked None o (self w)); [|by rewrite H].
  set (m := self w).
  pose proof (_refresh_state_locked_state o m) as Hs.
  pose proof (_refresh_state_locked_process o m) as Hp.
  destruct (is_alive (poll_is_None o) m) eqn:Ha.
  - revert Hs. case_decide as Hst; [destruct (Qle_bool _ _) eqn:Hq|]; intros Hs.
    + apply _refresh_state_locked_fixed. unfold is_alive in *.
      rewrite Hp. destruct (_process m); [by rewrite Ha | done].
    + assert (Hm : _refresh_state_locked None o m = m); [|by rewrite !Hm].
      unfold _refresh_state_locked. rewrite Ha. cbn [negb].
      rewrite decide_True by done. unfold _startup_grace_period.
      by rewrite Hq.
    + apply _refresh_state_locked_fixed. unfold is_alive in *.
      rewrite Hp. destruct (_process m); [by rewrite Ha | done].
  - apply _refresh_state_locked_fixed. unfold is_alive. by rewrite Hp.
Qed.

(** A query answered [RUNNING] for a manager already [RUNNING] changes
    nothing. *)
Lemma get_state_running_unchanged (o : obs) (w : world) (process : Popen) :
  _process (self w) = Some process ->
  _state (self w) = RUNNING ->
  poll_is_None o = true ->
  get_state o w = (w, inr RUNNING).
Proof.
  intros Hp Hs Ha. unfold get_state, _refresh_state_locked, is_alive.
  rewrite Hp, Ha. cbn [negb]. rewrite decide_False by congruence.
  rewrite decide_True by done. rewrite Hs. by destruct w.
Qed.

(** X3.  [RUNNING] is latched and [STARTING] is never made up: while
    the child is alive, a manager that is [RUNNING] answers [RUNNING]
    to every query of a run and its fields, transition stamp included,
    stay as they are, whatever the clock reads; and a query answers
    [STARTING] only if the cached state was [STARTING] already, in which
    case it changes nothing. *)
Theorem running_is_latched :
  (forall (observations : list obs) (w : world) (process : Popen),
      _process (self w) = Some process ->
      _state (self w) = RUNNING ->
      Forall (fun o => poll_is_None o = true) observations ->
      poll_states observations w = (fun _ => inr RUNNING) <$> observations
      /\ after_polls observations w = w)
  /\ (forall (o : obs) (w : world),
         snd (get_state o w) = inr STARTING ->
         _state (self w) = STARTING /\ fst (get_state o w) = w).
Proof.
  split.
  - induction observations as [|o rest IH]; intros w process Hp Hs Hall;
      [done|].
    apply Forall_cons in Hall as [Ha Hall].
    cbn [poll_states after_polls fold_left fmap list_fmap].
    rewrite (get_state_running_unchanged o w process Hp Hs Ha). cbn [fst snd].
    destruct (IH w process Hp Hs Hall) as [-> Hw]. by split.
  - intros o w. unfold get_state. cbn [fst snd]. intros [= H].
    rewrite _refresh_state_locked_state in H.
    destruct (is_alive _ _) eqn:Ha; [|done].
    case_decide as Hs; [|done].
    destruct (Qle_bool _ _) eqn:Hq; [done|]. split; [done|].
    unfold is_alive in Ha. destruct (_process (self w)) as [p|] eqn:Hp; [|done].
    by apply (get_state_starting_unchanged o w p).
Qed.

(** X4.  [stop] on a live child.  It returns exactly when the child
    goes away in time, and then the handle is cleared and the state is
    [STOPPED]; in every other case it raises and leaves the fields as
    the closing refresh computes them.  The first call is the graceful
    signal -- [SIGTERM] to the group on POSIX, [CTRL_BREAK_EVENT] to the
    child on Windows -- and a forceful call is made only after that
    signal was delivered and the 60 seconds ran out. *)
Theorem stop_live_child (e : stop_env) (w : world) (process : Popen) :
  _process (self w) = Some process ->
  stop_poll_is_None e = true ->
  let w' := fst (stop e w) in
  let calls := drop (length (os_calls w)) (os_calls w') in
  (snd (stop e w) = inr tt <-> child_goes_away e = true)
  /\ (snd (stop e w) = inr tt ->
      _process (self w') = None /\ _state (self w') = STOPPED)
  /\ (snd (stop e w) <> inr tt ->
      self w' = _refresh_state_locked None (closing e) (self w))
  /\ os_calls w' = os_calls w ++ calls
  /\ head calls
     = Some (if stop_nt e then signal_process (pid process) CTRL_BREAK_EVENT
             else signal_group_of (pid process) SIGTERM)
  /\ (existsb is_forceful calls = true ->
      signal_raises e = false /\ exited_within_60 e = false).
Proof.
  intros Hp Ha. unfold stop, stop_enter, terminate, child_goes_away.
  rewrite Hp, Ha. cbn zeta.
  destruct (stop_nt e), (signal_raises e), (exited_within_60 e);
    cbn [negb andb orb fst snd self os_calls stop_exit];
    try destruct (taskkill_returncode e =? 0);
    try destruct (exited_within_10 e);
    cbn [negb andb orb fst snd self os_calls stop_exit];
    rewrite ?drop_app_length, ?_set_state_locked_state,
      ?_set_state_locked_process;
    cbn; repeat split; try done; intros; congruence.
Qed.

(** X5.  The four ways [start] can end, one for each situation:
    [ResourceNotFoundError] when the script is missing, else
    [ServerAlreadyRunningError] when a live child is held, else the
    exception of [subprocess.Popen] when the spawn fails, else it
    returns.  It changes nothing and spawns nothing in the first two; in
    the last two it makes exactly one spawn call, for the script, in the
    script's directory, in a session of its own on POSIX and wrapped in
    the shell with a process group of its own on Windows. *)
Theorem start_outcomes (e : start_env) (script_path : path) (w : world) :
  let alive := is_alive (start_poll_is_None e) (self w) in
  let spawned :=
    [spawn (start_nt e) script_path (start_nt e) (negb (start_nt e))
       (parent script_path)] in
  snd (start e script_path w)
  = (if negb (script_exists e) then inl ResourceNotFoundError
     else if alive then inl ServerAlreadyRunningError
     else match popen e with
          | Some _ => inr tt
          | None => inl SpawnError
          end)
  /\ (script_exists e = false \/ alive = true -> fst (start e script_path w) = w)
  /\ (script_exists e = true -> alive = false ->
      os_calls (fst (start e script_path w)) = os_calls w ++ spawned
      /\ _process (self (fst (start e script_path w))) = popen e).
Proof.
  unfold start, start_locked. destruct (script_exists e); cbn [negb].
  - destruct (is_alive _ _).
    + cbn. rewrite app_nil_r. destruct w. intuition congruence.
    + destruct (popen e); cbn; rewrite ?_set_state_locked_process; cbn;
        intuition congruence.
  - intuition congruence.
Qed.

(** X6.  A start served between the two critical sections of a
    successful [stop] loses its child: [stop] enters with the old child
    alive, the old child exits, [start] finds it dead and spawns a new
    one, and the closing section of [stop] then clears the handle of the
    new child and sets [STOPPED]. *)
Theorem start_during_stop_is_forgotten (se : stop_env) (e : start_env)
    (script_path : path) (m : SubprocessServerManager) (old new : Popen) :
  _process m = Some old ->
  stop_poll_is_None se = true ->
  start_poll_is_None e = false ->
  popen e = Some new ->
  let m1 := enter (cs_stop_enter se) m in
  let m2 := enter (cs_start e script_path) m1 in
  let m3 := enter (cs_stop_exit se true) m2 in
  snd (stop_enter se m) = inr old
  /\ snd (start_locked e script_path m1) = inr tt
  /\ _process m2 = Some new /\ _state m2 = STARTING
  /\ _process m3 = None /\ _state m3 = STOPPED.
Proof.
  intros Hp Ha Hd Hn. cbn [enter]. unfold stop_enter, start_locked, stop_exit.
  rewrite Hp, Ha. cbn [fst snd]. unfold is_alive. rewrite Hp, Hd, Hn.
  cbn [fst snd].
  rewrite !_set_state_locked_state, !_set_state_locked_process. cbn.
  by rewrite _set_state_locked_state.
Qed.

End ManagerExtras.

(** ** More on the storage service *)

Section StorageExtras.

Import Date Storage.

Implicit Types (fs : FS) (p q : path).

Lemma Path_mkdir_parents_not_creatable p : forall fs,
  creatable fs p = false -> exists e, Path_mkdir_parents true p fs = inl e.
Proof.
  induction p as [|n par IH]; intros fs Hc; [done|].
  revert Hc. cbn [creatable Path_mkdir_parents]. unfold os_mkdir, is_dir.
  rewrite stat_cons. cbn [parent tail].
  destruct (fs !! (n :: par)) as [[c|]|] eqn:L; intros Hc; [eauto|done|].
  destruct (stat fs par) as [[c|]|] eqn:S.
  - cbn. eauto.
  - destruct par; [done|]. cbn [creatable] in Hc. by rewrite S in Hc.
  - destruct (IH fs Hc) as [e He]. rewrite He. eauto.
Qed.

Lemma is_dir_insert_other fs p q v :
  is_dir fs q = true -> fs !! p = None -> is_dir (<[p := v]> fs) q = true.
Proof.
  unfold is_dir. destruct q as [|a q']; [done|]. rewrite !stat_cons.
  intros Hq Hp. rewrite lookup_insert_ne; [done|]. intros ->.
  by rewrite Hp in Hq.
Qed.

Lemma os_mkdir_wf p fs fs' : wf fs -> os_mkdir p fs = inr fs' -> wf fs'.
Proof.
  intros Hwf (Hn & Hpar & ->)%os_mkdir_inr.
  apply stat_None_cons in Hn as Hp. destruct Hp as (n & par & ->).
  rewrite stat_cons in Hn.
  intros q v [[<- <-]|[Hne Hq]]%lookup_insert_Some.
  - split; [done|]. by apply is_dir_insert_other.
  - destruct (Hwf q v Hq) as [? ?]. split; [done|].
    by apply is_dir_insert_other.
Qed.

Lemma Path_mkdir_wf b p fs fs' : wf fs -> Path_mkdir b p fs = inr fs' -> wf fs'.
Proof.
  intros Hwf. unfold Path_mkdir.
  destruct (os_mkdir p fs) as [e|fs1] eqn:E.
  - destruct e; try done; destruct (b && is_dir fs p); try done;
      by intros [= <-].
  - intros [= <-]. by apply (os_mkdir_wf p fs).
Qed.

Lemma Path_mkdir_parents_wf p : forall fs fs',
  wf fs -> Path_mkdir_parents true p fs = inr fs' -> wf fs'.
Proof.
  induction p as [|n par IH]; intros fs fs' Hwf.
  - cbn. unfold os_mkdir. cbn. by intros [= <-].
  - cbn [Path_mkdir_parents].
    destruct (os_mkdir (n :: par) fs) as [e|fs1] eqn:E.
    + destruct e;
        try (destruct (true && is_dir fs (n :: par)); [by intros [= <-]|done]).
      destruct (Path_mkdir_parents true par fs) as [|fs1] eqn:R; [done|].
      intros H. apply (Path_mkdir_wf true (n :: par) fs1); [|done].
      by apply (IH fs).
    + intros [= <-]. by apply (os_mkdir_wf (n :: par) fs).
Qed.

Lemma without_wf (removed : list path) fs fs' :
  wf fs -> (forall q, fs' !! q = without removed fs q) -> wf fs'.
Proof.
  intros Hwf Hfs q v Hq. rewrite Hfs in Hq. unfold without in Hq.
  case_decide as Hex; [done|]. destruct (Hwf q v Hq) as [Hne Hpar].
  split; [done|]. unfold is_dir in *. destruct q as [|a par]; [done|].
  cbn [parent tail] in *. destruct par as [|b par']; [done|].
  rewrite stat_cons in *. rewrite Hfs. unfold without.
  case_decide as Hex'; [|done]. exfalso. apply Hex.
  apply Exists_exists in Hex' as (r & Hr & Hs). apply Exists_exists.
  exists r. split; [done|]. by apply suffix_cons_r.
Qed.

(** X7.  The three ways [prepare_daily_directory] can end.  It raises
    [BackupStorageError] exactly when the backup root cannot be created
    or something that is not a directory sits at the dated path; it
    returns [None] exactly when the dated directory is there; otherwise
    it returns the dated path.  Whatever the outcome, entries other than
    the dated directory and its ancestors stay as they are, and on a
    well-formed filesystem a raise or a [None] changes nothing and the
    filesystem stays well-formed. *)
Theorem prepare_daily_directory_outcomes (base : path) (D : date) (fs : FS) :
  let target := joinpath base (strftime_Ymd D) in
  snd (prepare_daily_directory base D fs)
  = (if negb (creatable fs base) then inl BackupStorageError
     else match stat fs target with
          | Some Dir => inr None
          | Some (File _) => inl BackupStorageError
          | None => inr (Some target)
          end)
  /\ (forall q, ~ q `suffix_of` target ->
                fst (prepare_daily_directory base D fs) !! q = fs !! q)
  /\ (wf fs ->
      wf (fst (prepare_daily_directory base D fs))
      /\ (snd (prepare_daily_directory base D fs) <> inr (Some target) ->
          fst (prepare_daily_directory base D fs) = fs)).
Proof.
  intros target. unfold prepare_daily_directory. fold target.
  destruct (creatable fs base) eqn:Hc; cbn [negb].
  - destruct (Path_mkdir_parents_creatable _ _ Hc) as [fs0 R]. rewrite R.
    pose proof (Path_mkdir_parents_inr _ _ _ R) as [Hbase Hout].
    assert (Hanc : forall q, ~ q `suffix_of` target -> ~ q `suffix_of` base).
    { intros q Hq Hs. apply Hq. by apply suffix_cons_r. }
    assert (St : stat fs0 target = stat fs target).
    { unfold target, joinpath. rewrite !stat_cons. apply Hout.
      apply not_suffix_cons. }
    unfold exists_, is_dir. rewrite St.
    destruct (stat fs target) as [[c|]|] eqn:T; cbn [negb fst snd].
    + split; [done|]. split; [intros q Hq; by apply Hout, Hanc|].
      intros Hwf. split; [by apply (Path_mkdir_parents_wf base fs)|].
      intros _. unfold target, joinpath in T. rewrite stat_cons in T.
      destruct (Hwf _ _ T) as [_ Hb]. cbn [parent tail] in Hb.
      rewrite (Path_mkdir_parents_is_dir _ _ Hb) in R. by injection R as <-.
    + split; [done|]. split; [intros q Hq; by apply Hout, Hanc|].
      intros Hwf. split; [by apply (Path_mkdir_parents_wf base fs)|].
      intros _. unfold target, joinpath in T. rewrite stat_cons in T.
      destruct (Hwf _ _ T) as [_ Hb]. cbn [parent tail] in Hb.
      rewrite (Path_mkdir_parents_is_dir _ _ Hb) in R. by injection R as <-.
    + assert (Hmk : Path_mkdir false target fs0 = inr (<[target := Dir]> fs0)).
      { unfold Path_mkdir, os_mkdir. rewrite St. unfold target at 1, joinpath.
        cbn [parent tail]. by rewrite (is_dir_stat _ _ Hbase). }
      rewrite Hmk. cbn [fst snd]. split; [done|]. split.
      * intros q Hq. rewrite lookup_insert_ne; [by apply Hout, Hanc|].
        intros <-. by apply Hq.
      * intros Hwf. split; [|done].
        apply (Path_mkdir_wf false target fs0); [|done].
        by apply (Path_mkdir_parents_wf base fs).
  - destruct (Path_mkdir_parents_not_creatable _ _ Hc) as [e ->].
    cbn [fst snd]. split; [done|]. split; [done|]. intros Hwf. by split.
Qed.

(** *** The text form of dates *)

Lemma digit_of_char_of_digit (x : Z) :
  digit_of (char_of_digit x) = Some (x mod 10).
Proof.
  unfold digit_of, char_of_digit.
  pose proof (Z.mod_pos_bound x 10 ltac:(lia)) as Hx.
  rewrite nat_ascii_embedding by lia. rewrite Z2Nat.id by lia.
  replace (48 <=? 48 + x mod 10) with true by (symmetry; apply Z.leb_le; lia).
  replace (48 + x mod 10 <=? 57) with true by (symmetry; apply Z.leb_le; lia).
  cbn. f_equal. lia.
Qed.

Lemma parse_m_pad2 (m : Z) (rest : list ascii) :
  1 <= m <= 12 ->
  parse_m (char_of_digit (m / 10) :: char_of_digit m :: rest) = Some (m, rest).
Proof.
  intros Hm.
  assert (m = 1 \/ m = 2 \/ m = 3 \/ m = 4 \/ m = 5 \/ m = 6 \/ m = 7
          \/ m = 8 \/ m = 9 \/ m = 10 \/ m = 11 \/ m = 12) as H by lia.
  repeat (destruct H as [->|H]; [reflexivity|]). by subst.
Qed.

Lemma parse_d_pad2 (d : Z) :
  1 <= d <= 31 ->
  parse_d [char_of_digit (d / 10); char_of_digit d] = Some (d, []).
Proof.
  intros Hd.
  assert (Hn : d = Z.of_nat (Z.to_nat d)) by lia.
  assert (Hb : (1 <= Z.to_nat d <= 31)%nat) by lia.
  rewrite Hn. generalize dependent (Z.to_nat d). intros n _ Hb.
  do 32 (destruct n as [|n]; [first [lia | reflexivity]|]). lia.
Qed.

(** A date printed with [%Y-%m-%d] parses back to itself. *)
Lemma strptime_Ymd_strftime_Ymd (d : date) :
  valid d = true -> strptime_Ymd (strftime_Ymd d) = Some d.
Proof.
  intros Hv. pose proof (valid_ranges d Hv) as (Hyr & Hm & Hd).
  assert (Hd31 : day d <= 31).
  { unfold _days_in_month in Hd.
    assert (month d = 1 \/ month d = 2 \/ month d = 3 \/ month d = 4
            \/ month d = 5 \/ month d = 6 \/ month d = 7 \/ month d = 8
            \/ month d = 9 \/ month d = 10 \/ month d = 11 \/ month d = 12)
      as H by lia.
    destruct (_ && _); [lia|].
    repeat (destruct H as [H|H]; [rewrite H in Hd; cbn in Hd; lia|]).
    rewrite H in Hd; cbn in Hd; lia. }
  unfold strptime_Ymd, strftime_Ymd, pad4, pad2.
  cbv beta iota zeta delta [String.append list_ascii_of_string].
  rewrite !digit_of_char_of_digit.
  change (is_dash "-") with true. cbn iota.
  rewrite parse_m_pad2 by done.
  rewrite parse_d_pad2 by lia.
  replace (1000 * ((year d / 1000) mod 10) + 100 * ((year d / 100) mod 10)
           + 10 * ((year d / 10) mod 10) + year d mod 10)
    with (year d) by (Z.div_mod_to_equations; lia).
  destruct d as [y m dd]. cbn [year month day] in *. by rewrite Hv.
Qed.

(** X8.  The directory name of a day identifies the day.  For the
    years from 1000 on, which every platform prints with four digits: a
    date printed with [%Y-%m-%d] parses back to itself, so two different
    days never share a directory name; and the printed name is not the
    only one that parses to the day, since [strptime] accepts a month
    or day without its leading zero. *)
Theorem strptime_strftime :
  (forall d : date,
      valid d = true -> 1000 <= year d ->
      strptime_Ymd (strftime_Ymd d) = Some d)
  /\ (forall d1 d2 : date,
         valid d1 = true -> 1000 <= year d1 ->
         valid d2 = true -> 1000 <= year d2 ->
         strftime_Ymd d1 = strftime_Ymd d2 -> d1 = d2)
  /\ (exists (s : string) (d : date),
         strptime_Ymd s = Some d /\ s <> strftime_Ymd d).
Proof.
  split; [|split].
  - intros d Hv _. by apply strptime_Ymd_strftime_Ymd.
  - intros d1 d2 Hv1 _ Hv2 _ Heq.
    apply strptime_Ymd_strftime_Ymd in Hv1, Hv2. congruence.
  - exists "2024-1-3"%string, (mkdate 2024 1 3). by split.
Qed.

(** *** Pruning, further *)

Lemma prune_older_than_inr (base : path) (today : date) (retention_days : Z)
    (reference_date : option date) (fs fs1 : FS) (removed : list path) :
  prune_older_than base today retention_days reference_date fs
    = (fs1, inr removed) ->
  exists keep_from,
    sub_days (default today reference_date) (Z.max retention_days 1 - 1)
      = inr keep_from
    /\ (exists_ fs base = false \/ is_dir fs base = true).
Proof.
  unfold prune_older_than. rewrite coerce_retention_days.
  replace (match reference_date with Some d => d | None => today end)
    with (default today reference_date) by by destruct reference_date.
  destruct (sub_days _ _) as [e|keep_from]; [done|].
  intros H. exists keep_from. split; [done|].
  unfold exists_, is_dir, iterdir in *.
  destruct (stat fs base) as [[c|]|]; cbn in *; auto. done.
Qed.

Lemma child_suffix_of_descendant (base r : path) (n : string) (k : path) :
  is_child base r -> r `suffix_of` k ++ joinpath base n -> r = joinpath base n.
Proof.
  intros [Hr Ht] [k' Hk]. destruct r as [|a r']; [done|]. cbn in Ht. subst r'.
  unfold joinpath in *.
  assert (Hl : length k = length k').
  { apply (f_equal length) in Hk. rewrite !length_app in Hk. cbn in Hk. lia. }
  apply app_inj_1 in Hk as [_ Hk]; [|done]. by injection Hk as ->.
Qed.

(** X9.  Pruning twice is pruning once: after a [prune_older_than]
    that returned, the same call returns the empty list and changes
    nothing. *)
Theorem prune_older_than_twice (base : path) (today : date)
    (retention_days : Z) (reference_date : option date) (fs fs1 : FS)
    (removed : list path) :
  prune_older_than base today retention_days reference_date fs
    = (fs1, inr removed) ->
  prune_older_than base today retention_days reference_date fs1
    = (fs1, inr []).
Proof.
  intros Hrun.
  destruct (prune_older_than_inr _ _ _ _ _ _ _ Hrun) as (keep_from & Hsub & Hb).
  destruct (prune_older_than_general base today retention_days reference_date
              fs keep_from Hsub Hb) as (fs1' & removed' & Hrun' & Hno & Hyes).
  rewrite Hrun in Hrun'. injection Hrun' as <- <-.
  destruct Hb as [Hb|Hb]; [by destruct (Hno Hb) as [-> ->]|].
  destruct (Hyes Hb) as (Hiff & _ & Hfs).
  assert (Hb1 : is_dir fs1 base = true).
  { unfold is_dir in *. destruct base as [|b base']; [done|].
    rewrite stat_cons in *. rewrite Hfs. unfold without.
    case_decide as Hex; [|done]. exfalso.
    apply Exists_exists in Hex as (r & Hr & Hs).
    apply Hiff in Hr as [[Hne Ht] _]. apply suffix_length in Hs.
    destruct r; [done|]. cbn in *. subst. cbn in Hs. lia. }
  destruct (prune_older_than_general base today retention_days reference_date
              fs1 keep_from Hsub (or_intror Hb1))
    as (fs2 & removed2 & Hrun2 & _ & Hyes2).
  destruct (Hyes2 Hb1) as (Hiff2 & _ & Hfs2).
  assert (Hnil : removed2 = []).
  { destruct removed2 as [|p rest]; [done|exfalso].
    destruct (proj1 (Hiff2 p) ltac:(left)) as [Hch Hq].
    assert (Hd1 : is_dir fs1 p = true).
    { unfold qualifies in Hq. by apply andb_prop in Hq as [? _]. }
    assert (Hp : fs1 !! p = Some Dir).
    { apply is_dir_stat in Hd1. destruct p; [by destruct Hch|done]. }
    rewrite Hfs in Hp. unfold without in Hp. case_decide as Hex; [done|].
    apply Hex, Exists_exists. exists p. split; [|done].
    apply Hiff. split; [done|]. unfold qualifies in *.
    apply andb_prop in Hq as [_ Hq]. rewrite Hq, andb_true_r.
    unfold is_dir. destruct p; [by destruct Hch|]. by rewrite stat_cons, Hp. }
  subst removed2. rewrite Hrun2. f_equal. apply map_eq. intros q.
  rewrite Hfs2. unfold without. case_decide as Hex; [|done].
  by apply Exists_nil in Hex.
Qed.

(** X10.  A longer retention deletes less: of two prunings of the same
    filesystem from the same reference date, the one with the larger
    [retention_days] deletes only directories that the other deletes
    too, and keeps every entry the other keeps. *)
Theorem prune_older_than_retention_monotone (base : path) (today : date)
    (reference_date : option date) (fs : FS) (shorter longer : Z)
    (fs1 fs2 : FS) (removed1 removed2 : list path) :
  shorter <= longer ->
  prune_older_than base today shorter reference_date fs = (fs1, inr removed1) ->
  prune_older_than base today longer reference_date fs = (fs2, inr removed2) ->
  (forall p, p ∈ removed2 -> p ∈ removed1)
  /\ (forall q v, fs1 !! q = Some v -> fs2 !! q = Some v).
Proof.
  intros Hle Hrun1 Hrun2.
  destruct (prune_older_than_inr _ _ _ _ _ _ _ Hrun1) as (k1 & Hsub1 & Hb).
  destruct (prune_older_than_inr _ _ _ _ _ _ _ Hrun2) as (k2 & Hsub2 & _).
  destruct (prune_older_than_general base today shorter reference_date
              fs k1 Hsub1 Hb) as (? & ? & Hrun1' & Hno1 & Hyes1).
  destruct (prune_older_than_general base today longer reference_date
              fs k2 Hsub2 Hb) as (? & ? & Hrun2' & Hno2 & Hyes2).
  rewrite Hrun1 in Hrun1'. injection Hrun1' as <- <-.
  rewrite Hrun2 in Hrun2'. injection Hrun2' as <- <-.
  destruct Hb as [Hb|Hb].
  { destruct (Hno1 Hb) as [-> ->], (Hno2 Hb) as [-> ->]. by split. }
  destruct (Hyes1 Hb) as (Hiff1 & _ & Hfs1), (Hyes2 Hb) as (Hiff2 & _ & Hfs2).
  destruct (sub_days_inr _ _ _ Hsub1) as [Hv1 Ho1].
  destruct (sub_days_inr _ _ _ Hsub2) as [Hv2 Ho2].
  assert (Hsub : forall p, p ∈ removed2 -> p ∈ removed1).
  { intros p [Hch Hq]%Hiff2. apply Hiff1. split; [done|].
    apply qualifies_iff in Hq as (Hd & d & Hp & Hlt). apply qualifies_iff.
    split; [done|]. exists d. split; [done|].
    pose proof (strptime_Ymd_valid _ _ Hp) as Hvd.
    apply lt_toordinal; [done..|]. apply lt_toordinal in Hlt; [|done..]. lia. }
  split; [done|]. intros q v. rewrite Hfs1, Hfs2. unfold without.
  case_decide as H1; [done|]. case_decide as H2; [|done]. exfalso.
  apply H1. apply Exists_exists in H2 as (r & Hr & Hs).
  apply Exists_exists. exists r. auto.
Qed.

(** X11.  What pruning never touches.  After a [prune_older_than] that
    returned: the backup root and everything that is not inside it are
    as before; so is, with all it contains, the directory of every day
    that is not more than [max retention_days 1 - 1] days before the
    reference date (days of years from 1000 on) -- the reference day
    itself among them; and a well-formed filesystem stays
    well-formed. *)
Theorem prune_older_than_keeps (base : path) (today : date)
    (retention_days : Z) (reference_date : option date) (fs fs1 : FS)
    (removed : list path) :
  prune_older_than base today retention_days reference_date fs
    = (fs1, inr removed) ->
  (forall q, (forall k n, q <> k ++ joinpath base n) -> fs1 !! q = fs !! q)
  /\ (forall (d : date) (k : path),
         valid d = true -> 1000 <= year d ->
         toordinal (default today reference_date) - Z.max retention_days 1
           < toordinal d ->
         fs1 !! (k ++ joinpath base (strftime_Ymd d))
         = fs !! (k ++ joinpath base (strftime_Ymd d)))
  /\ (wf fs -> wf fs1).
Proof.
  intros Hrun.
  destruct (prune_older_than_inr _ _ _ _ _ _ _ Hrun) as (keep_from & Hsub & Hb).
  destruct (prune_older_than_general base today retention_days reference_date
              fs keep_from Hsub Hb) as (? & ? & Hrun' & Hno & Hyes).
  rewrite Hrun in Hrun'. injection Hrun' as <- <-.
  destruct Hb as [Hb|Hb]; [by destruct (Hno Hb) as [_ ->]|].
  destruct (Hyes Hb) as (Hiff & _ & Hfs).
  destruct (sub_days_inr _ _ _ Hsub) as [Hvk Hok].
  split; [|split].
  - intros q Hq. rewrite Hfs. unfold without. case_decide as Hex; [|done].
    exfalso. apply Exists_exists in Hex as (r & Hr & [k ->]).
    apply Hiff in Hr as [[Hne Ht] _]. destruct r as [|n r']; [done|].
    cbn in Ht. subst r'. by apply (Hq k n).
  - intros d k Hvd Hy Hord. rewrite Hfs. unfold without.
    case_decide as Hex; [|done]. exfalso.
    apply Exists_exists in Hex as (r & Hr & Hs).
    pose proof (proj1 (Hiff r) Hr) as [Hch Hq].
    apply child_suffix_of_descendant in Hs as ->; [|done].
    apply qualifies_iff in Hq as (_ & d' & Hp & Hlt).
    cbn [name joinpath] in Hp.
    rewrite strptime_Ymd_strftime_Ymd in Hp by done.
    injection Hp as <-. apply lt_toordinal in Hlt; [|done..]. lia.
  - intros Hwf. by apply (without_wf removed fs).
Qed.

(** The ordinal of a date lies between 1 and [_MAXORDINAL]. *)
Lemma toordinal_bounds (d : date) :
  valid d = true -> 1 <= toordinal d <= _MAXORDINAL.
Proof.
  intros Hv. pose proof (valid_ranges d Hv) as (Hy & _ & _).
  pose proof (toordinal_lower d Hv) as Hlow.
  pose proof (day_of_year_bounds d Hv) as Hdoy.
  pose proof (days_before_year_succ (year d)) as Hsucc.
  pose proof (days_before_year_mono 1 (year d) ltac:(lia)) as H1.
  pose proof (days_before_year_mono (year d + 1) 10000 ltac:(lia)) as H2.
  change (_days_before_year 1) with 0 in H1.
  change (_days_before_year 10000) with 3652059 in H2.
  unfold _MAXORDINAL, toordinal, _ymd2ord in *. lia.
Qed.

(** The loop ends with the list of deleted paths or with the [OSError]
    of a failed [rmtree]. *)
Lemma prune_loop_ends (keep_from : date) (candidates : list path) :
  forall (removed : list path) (fs : FS),
    (exists x, snd (prune_loop keep_from candidates removed fs) = inr x)
    \/ (exists e, snd (prune_loop keep_from candidates removed fs)
                  = inl (OSError e)).
Proof.
  induction candidates as [|c l IH]; intros acc fs0; cbn [prune_loop];
    [left; by eexists|].
  destruct (negb (is_dir fs0 c)); [apply IH|].
  destruct (strptime_Ymd (name c)); [|apply IH].
  destruct (Date.lt _ _); [|apply IH].
  destruct (rmtree c fs0); [right; by eexists | apply IH].
Qed.

(** X12.  When [prune_older_than] overflows.  For a reference date that
    is a date, it raises [OverflowError] exactly when
    [max retention_days 1] exceeds the ordinal of the reference date
    (the window would start before 0001-01-01), and then the filesystem
    is untouched; it never raises [OverflowError] otherwise. *)
Theorem prune_older_than_overflows (base : path) (today : date)
    (retention_days : Z) (reference_date : option date) (fs : FS) :
  valid (default today reference_date) = true ->
  (snd (prune_older_than base today retention_days reference_date fs)
     = inl OverflowError
   <-> toordinal (default today reference_date) < Z.max retention_days 1)
  /\ (snd (prune_older_than base today retention_days reference_date fs)
        = inl OverflowError ->
      fst (prune_older_than base today retention_days reference_date fs) = fs).
Proof.
  intros Hv. pose proof (toordinal_bounds _ Hv) as Hb.
  unfold _MAXORDINAL in Hb.
  unfold prune_older_than. rewrite coerce_retention_days.
  replace (match reference_date with Some d => d | None => today end)
    with (default today reference_date) by by destruct reference_date.
  set (ref := default today reference_date) in *.
  set (n := Z.max retention_days 1 - 1).
  assert (Hn : 0 <= n) by lia.
  unfold sub_days, _MAXORDINAL.
  destruct (Z.ltb_spec n (-999999999)); [lia|].
  destruct (Z.ltb_spec 999999999 n); cbn [orb fst snd].
  { split; [|done]. split; [intros _; subst n; lia|done]. }
  destruct (Z.ltb_spec 0 (toordinal ref - n)); cbn [andb].
  - destruct (Z.leb_spec (toordinal ref - n) 3652059); [|lia].
    assert (Hne : forall r : FS * (exn + list path),
               (exists x, snd r = inr x) \/ (exists e, snd r = inl (OSError e)) ->
               (snd r = inl OverflowError
                <-> toordinal ref < Z.max retention_days 1)
               /\ (snd r = inl OverflowError -> fst r = fs)).
    { intros r [[x Hx]|[e He]]; split; try split; intros;
        try (subst n; lia); congruence. }
    apply Hne. destruct (exists_ fs base); cbn [negb]; [|left; by eexists].
    unfold iterdir. destruct (stat fs base) as [[c|]|]; cbn;
      [right; by eexists| |right; by eexists].
    apply prune_loop_ends.
  - split; [|done]. split; [intros _; subst n; lia|done].
Qed.

End StorageExtras.

(** ** More on the daily backup *)

Section UseCaseExtras.

Import Date UseCases.

Implicit Types (fs : FS) (p q : path).

(** A new entry in an existing directory keeps the filesystem
    well-formed. *)
Lemma insert_wf fs p (v : node) :
  wf fs -> p <> [] -> fs !! p = None -> is_dir fs (parent p) = true ->
  wf (<[p := v]> fs).
Proof.
  intros Hwf Hne Hn Hpar q x [[<- <-]|[Hq Hx]]%lookup_insert_Some.
  - split; [done|]. by apply is_dir_insert_other.
  - destruct (Hwf q x Hx) as [? ?]. split; [done|].
    by apply is_dir_insert_other.
Qed.

(** A successful [mkdir] only adds entries. *)
Lemma os_mkdir_subseteq p fs fs' : os_mkdir p fs = inr fs' -> fs ⊆ fs'.
Proof.
  intros (Hn & _ & ->)%os_mkdir_inr.
  apply stat_None_cons in Hn as Hp. destruct Hp as (n & par & ->).
  by apply insert_subseteq.
Qed.

Lemma Path_mkdir_parents_subseteq p : forall fs fs',
  Path_mkdir_parents true p fs = inr fs' -> fs ⊆ fs'.
Proof.
  induction p as [|n par IH]; intros fs fs'.
  - cbn. unfold os_mkdir. cbn. by intros [= <-].
  - cbn [Path_mkdir_parents].
    destruct (os_mkdir (n :: par) fs) as [e|fs1] eqn:E.
    + destruct e;
        try (destruct (true && is_dir fs (n :: par)); [by intros [= <-]|done]).
      destruct (Path_mkdir_parents true par fs) as [|fs1] eqn:R; [done|].
      unfold Path_mkdir.
      destruct (os_mkdir (n :: par) fs1) as [e|fs2] eqn:E2.
      * destruct e; try done;
          (destruct (true && is_dir fs1 (n :: par)); [|done]);
          intros [= <-]; by apply (IH fs).
      * intros [= <-]. etrans; [by apply (IH fs)|].
        by apply (os_mkdir_subseteq (n :: par)).
    + intros [= <-]. by apply (os_mkdir_subseteq (n :: par)).
Qed.

Lemma is_dir_subseteq fs fs' p :
  fs ⊆ fs' -> is_dir fs p = true -> is_dir fs' p = true.
Proof.
  intros Hsub. unfold is_dir. destruct p as [|n par]; [done|].
  rewrite !stat_cons. destruct (fs !! (n :: par)) as [[c|]|] eqn:L; try done.
  by rewrite (lookup_weaken _ _ _ _ L Hsub).
Qed.

(** What a [prepare_daily_directory] that returns a path has done. *)
Lemma prepare_daily_directory_fresh (base : path) (D : date) fs fs1
    (dir : path) :
  Storage.prepare_daily_directory base D fs = (fs1, inr (Some dir)) ->
  dir = joinpath base (strftime_Ymd D)
  /\ is_dir fs1 base = true
  /\ is_dir fs1 dir = true
  /\ (forall q, ~ q `suffix_of` dir -> fs1 !! q = fs !! q)
  /\ fs ⊆ fs1
  /\ (wf fs -> wf fs1).
Proof.
  intros P. pose proof (prepare_daily_directory_returns _ _ _ _ _ P) as ->.
  split; [done|]. revert P. unfold Storage.prepare_daily_directory.
  destruct (Path_mkdir_parents true base fs) as [e|fs0] eqn:R; [done|].
  pose proof (Path_mkdir_parents_inr _ _ _ R) as [Hbase Hout].
  destruct (exists_ fs0 _); [by destruct (negb _)|].
  destruct (Path_mkdir false _ fs0) as [e|fs2] eqn:K; [done|].
  intros [= <-]. unfold Path_mkdir in K.
  destruct (os_mkdir _ fs0) as [e|fs3] eqn:E; [by destruct e|].
  injection K as ->. pose proof E as (Hn & _ & ->)%os_mkdir_inr.
  unfold joinpath in *. rewrite stat_cons in Hn.
  split; [by apply is_dir_insert_other|].
  split; [by apply is_dir_insert_Dir|]. split; [|split].
  - intros q Hq. rewrite lookup_insert_ne by (intros <-; by apply Hq).
    apply Hout. intros Hs. apply Hq. by apply suffix_cons_r.
  - etrans; [by apply (Path_mkdir_parents_subseteq base)|].
    by apply insert_subseteq.
  - intros Hwf. apply (os_mkdir_wf (strftime_Ymd D :: base) fs0); [|done].
    by apply (Path_mkdir_parents_wf base fs).
Qed.

(** When the backup root can be created and nothing sits at the dated
    path, [prepare_daily_directory] returns the dated path. *)
Lemma prepare_daily_directory_creates (base : path) (D : date) fs :
  creatable fs base = true ->
  exists_ fs (joinpath base (strftime_Ymd D)) = false ->
  exists fs1,
    Storage.prepare_daily_directory base D fs
    = (fs1, inr (Some (joinpath base (strftime_Ymd D)))).
Proof.
  intros Hc Ha. unfold Storage.prepare_daily_directory.
  destruct (Path_mkdir_parents_creatable _ _ Hc) as [fs0 R]. rewrite R.
  pose proof (Path_mkdir_parents_inr _ _ _ R) as [Hbase Hout].
  assert (St : stat fs0 (joinpath base (strftime_Ymd D)) = None).
  { unfold exists_, joinpath in *. rewrite stat_cons in *.
    rewrite Hout by apply not_suffix_cons.
    by destruct (fs !! (strftime_Ymd D :: base)). }
  unfold exists_, Path_mkdir, os_mkdir. rewrite St.
  unfold joinpath at 1. cbn [parent tail].
  rewrite (is_dir_stat _ _ Hbase). eauto.
Qed.

(** [store_archive] on the file that [create_zip] has just written at a
    fresh place. *)
Lemma store_archive_fresh_file fs (tmp dir : path) (zipped filename : string) :
  fs !! tmp = None -> tmp <> [] -> is_dir fs dir = true ->
  Storage.store_archive tmp dir filename (<[tmp := File zipped]> fs)
  = if exists_ (<[tmp := File zipped]> fs) (joinpath dir filename)
    then (<[tmp := File zipped]> fs, inl BackupStorageError)
    else (<[joinpath dir filename := File zipped]> fs,
          inr (joinpath dir filename)).
Proof.
  intros Hn Hne Hd. unfold Storage.store_archive.
  assert (Ht : stat (<[tmp := File zipped]> fs) tmp = Some (File zipped)).
  { destruct tmp; [done|]. by rewrite stat_cons, lookup_insert_eq. }
  unfold exists_ at 1. rewrite Ht. cbn [negb].
  rewrite (is_dir_exists _ _ (is_dir_insert_other _ _ _ _ Hd Hn)).
  rewrite (is_dir_insert_other _ _ _ _ Hd Hn). cbn [negb orb].
  destruct (exists_ _ (joinpath dir filename)); [done|].
  unfold shutil_move. rewrite Ht.
  change (parent (joinpath dir filename)) with dir.
  rewrite (is_dir_stat _ _ (is_dir_insert_other _ _ _ _ Hd Hn)).
  by rewrite delete_insert_id.
Qed.

(** [mkstemp] returns exactly when the name is free and the temporary
    directory is there. *)
Lemma mkstemp_inr (tmp : path) fs fs' :
  mkstemp tmp fs = inr fs' ->
  fs !! tmp = None /\ tmp <> [] /\ is_dir fs (parent tmp) = true
  /\ fs' = <[tmp := File ""]> fs.
Proof.
  unfold mkstemp, is_dir. destruct tmp as [|n par]; [done|].
  rewrite stat_cons. destruct (fs !! (n :: par)); [done|].
  destruct (stat fs (parent (n :: par))) as [[c|]|]; [done| |done].
  by intros [= <-].
Qed.

(** What a [create_zip] that returns has done. *)
Lemma create_zip_inr (tmp : path) (written : zip_result) (source : path)
    fs fs' (archive_path : path) :
  @create_zip (ZipArchiveService_with tmp written) source fs
    = (fs', inr archive_path) ->
  archive_path = tmp /\ fs !! tmp = None /\ tmp <> []
  /\ is_dir fs (parent tmp) = true /\ is_dir fs source = true
  /\ exists zipped, written = zip_written zipped
                    /\ fs' = <[tmp := File zipped]> fs.
Proof.
  cbn [create_zip ZipArchiveService_with].
  destruct (negb (exists_ fs source)); [done|].
  destruct (is_dir fs source) eqn:Hs; cbn [negb]; [|done].
  destruct (mkstemp tmp fs) as [e|fs1] eqn:Hm; [done|].
  apply mkstemp_inr in Hm as (Hn & Hne & Hp & ->).
  destruct written as [zipped|e|partial]; [|done..]. intros [= <- <-].
  repeat (split; [done|]). exists zipped. split; [done|].
  apply insert_insert_eq.
Qed.

(** What a [create_zip] that raises leaves: the filesystem as it was,
    or with what was written so far at the name, free before, that
    [mkstemp] picked in the temporary directory. *)
Lemma create_zip_inl (tmp : path) (written : zip_result) (source : path)
    fs fs' (err : exn) :
  @create_zip (ZipArchiveService_with tmp written) source fs
    = (fs', inl err) ->
  fs' = fs
  \/ (fs !! tmp = None /\ tmp <> [] /\ is_dir fs (parent tmp) = true
      /\ exists partial, fs' = <[tmp := File partial]> fs).
Proof.
  cbn [create_zip ZipArchiveService_with].
  destruct (negb (exists_ fs source)); [intros [= <- _]; by left|].
  destruct (negb (is_dir fs source)); [intros [= <- _]; by left|].
  destruct (mkstemp tmp fs) as [e|fs1] eqn:Hm; [intros [= <- _]; by left|].
  apply mkstemp_inr in Hm as (Hn & Hne & Hp & ->).
  destruct written as [zipped|e|partial]; [done| |]; intros [= <- _].
  - left. by apply delete_insert_id.
  - right. repeat (split; [done|]). exists partial. apply insert_insert_eq.
Qed.

(** A pruning from the reference date [today] keeps the backup root, the
    directory of [today] with all it contains, and every absence. *)
Lemma prune_older_than_keeps_today (base : path) (today now : date)
    (retention_days : Z) fs fs' (removed : list path) :
  valid today = true ->
  Storage.prune_older_than base now retention_days (Some today) fs
    = (fs', inr removed) ->
  (is_dir fs base = true -> is_dir fs' base = true)
  /\ (forall k, fs' !! (k ++ joinpath base (strftime_Ymd today))
                = fs !! (k ++ joinpath base (strftime_Ymd today)))
  /\ (forall q, fs !! q = None -> fs' !! q = None)
  /\ (forall q, (forall k n, q <> k ++ joinpath base n) -> fs' !! q = fs !! q)
  /\ (wf fs -> wf fs').
Proof.
  intros Hv Hrun.
  destruct (prune_older_than_inr _ _ _ _ _ _ _ Hrun) as (keep_from & Hsub & Hb).
  destruct (prune_older_than_general base now retention_days (Some today)
              fs keep_from Hsub Hb) as (? & ? & Hrun' & Hno & Hyes).
  rewrite Hrun in Hrun'. injection Hrun' as <- <-.
  destruct Hb as [Hb|Hb].
  { destruct (Hno Hb) as [_ ->]. split; [done|]. split; [done|].
    split; [done|]. by split. }
  destruct (Hyes Hb) as (Hiff & _ & Hfs).
  destruct (sub_days_inr _ _ _ Hsub) as [Hvk Hok].
  change (default now (Some today)) with today in Hok.
  split; [|split; [|split; [|split]]].
  - intros _. unfold is_dir in *. destruct base as [|b base']; [done|].
    rewrite stat_cons in *. rewrite Hfs. unfold without.
    case_decide as Hex; [|done]. exfalso.
    apply Exists_exists in Hex as (r & Hr & Hs).
    apply Hiff in Hr as [[Hne Ht] _]. apply suffix_length in Hs.
    destruct r; [done|]. cbn in *. subst. cbn in Hs. lia.
  - intros k. rewrite Hfs. unfold without.
    case_decide as Hex; [|done]. exfalso.
    apply Exists_exists in Hex as (r & Hr & Hs).
    pose proof (proj1 (Hiff r) Hr) as [Hch Hq].
    apply child_suffix_of_descendant in Hs as ->; [|done].
    apply qualifies_iff in Hq as (_ & d' & Hp & Hlt).
    cbn [name joinpath] in Hp.
    rewrite strptime_Ymd_strftime_Ymd in Hp by done.
    injection Hp as <-. apply lt_toordinal in Hlt; [|done..]. lia.
  - intros q Hq. rewrite Hfs. unfold without. by case_decide.
  - intros q Hq. rewrite Hfs. unfold without. case_decide as Hex; [|done].
    exfalso. apply Exists_exists in Hex as (r & Hr & [k ->]).
    apply Hiff in Hr as [[Hne Ht] _]. destruct r as [|n r']; [done|].
    cbn in Ht. subst r'. by apply (Hq k n).
  - intros Hwf. by apply (without_wf removed fs).
Qed.

(** What a run of [execute] that returns [True] has done. *)
Lemma execute_True_inv (base server_root tmp : path) (written : zip_result)
    (filename : string) (retention_days : Z) (today : date)
    (w w' : world) :
  let target := joinpath base (strftime_Ymd today) in
  valid today = true ->
  @execute (ZipArchiveService_with tmp written)
     (DailyBackupStorageService base today)
     server_root retention_days filename today w = (w', inr true) ->
  is_dir (fs w') base = true
  /\ is_dir (fs w') target = true
  /\ (exists zipped, written = zip_written zipped
                     /\ fs w' !! joinpath target filename
                        = Some (File zipped))
  /\ fs w' !! tmp = None
  /\ (forall q, ~ q `suffix_of` base ->
                (forall k n, q <> k ++ joinpath base n) ->
                fs w' !! q = fs w !! q)
  /\ (wf (fs w) -> wf (fs w')).
Proof.
  intros target Hv. unfold execute, bind, invoke, ret.
  cbn [prepare_daily_directory store_archive prune_older_than
       DailyBackupStorageService fs journal].
  destruct (Storage.prepare_daily_directory base today (fs w))
    as [fs1 [err|[dir|]]] eqn:P; cbn [fs journal fst] in *; [done| |done].
  apply prepare_daily_directory_fresh in P
    as (-> & Hbase & Hdir & Hout1 & Hsub1 & Hwf1). fold target in Hdir.
  destruct (create_zip server_root fs1) as [fs2 [err|a]] eqn:Z; [done|].
  apply create_zip_inr in Z as (-> & Hn & Hne & _ & _ & zipped & -> & ->).
  cbn [fs journal].
  rewrite (store_archive_fresh_file _ _ _ _ _ Hn Hne Hdir).
  destruct (exists_ _ (joinpath target filename)) eqn:Hd; [done|].
  cbn [fs journal].
  assert (Hdst : fs1 !! joinpath target filename = None
                 /\ tmp <> joinpath target filename).
  { unfold exists_, joinpath in Hd |- *. rewrite stat_cons in Hd. split.
    - destruct (decide (tmp = filename :: target)) as [->|Hneq].
      + by rewrite lookup_insert_eq in Hd.
      + rewrite lookup_insert_ne in Hd by done.
        by destruct (fs1 !! (filename :: target)).
    - intros ->. by rewrite lookup_insert_eq in Hd. }
  destruct Hdst as [Hdst Htd].
  set (fs3 := <[joinpath target filename := File zipped]> fs1).
  destruct (Storage.prune_older_than base today retention_days (Some today)
              fs3) as [fs4 [err|removed]] eqn:R; [done|].
  intros [= <-]. cbn [fs].
  apply prune_older_than_keeps_today in R
    as (Hb4 & Hk4 & Hnone & Hout4 & Hwf4); [|done].
  assert (Hdir3 : is_dir fs3 target = true)
    by by apply is_dir_insert_other.
  split; [apply Hb4; by apply is_dir_insert_other|].
  split; [|split; [|split; [|split]]].
  - pose proof (Hk4 []) as Ht. cbn [app] in Ht. fold target in Ht.
    unfold is_dir, target, joinpath in *. rewrite stat_cons in *.
    by rewrite Ht.
  - exists zipped. split; [done|].
    pose proof (Hk4 [filename]) as Ht. cbn [app] in Ht. fold target in Ht.
    unfold joinpath at 1. rewrite Ht. apply lookup_insert_eq.
  - apply Hnone. unfold fs3. by rewrite lookup_insert_ne.
  - intros q Hq1 Hq2. rewrite (Hout4 q Hq2). unfold fs3.
    rewrite lookup_insert_ne
      by (intros E; apply (Hq2 [filename] (strftime_Ymd today));
          by rewrite <- E).
    apply Hout1. intros Hs. unfold joinpath in Hs.
    destruct q as [|a q']; [apply Hq1, suffix_nil|].
    apply suffix_cons_inv in Hs as [E|Hs].
    + by apply (Hq2 [] (strftime_Ymd today)).
    + by apply Hq1.
  - intros Hwf. apply Hwf4, insert_wf; [by apply Hwf1|done..].
Qed.

(** Going back fewer days than the ordinal of a date gives a date. *)
Lemma sub_days_returns (d : date) (n : Z) :
  valid d = true -> 0 <= n < toordinal d -> exists k, sub_days d n = inr k.
Proof.
  intros Hv Hn. pose proof (toordinal_bounds _ Hv) as Hb.
  unfold _MAXORDINAL in Hb. unfold sub_days, _MAXORDINAL.
  destruct (Z.ltb_spec n (-999999999)); [lia|].
  destruct (Z.ltb_spec 999999999 n); [lia|]. cbn [orb].
  destruct (Z.ltb_spec 0 (toordinal d - n)); [|lia].
  destruct (Z.leb_spec (toordinal d - n) 3652059); [|lia]. cbn. eauto.
Qed.

(** X13.  The first backup of a day.  On a well-formed filesystem
    where the backup root can be created, nothing sits yet at the path
    dated today, the server root is a directory, the temporary directory
    is there and [mkstemp] picks a free name in it, when the writing of
    the archive succeeds, [execute] returns [True]: for a [filename]
    that is one path component, a day of the years from 1000 on, and a
    retention that does not reach before 0001-01-01.  Afterwards the
    archive written by [create_zip] is the file [filename] in the
    directory dated today, the temporary file is gone, nothing has
    changed outside the backup root and the ancestors it had to create,
    and the filesystem is still well-formed. *)
Theorem ensure_daily_backup_first_run (base server_root tmp : path)
    (written : zip_result) (zipped filename : string) (retention_days : Z)
    (today : date) (w : world) :
  let target := joinpath base (strftime_Ymd today) in
  valid today = true -> 1000 <= year today ->
  Z.max retention_days 1 <= toordinal today ->
  is_component filename = true ->
  written = zip_written zipped ->
  wf (fs w) ->
  creatable (fs w) base = true ->
  exists_ (fs w) target = false ->
  is_dir (fs w) server_root = true ->
  is_dir (fs w) (parent tmp) = true ->
  exists_ (fst (Storage.prepare_daily_directory base today (fs w))) tmp
    = false ->
  exists w',
    @execute (ZipArchiveService_with tmp written)
      (DailyBackupStorageService base today)
      server_root retention_days filename today w = (w', inr true)
    /\ fs w' !! joinpath target filename = Some (File zipped)
    /\ fs w' !! tmp = None
    /\ (forall q, ~ q `suffix_of` base ->
                  (forall k n, q <> k ++ joinpath base n) ->
                  fs w' !! q = fs w !! q)
    /\ wf (fs w').
Proof.
  intros target Hv _ Hrd _ -> Hwf Hc Ha Hroot Htmpdir Hfresh.
  assert (Hrun : exists w',
             @execute (ZipArchiveService_with tmp (zip_written zipped))
               (DailyBackupStorageService base today)
               server_root retention_days filename today w = (w', inr true)).
  { revert Hfresh. unfold execute, bind, invoke, ret.
    cbn [prepare_daily_directory store_archive prune_older_than create_zip
         DailyBackupStorageService ZipArchiveService_with fs journal].
    destruct (prepare_daily_directory_creates base today (fs w) Hc Ha)
      as [fs1 P]. rewrite P. cbn [fs journal fst]. intros Hfresh.
    apply prepare_daily_directory_fresh in P
      as (_ & Hbase & Hdir & Hout1 & Hsub1 & Hwf1). fold target in Hdir, Hout1.
    pose proof (is_dir_subseteq _ _ _ Hsub1 Hroot) as Hroot1.
    rewrite (is_dir_exists _ _ Hroot1), Hroot1. cbn [negb fs journal].
    assert (Hne : tmp <> []) by (by intros ->).
    assert (Hn : fs1 !! tmp = None).
    { unfold exists_ in Hfresh. destruct tmp; [done|].
      rewrite stat_cons in Hfresh. by destruct (fs1 !! _). }
    assert (Hm : mkstemp tmp fs1 = inr (<[tmp := File ""]> fs1)).
    { unfold mkstemp. destruct tmp as [|n par]; [done|].
      rewrite stat_cons, Hn.
      by rewrite (is_dir_stat _ _ (is_dir_subseteq _ _ _ Hsub1 Htmpdir)). }
    rewrite Hm, insert_insert_eq. cbn [fs journal].
    rewrite (store_archive_fresh_file _ _ _ _ _ Hn Hne Hdir).
    assert (Hta : fs w !! target = None).
    { unfold exists_, target, joinpath in *. rewrite stat_cons in Ha.
      by destruct (fs w !! _). }
    assert (Htd : tmp <> joinpath target filename).
    { intros ->. cbn [joinpath parent tail] in Htmpdir.
      apply is_dir_stat in Htmpdir. unfold target, joinpath in *.
      rewrite stat_cons in Htmpdir. congruence. }
    assert (Hdst : fs1 !! joinpath target filename = None).
    { unfold joinpath at 1. rewrite Hout1 by apply not_suffix_cons.
      destruct (fs w !! (filename :: target)) as [v|] eqn:L; [|done].
      destruct (Hwf _ _ L) as [_ Hp]. cbn [parent tail] in Hp.
      apply is_dir_stat in Hp. unfold target, joinpath in *.
      rewrite stat_cons in Hp. congruence. }
    assert (Hd : exists_ (<[tmp := File zipped]> fs1)
                   (joinpath target filename) = false).
    { unfold exists_. unfold joinpath in *. rewrite stat_cons.
      rewrite lookup_insert_ne by done. by rewrite Hdst. }
    rewrite Hd. cbn [fs journal].
    destruct (sub_days_returns today (Z.max retention_days 1 - 1) Hv
                ltac:(lia)) as [keep_from Hsub].
    destruct (prune_older_than_general base today retention_days (Some today)
                (<[joinpath target filename := File zipped]> fs1) keep_from
                Hsub) as (fs4 & removed & -> & _).
    { right. by apply is_dir_insert_other. }
    eauto. }
  destruct Hrun as [w' Hrun]. exists w'. split; [done|].
  destruct (execute_True_inv _ _ _ _ _ _ _ _ _ Hv Hrun)
    as (_ & _ & (z & [= <-] & Hdst) & Htmp & Hout & Hwf'). auto.
Qed.

(** X14.  One backup a day.  After an [execute] that returned [True]
    (the archive written by [ZipArchiveService] at a name that was free
    when [mkstemp] picked it; a day of the years from 1000 on), another
    [execute] on the same day -- whatever its archive service, server
    root, retention and file name -- returns [False], calls
    [prepare_daily_directory] and nothing else, and leaves the
    filesystem, the stored archive included, as it is. *)
Theorem ensure_daily_backup_once_a_day (A2 : ArchiveService)
    (base server_root tmp : path) (zipped filename : string)
    (retention_days : Z) (today : date)
    (server_root2 : path) (retention_days2 : Z) (filename2 : string)
    (w w1 : world) :
  valid today = true -> 1000 <= year today ->
  exists_ (fst (Storage.prepare_daily_directory base today (fs w))) tmp
    = false ->
  @execute (ZipArchiveService tmp zipped)
    (DailyBackupStorageService base today)
    server_root retention_days filename today w = (w1, inr true) ->
  @execute A2 (DailyBackupStorageService base today)
    server_root2 retention_days2 filename2 today w1
  = ({| fs := fs w1;
        journal := journal w1 ++ [call_prepare_daily_directory today] |},
     inr false)
  /\ fs w1 !! joinpath (joinpath base (strftime_Ymd today)) filename
     = Some (File zipped).
Proof.
  intros Hv _ _ Hrun. unfold ZipArchiveService in Hrun.
  destruct (execute_True_inv _ _ _ _ _ _ _ _ _ Hv Hrun)
    as (Hbase & Hdir & (z & [= <-] & Hdst) & _). split; [|done].
  unfold execute, bind, invoke, ret.
  cbn [prepare_daily_directory DailyBackupStorageService fs journal].
  unfold Storage.prepare_daily_directory.
  by rewrite (Path_mkdir_parents_is_dir _ _ Hbase), (is_dir_exists _ _ Hdir),
    Hdir.
Qed.

(** A pruning that finds the backup root in place fails only by
    [OverflowError], and then before touching anything. *)
Lemma prune_older_than_inl (base : path) (now : date) (retention_days : Z)
    (reference_date : option date) fs fs' (err : exn) :
  is_dir fs base = true ->
  Storage.prune_older_than base now retention_days reference_date fs
    = (fs', inl err) ->
  err = OverflowError /\ fs' = fs.
Proof.
  intros Hb Hrun.
  destruct (sub_days (default now reference_date)
              (Z.max retention_days 1 - 1)) as [e|keep_from] eqn:Hsub.
  - revert Hrun. unfold Storage.prune_older_than.
    rewrite coerce_retention_days.
    replace (match reference_date with Some d => d | None => now end)
      with (default now reference_date) by by destruct reference_date.
    rewrite Hsub. intros [= <- <-]. split; [|done]. revert Hsub.
    unfold sub_days. destruct (_ || _); [by intros [= <-]|].
    destruct (_ && _); [done|]. by intros [= <-].
  - destruct (prune_older_than_general base now retention_days reference_date
                fs keep_from Hsub (or_intror Hb)) as (? & ? & Hrun' & _).
    congruence.
Qed.

(** X15.  A backup that fails is not retried that day.  When
    [prepare_daily_directory] has made the directory dated today and a
    later step of [execute] raises -- [create_zip] in whichever way,
    [store_archive] or [prune_older_than] -- the dated directory stays
    behind: another [execute] on the same day calls
    [prepare_daily_directory] only, changes nothing and returns
    [False].  When it is [create_zip] that raised, on a well-formed
    filesystem and with a temporary directory other than the dated
    directory, that directory is empty. *)
Theorem ensure_daily_backup_failure_is_not_retried (A2 : ArchiveService)
    (base server_root tmp : path) (written : zip_result) (filename : string)
    (retention_days : Z) (today : date)
    (server_root2 : path) (retention_days2 : Z) (filename2 : string)
    (w w1 : world) (err : exn) :
  let target := joinpath base (strftime_Ymd today) in
  snd (Storage.prepare_daily_directory base today (fs w))
    = inr (Some target) ->
  @execute (ZipArchiveService_with tmp written)
    (DailyBackupStorageService base today)
    server_root retention_days filename today w = (w1, inl err) ->
  @execute A2 (DailyBackupStorageService base today)
    server_root2 retention_days2 filename2 today w1
  = ({| fs := fs w1;
        journal := journal w1 ++ [call_prepare_daily_directory today] |},
     inr false)
  /\ (wf (fs w) -> parent tmp <> target ->
      journal w1
      = journal w ++ [call_prepare_daily_directory today;
                      call_create_zip server_root] ->
      forall k, k <> [] -> fs w1 !! (k ++ target) = None).
Proof.
  intros target Hp Hrun.
  assert (Hskip : forall u : world,
             is_dir (fs u) base = true -> is_dir (fs u) target = true ->
             @execute A2 (DailyBackupStorageService base today)
               server_root2 retention_days2 filename2 today u
             = ({| fs := fs u;
                   journal := journal u
                              ++ [call_prepare_daily_directory today] |},
                inr false)).
  { intros u Hb Hd. unfold execute, bind, invoke, ret.
    cbn [prepare_daily_directory DailyBackupStorageService fs journal].
    unfold Storage.prepare_daily_directory. fold target.
    by rewrite (Path_mkdir_parents_is_dir _ _ Hb), (is_dir_exists _ _ Hd),
      Hd. }
  set (again := @execute A2 (DailyBackupStorageService base today)
                  server_root2 retention_days2 filename2 today) in *.
  revert Hrun. unfold execute, bind, invoke, ret.
  cbn [prepare_daily_directory store_archive prune_older_than
       DailyBackupStorageService fs journal].
  destruct (Storage.prepare_daily_directory base today (fs w))
    as [fs1 r] eqn:P. cbn [fst snd] in Hp. subst r.
  cbn [fs journal].
  pose proof (prepare_daily_directory_fresh _ _ _ _ _ P)
    as (_ & Hbase & Hdir & Hout1 & Hsub1 & Hwf1).
  fold target in Hdir, Hout1.
  assert (Hempty : wf (fs w) -> forall k, k <> [] ->
                   fs1 !! (k ++ target) = None).
  { intros Hwf k Hk. rewrite Hout1.
    - destruct (fs w !! (k ++ target)) as [v|] eqn:L; [|done].
      assert (Ht : is_Some (fs w !! target))
        by (apply (wf_ancestor (fs w) target Hwf ltac:(done) k); eauto).
      revert P. unfold Storage.prepare_daily_directory. fold target.
      destruct (Path_mkdir_parents true base (fs w)) as [e|fs0] eqn:R; [done|].
      pose proof (Path_mkdir_parents_inr _ _ _ R) as [_ Hout0].
      unfold exists_. unfold target at 1, joinpath at 1. rewrite stat_cons.
      rewrite Hout0 by apply not_suffix_cons.
      fold (joinpath base (strftime_Ymd today)). fold target.
      destruct Ht as [x ->]. by destruct (negb _).
    - intros Hs%suffix_length. rewrite length_app in Hs.
      destruct k; [done|]. cbn in Hs. lia. }
  destruct (create_zip server_root fs1) as [fs2 [e|a]] eqn:Z;
    cbn [fs journal].
  { intros [= <- <-]. cbn [fs journal]. apply create_zip_inl in Z. split.
    - apply Hskip; cbn [fs].
      + destruct Z as [->|(Hn & _ & _ & partial & ->)]; [done|].
        by apply is_dir_insert_other.
      + destruct Z as [->|(Hn & _ & _ & partial & ->)]; [done|].
        by apply is_dir_insert_other.
    - intros Hwf Htmp _ k Hk.
      destruct Z as [->|(Hn & Hne & Hpar & partial & ->)];
        [by apply Hempty|].
      rewrite lookup_insert_ne; [by apply Hempty|]. intros ->.
      apply Htmp. destruct k as [|a [|b k']]; [done|done|].
      exfalso.
      assert (Hb : fs1 !! ((b :: k') ++ target) = None)
        by by apply Hempty.
      apply is_dir_stat in Hpar. cbn [app parent tail] in Hpar, Hb.
      rewrite stat_cons in Hpar. congruence. }
  apply create_zip_inr in Z as (-> & Hn & Hne & _ & _ & zipped & -> & ->).
  rewrite (store_archive_fresh_file _ _ _ _ _ Hn Hne Hdir).
  destruct (exists_ _ (joinpath target filename)) eqn:Hd.
  { intros [= <- <-]. cbn [fs journal]. split.
    - apply Hskip; cbn [fs]; by apply is_dir_insert_other.
    - intros _ _ Hj. exfalso. rewrite <- !app_assoc in Hj.
      apply app_inv_head in Hj. discriminate Hj. }
  cbn [fs journal].
  assert (Hdst : fs1 !! joinpath target filename = None).
  { unfold exists_, joinpath in Hd |- *. rewrite stat_cons in Hd.
    destruct (decide (tmp = filename :: target)) as [->|Hneq].
    - by rewrite lookup_insert_eq in Hd.
    - rewrite lookup_insert_ne in Hd by done.
      by destruct (fs1 !! (filename :: target)). }
  destruct (Storage.prune_older_than base today retention_days (Some today)
              (<[joinpath target filename := File zipped]> fs1))
    as [fs4 [e|removed]] eqn:R; [|done].
  apply prune_older_than_inl in R as [-> ->];
    [|by apply is_dir_insert_other].
  intros [= <- <-]. cbn [fs journal]. split.
  - apply Hskip; cbn [fs]; by apply is_dir_insert_other.
  - intros _ _ Hj. exfalso. rewrite <- !app_assoc in Hj.
    apply app_inv_head in Hj. discriminate Hj.
Qed.

End UseCaseExtras.

(** ** The configuration *)

Section ConfigExtras.

Import Config.

(** X16.  The guard of [Settings.__init__].  Construction raises
    [ConfigurationError] exactly when the backup root is the server root
    or lies inside it; with no backup root configured that is: exactly
    when the server root is the filesystem root or is itself named
    [backups].  An instance that is built has a backup root that is
    neither the server root nor inside it, and a retention of at least
    one day; with the default backup root, moreover, no path lies inside
    both the server root and the backup root, so neither tree contains
    the other. *)
Theorem settings_backup_root_guard (script server_root : path)
    (backup_root : option path) (retention_days : Z) :
  (Settings__init__ script server_root backup_root retention_days
     = inl mkConfigurationError
   <-> match backup_root with
       | Some b => server_root `suffix_of` b
       | None => server_root = [] \/ name server_root = "backups"%string
       end)
  /\ (forall s,
         Settings__init__ script server_root backup_root retention_days
           = inr s ->
         minecraft_start_script s = script
         /\ minecraft_server_root s = server_root
         /\ minecraft_backup_root s
            = default (joinpath (parent server_root) "backups") backup_root
         /\ ~ server_root `suffix_of` minecraft_backup_root s
         /\ 1 <= backup_retention_days s
         /\ (retention_days <= 1 -> backup_retention_days s = 1)
         /\ (1 <= retention_days -> backup_retention_days s = retention_days)
         /\ (backup_root = None ->
             forall q, server_root `suffix_of` q ->
                       ~ minecraft_backup_root s `suffix_of` q)).
Proof.
  unfold Settings__init__, _is_subpath, _validate_retention_days. split.
  - case_bool_decide as H.
    + split; [intros _|done]. destruct backup_root as [b|]; [done|].
      destruct server_root as [|n p]; [by left|right].
      cbn [parent tail joinpath name] in *.
      apply suffix_cons_inv in H as [[= ->]|H]; [done|].
      by apply not_suffix_cons in H.
    + split; [done|]. intros H'. exfalso. apply H.
      destruct backup_root as [b|]; [done|]. destruct H' as [->|H'].
      * apply suffix_nil.
      * destruct server_root as [|n p]; [apply suffix_nil|].
        cbn [parent tail joinpath name] in *. by subst n.
  - intros s. case_bool_decide as H; [done|]. intros [= <-].
    cbn [minecraft_start_script minecraft_server_root minecraft_backup_root
         backup_retention_days].
    split; [done|]. split; [done|].
    split; [by destruct backup_root|]. split; [done|].
    split; [lia|]. split; [lia|]. split; [lia|].
    intros -> q [k1 ->] [k2 Hq].
    destruct server_root as [|n p]; [by apply H, suffix_nil|].
    cbn [parent tail joinpath] in *.
    assert (Hl : length k1 = length k2).
    { apply (f_equal length) in Hq. rewrite !length_app in Hq. cbn in Hq. lia. }
    apply app_inj_1 in Hq as [_ [= ->]]; [|done]. by apply H.
Qed.

End ConfigExtras.

(** ** The routes *)

Section ApiExtras.

Import Date Manager UseCases Config Api.



(** X18.  What [POST /api/server/stop] answers, and what it leaves.
    The answer depends on the liveness of the child alone: 409 when no
    live child is held, 202 [stopping] otherwise -- also while the
    server is still [STARTING] -- and [GET /api/server/status] on the
    same observation reports [running] accordingly.  A 409 leaves the
    manager [STOPPED] without handle and makes no call to the operating
    system.  The 202 is given whatever the stop does afterwards: once
    the background task has run, a handle is still held exactly when
    the child was alive as [stop] began, did not go away in time, and is
    seen alive by the closing refresh. *)
Theorem stop_server_answers (o : obs) (e : stop_env) (w : Manager.world) :
  let alive := is_alive (poll_is_None o) (self w) in
  let r := stop_server o e w in
  (snd r = inl (mkHTTPException 409) <-> alive = false)
  /\ (snd r = inr "stopping"%string <-> alive = true)
  /\ (exists state, snd (server_status o w) = inr (alive, state))
  /\ (alive = false ->
      os_calls (fst r) = os_calls w
      /\ _process (self (fst r)) = None
      /\ _state (self (fst r)) = STOPPED)
  /\ (alive = true ->
      (_process (self (fst r)) <> None
       <-> stop_poll_is_None e = true /\ child_goes_away e = false
           /\ poll_is_None (closing e) = true)).
Proof.
  intros alive r. subst alive r.
  unfold stop_server, server_status, is_running, get_state, _run_stop.
  change (_refresh_state_locked (Some (is_alive (poll_is_None o) (self w)))
            o (self w)) with (_refresh_state_locked None o (self w)).
  cbn [fst snd]. rewrite !_refresh_state_locked_state.
  pose proof (_refresh_state_locked_process o (self w)) as Hproc.
  pose proof (_refresh_state_locked_state o (self w)) as Hstate.
  destruct (is_alive (poll_is_None o) (self w)) eqn:A; cbn [fst snd].
  - split; [done|]. split; [done|]. split.
    { eexists. f_equal. f_equal. f_equal.
      case_decide; [by destruct (Qle_bool _ _)|done]. }
    split; [done|]. intros _.
    assert (Hp : exists process,
               _process (_refresh_state_locked None o (self w))
               = Some process).
    { rewrite Hproc. unfold is_alive in A.
      destruct (_process (self w)) as [process|]; [eauto|done]. }
    destruct Hp as [process Hp].
    generalize dependent (_refresh_state_locked None o (self w)).
    intros m1 _ _ Hp.
    unfold stop, stop_enter, terminate, child_goes_away. cbn [self os_calls].
    rewrite Hp. destruct (stop_poll_is_None e); cbn [fst snd].
    + destruct (stop_nt e), (signal_raises e), (exited_within_60 e);
        cbn [negb andb orb fst snd self os_calls stop_exit];
        try destruct (taskkill_returncode e =? 0);
        try destruct (exited_within_10 e);
        cbn [negb andb orb fst snd self os_calls stop_exit];
        rewrite ?_set_state_locked_process, ?_refresh_state_locked_process;
        cbn [set_process _process]; unfold is_alive; rewrite ?Hp;
        destruct (poll_is_None (closing e)); intuition congruence.
    + cbn [fst snd self]. rewrite _set_state_locked_process. cbn.
      intuition congruence.
  - split; [done|]. split; [done|]. split; [by eexists|].
    split; [|done]. intros _. cbn [self os_calls]. by rewrite Hproc, Hstate.
Qed.

End ApiExtras.

(** ** The further properties on the sample data *)

Section ExtraWitnesses.

Import Date Manager UseCases Config Api.

(** A run is what it leaves, paired with what it returns. *)
Lemma run_eq {W A : Type} (r : W * (exn + A)) (a : exn + A) :
  snd r = a -> r = (fst r, a).
Proof. intros <-. by destruct r. Qed.

Lemma running_is_latched_witness :
  poll_states [alive_obs; alive_obs] running_world
  = [inr RUNNING; inr RUNNING]
  /\ after_polls [alive_obs; alive_obs] running_world = running_world.
Proof.
  refine (proj1 running_is_latched [alive_obs; alive_obs] running_world
            (mkPopen 4001) _ _ _).
  - reflexivity.
  - reflexivity.
  - repeat constructor.
Defined.

Lemma stop_live_child_witness :
  snd (stop live_stop_env running_world) = inr tt
  <-> child_goes_away live_stop_env = true.
Proof.
  refine (proj1 (stop_live_child live_stop_env running_world (mkPopen 4001)
                   _ _)); reflexivity.
Defined.

Lemma start_outcomes_witness :
  os_calls (fst (start restart_env start_script running_world))
  = [spawn false start_script false true (parent start_script)]
  /\ _process (self (fst (start restart_env start_script running_world)))
     = Some (mkPopen 4002).
Proof.
  refine (proj2 (proj2 (start_outcomes restart_env start_script
                          running_world)) _ _); reflexivity.
Defined.

Lemma start_during_stop_is_forgotten_witness :
  let m := self running_world in
  let m1 := enter (cs_stop_enter live_stop_env) m in
  let m2 := enter (cs_start restart_env start_script) m1 in
  let m3 := enter (cs_stop_exit live_stop_env true) m2 in
  snd (stop_enter live_stop_env m) = inr (mkPopen 4001)
  /\ snd (start_locked restart_env start_script m1) = inr tt
  /\ _process m2 = Some (mkPopen 4002) /\ _state m2 = STARTING
  /\ _process m3 = None /\ _state m3 = STOPPED.
Proof.
  refine (start_during_stop_is_forgotten live_stop_env restart_env
            start_script (self running_world) (mkPopen 4001) (mkPopen 4002)
            _ _ _ _); reflexivity.
Defined.

Lemma prepare_daily_directory_outcomes_witness :
  wf (fst (Storage.prepare_daily_directory backups d2024_01_10 sample_fs)).
Proof.
  refine (proj1 (proj2 (proj2 (prepare_daily_directory_outcomes backups
                                 d2024_01_10 sample_fs)) _)).
  apply (bool_decide_unpack (wf sample_fs)). vm_compute. exact I.
Defined.

Lemma strptime_strftime_witness :
  strptime_Ymd (strftime_Ymd d2024_01_10) = Some d2024_01_10.
Proof.
  refine (proj1 strptime_strftime d2024_01_10 _ _).
  - reflexivity.
  - vm_compute. discriminate.
Defined.

Lemma prune_older_than_twice_witness :
  let fs1 := fst (Storage.prune_older_than backups d2024_01_10 7 None
                    sample_fs) in
  Storage.prune_older_than backups d2024_01_10 7 None fs1 = (fs1, inr []).
Proof.
  refine (prune_older_than_twice backups d2024_01_10 7 None sample_fs
            (fst (Storage.prune_older_than backups d2024_01_10 7 None
                    sample_fs))
            [["2024-01-03"; "backups"; "srv"]%string] _).
  apply run_eq. vm_compute. reflexivity.
Defined.

Lemma prune_older_than_retention_monotone_witness :
  let removed1 := [["2024-01-04"; "backups"; "srv"];
                   ["2024-01-03"; "backups"; "srv"]]%string in
  let removed2 := [["2024-01-03"; "backups"; "srv"]]%string in
  (forall p, p ∈ removed2 -> p ∈ removed1)
  /\ (forall q v,
         fst (Storage.prune_older_than backups d2024_01_10 3 None sample_fs)
           !! q = Some v ->
         fst (Storage.prune_older_than backups d2024_01_10 7 None sample_fs)
           !! q = Some v).
Proof.
  refine (prune_older_than_retention_monotone backups d2024_01_10 None
            sample_fs 3 7
            (fst (Storage.prune_older_than backups d2024_01_10 3 None
                    sample_fs))
            (fst (Storage.prune_older_than backups d2024_01_10 7 None
                    sample_fs))
            [["2024-01-04"; "backups"; "srv"];
             ["2024-01-03"; "backups"; "srv"]]%string
            [["2024-01-03"; "backups"; "srv"]]%string _ _ _).
  - lia.
  - apply run_eq. vm_compute. reflexivity.
  - apply run_eq. vm_compute. reflexivity.
Defined.

Lemma prune_older_than_keeps_witness :
  fst (Storage.prune_older_than backups d2024_01_10 7 None sample_fs)
    !! ([] ++ joinpath backups (strftime_Ymd (mkdate 2024 1 4)))
  = sample_fs !! ([] ++ joinpath backups (strftime_Ymd (mkdate 2024 1 4))).
Proof.
  refine (proj1 (proj2 (prune_older_than_keeps backups d2024_01_10 7 None
                          sample_fs
                          (fst (Storage.prune_older_than backups d2024_01_10
                                  7 None sample_fs))
                          [["2024-01-03"; "backups"; "srv"]%string] _))
            (mkdate 2024 1 4) [] _ _ _).
  - apply run_eq. vm_compute. reflexivity.
  - reflexivity.
  - simpl. lia.
  - vm_compute. reflexivity.
Defined.

Lemma prune_older_than_overflows_witness :
  (snd (Storage.prune_older_than backups d2024_01_10 800000 None sample_fs)
     = inl OverflowError
   <-> toordinal (default d2024_01_10 None) < Z.max 800000 1)
  /\ (snd (Storage.prune_older_than backups d2024_01_10 800000 None sample_fs)
        = inl OverflowError ->
      fst (Storage.prune_older_than backups d2024_01_10 800000 None sample_fs)
      = sample_fs).
Proof.
  refine (prune_older_than_overflows backups d2024_01_10 800000 None
            sample_fs _).
  reflexivity.
Defined.

Lemma ensure_daily_backup_first_run_witness :
  let target := joinpath backups (strftime_Ymd d2024_01_10) in
  exists w',
    @execute (ZipArchiveService_with mc_zip (zip_written "zipped"))
      (DailyBackupStorageService backups d2024_01_10)
      server_root 7 "minecraft-server-backup.zip" d2024_01_10
      sample_backup_world = (w', inr true)
    /\ fs w' !! joinpath target "minecraft-server-backup.zip"
       = Some (File "zipped")
    /\ fs w' !! mc_zip = None
    /\ (forall q, ~ q `suffix_of` backups ->
                  (forall k n, q <> k ++ joinpath backups n) ->
                  fs w' !! q = fs sample_backup_world !! q)
    /\ wf (fs w').
Proof.
  refine (ensure_daily_backup_first_run backups server_root mc_zip
            (zip_written "zipped") "zipped"
            "minecraft-server-backup.zip" 7 d2024_01_10 sample_backup_world
            _ _ _ _ _ _ _ _ _ _ _).
  - reflexivity.
  - apply Z.leb_le. reflexivity.
  - apply Z.leb_le. reflexivity.
  - vm_compute. reflexivity.
  - reflexivity.
  - apply (bool_decide_unpack (wf sample_fs)). vm_compute. exact I.
  - vm_compute. reflexivity.
  - vm_compute. reflexivity.
  - vm_compute. reflexivity.
  - vm_compute. reflexivity.
  - vm_compute. reflexivity.
Defined.

Lemma ensure_daily_backup_once_a_day_witness :
  let w1 :=
    fst (@execute (ZipArchiveService mc_zip "zipped")
           (DailyBackupStorageService backups d2024_01_10)
           server_root 7 "minecraft-server-backup.zip" d2024_01_10
           sample_backup_world) in
  @execute (ZipArchiveService mc_zip "again")
    (DailyBackupStorageService backups d2024_01_10)
    server_root 3 "other.zip" d2024_01_10 w1
  = ({| fs := fs w1;
        journal := journal w1 ++ [call_prepare_daily_directory d2024_01_10] |},
     inr false)
  /\ fs w1 !! joinpath (joinpath backups (strftime_Ymd d2024_01_10))
                "minecraft-server-backup.zip"
     = Some (File "zipped").
Proof.
  refine (ensure_daily_backup_once_a_day (ZipArchiveService mc_zip "again")
            backups server_root mc_zip "zipped" "minecraft-server-backup.zip"
            7 d2024_01_10 server_root 3 "other.zip" sample_backup_world
            _ _ _ _ _).
  - reflexivity.
  - apply Z.leb_le. reflexivity.
  - vm_compute. reflexivity.
  - apply run_eq. vm_compute. reflexivity.
Defined.

Lemma ensure_daily_backup_failure_is_not_retried_witness :
  let target := joinpath backups (strftime_Ymd d2024_01_10) in
  let w1 :=
    fst (@execute (ZipArchiveService_with mc_zip (zip_ValueError "partial"))
           (DailyBackupStorageService backups d2024_01_10)
           server_root 7 "minecraft-server-backup.zip" d2024_01_10
           sample_backup_world) in
  @execute (ZipArchiveService mc_zip "zipped")
    (DailyBackupStorageService backups d2024_01_10)
    server_root 7 "minecraft-server-backup.zip" d2024_01_10 w1
  = ({| fs := fs w1;
        journal := journal w1
                   ++ [call_prepare_daily_directory d2024_01_10] |},
     inr false)
  /\ (wf (fs sample_backup_world) -> parent mc_zip <> target ->
      journal w1
      = journal sample_backup_world
        ++ [call_prepare_daily_directory d2024_01_10;
            call_create_zip server_root] ->
      forall k, k <> [] -> fs w1 !! (k ++ target) = None).
Proof.
  refine (ensure_daily_backup_failure_is_not_retried
            (ZipArchiveService mc_zip "zipped")
            backups server_root mc_zip (zip_ValueError "partial")
            "minecraft-server-backup.zip" 7 d2024_01_10
            server_root 7 "minecraft-server-backup.zip" sample_backup_world
            _ ValueError _ _).
  - vm_compute. reflexivity.
  - apply run_eq. vm_compute. reflexivity.
Defined.

Lemma settings_backup_root_guard_witness :
  let s := {| minecraft_start_script := start_script;
              minecraft_server_root := server_root;
              minecraft_backup_root := backups;
              backup_retention_days := 1 |} in
  minecraft_start_script s = start_script
  /\ minecraft_server_root s = server_root
  /\ minecraft_backup_root s
     = default (joinpath (parent server_root) "backups") None
  /\ ~ server_root `suffix_of` minecraft_backup_root s
  /\ 1 <= backup_retention_days s
  /\ (0 <= 1 -> backup_retention_days s = 1)
  /\ (1 <= 0 -> backup_retention_days s = 0)
  /\ (@None path = None ->
      forall q, server_root `suffix_of` q ->
                ~ minecraft_backup_root s `suffix_of` q).
Proof.
  refine (proj2 (settings_backup_root_guard start_script server_root None 0)
            _ _).
  reflexivity.
Defined.


Lemma stop_server_answers_witness :
  snd (stop_server alive_obs live_stop_env (snd sample_world))
  = inl (mkHTTPException 409).
Proof.
  refine (proj2 (proj1 (stop_server_answers alive_obs live_stop_env
                          (snd sample_world))) _).
  reflexivity.
Defined.

End ExtraWitnesses.
